(** * Push-notification backends of convex-guids

    A shallow embedding of the two Convex backends that keep push tokens and
    fan notifications out to their recipients:

    - [WithAuth]: [with auth/convex/pushNotifications.ts], recipients are rows
      of the [users] table and the caller is an authenticated user;
    - [WithoutAuth]: the device variant ([without auth], the file next to
      [schema.ts]), recipients are rows of the [devices] table.

    Every handler is an [async] function over a Convex context [ctx].  It is
    embedded as a function in the monad [M], which threads a [World] (the
    table, the state of the external push component, the clock) and carries
    the exception a handler may throw. *)

From Stdlib Require Import List String Ascii DecimalString ZArith Bool Arith Lia Permutation.
Import ListNotations.
Open Scope string_scope.

(** ** JavaScript values *)

(** Document ids are opaque non-empty strings issued by the store (the
    validator [v.id] rejects anything else), hence always truthy and only ever
    compared with [===]: they are embedded as numbers. *)
Definition Id := nat.

(** What a [throw] may carry.  [ConvexError] extends [Error]; its [message]
    is its string payload. *)
Inductive Thrown : Type :=
| ConvexError (data : string)
| JsError (message : string)
| JsValue.

Inductive Result (A : Type) : Type :=
| Ok (a : A)
| Throw (e : Thrown).
Arguments Ok {A} a.
Arguments Throw {A} e.

(** [error instanceof Error ? error.message : "Unknown error"] *)
Definition errorMessage (error : Thrown) : string :=
  match error with
  | ConvexError data => data
  | JsError message => message
  | JsValue => "Unknown error"
  end.

(** Truthiness of a [string | null | undefined]: absent and empty are falsy. *)
Definition truthy (s : option string) : bool :=
  match s with
  | Some s => negb (s =? "")%string
  | None => false
  end.

(** Truthiness of an optional boolean argument. *)
Definition truthyb (b : option bool) : bool :=
  match b with
  | Some true => true
  | _ => false
  end.

(** Values accepted by [v.any()], as far as the handlers look into them. *)
#[local] Unset Elimination Schemes.
Inductive JVal : Type :=
| JUndefined
| JNull
| JBool (b : bool)
| JNum (n : Z)
| JStr (s : string)
| JId (i : Id)
| JArr (items : list JVal)
| JObj (fields : list (string * JVal)).
#[local] Set Elimination Schemes.

Definition JObject := list (string * JVal).

(** [obj[key] = value]: an existing key keeps its place, a new one goes last. *)
Fixpoint obj_set (key : string) (value : JVal) (obj : JObject) : JObject :=
  match obj with
  | [] => [(key, value)]
  | (k, x) :: rest =>
      if (k =? key) then (k, value) :: rest else (k, x) :: obj_set key value rest
  end.

(** [obj[key]], [undefined] being [None]. *)
Fixpoint obj_get (key : string) (obj : JObject) : option JVal :=
  match obj with
  | [] => None
  | (k, x) :: rest => if (k =? key) then Some x else obj_get key rest
  end.

Definition nat_to_string (n : nat) : string :=
  NilEmpty.string_of_uint (Nat.to_uint n).

Fixpoint indexed (k : nat) (l : list JVal) : JObject :=
  match l with
  | [] => []
  | x :: rest => (nat_to_string k, x) :: indexed (S k) rest
  end.

(** [{ ...data }]: the own enumerable properties of the value spread. *)
Definition spread (data : option JVal) : JObject :=
  match data with
  | Some (JObj fields) => fold_left (fun o kv => obj_set (fst kv) (snd kv) o) fields []
  | Some (JArr items) => indexed 0 items
  | Some (JStr s) =>
      indexed 0 (map (fun c => JStr (String c EmptyString)) (list_ascii_of_string s))
  | _ => []
  end.

(** ** The handler monad *)

Definition M (W A : Type) : Type := W -> Result A * W.

Definition ret {W A} (a : A) : M W A := fun w => (Ok a, w).

Definition throw {W A} (e : Thrown) : M W A := fun w => (Throw e, w).

Definition bind {W A B} (m : M W A) (k : A -> M W B) : M W B :=
  fun w =>
    match m w with
    | (Ok a, w') => k a w'
    | (Throw e, w') => (Throw e, w')
    end.

Declare Scope handler_scope.
Delimit Scope handler_scope with handler.
Notation "x <- m ;; k" := (bind m (fun x => k))
  (at level 61, m at next level, right associativity) : handler_scope.
Notation "m ;;; k" := (bind m (fun _ => k))
  (at level 61, right associativity) : handler_scope.
Open Scope handler_scope.

(** [for (const x of xs) { acc = body(x, acc) }] *)
Fixpoint forOf {W A B} (body : A -> B -> M W B) (xs : list A) (acc : B) : M W B :=
  match xs with
  | [] => ret acc
  | x :: rest => acc' <- body x acc ;; forOf body rest acc'
  end.

(** ** The external push component

    [@convex-dev/expo-push-notifications] is not part of the repository; the
    handlers use it through the [PushNotifications] class. *)
Module Push.

Record Notification : Type := {
  title : string;
  body : option string;
  data : option JVal;
  sound : string;
  priority : string
}.

Record SendArgs : Type := {
  userId : Id;
  notification : Notification;
  allowUnregisteredTokens : bool
}.

(** A call of [sendPushNotification] resolves to an id or to [null], or
    rejects. *)
Inductive Outcome : Type :=
| Returned (notificationId : option string)
| Raised (error : Thrown).

Record Status : Type := {
  hasToken : bool;
  paused : bool
}.

(** Modelled from the spec: the component's methods, of which only the
    calls are in the repository.  The spec lets delivery return an id,
    return null or raise, and describes registering and removing a token
    as operations that do not fail on a token already present or absent:
    [sendPushNotification] is an arbitrary transition with an [Outcome],
    the others are arbitrary total transitions of the component's state. *)
Class PushNotifications (C : Type) : Type := {
  recordToken : C -> Id -> string -> C;
  removeToken : C -> Id -> C;
  sendPushNotification : C -> SendArgs -> Outcome * C;
  getStatusForUser : C -> Id -> Status
}.

(** One delivery attempt as it is seen from a handler. *)
Definition Attempt : Type := SendArgs * Outcome.

Definition attemptTo (a : Attempt) : Id := userId (fst a).

(** The attempts a call added to the log it started from. *)
Definition newAttempts (before after : list Attempt) : list Attempt :=
  skipn (List.length before) after.

(** The component answered with an id the handlers take as one. *)
Definition delivered (a : Attempt) : bool :=
  match snd a with
  | Returned notificationId => truthy notificationId
  | Raised _ => false
  end.

(** The component answered, with [null] or another falsy value. *)
Definition unanswered (a : Attempt) : bool :=
  match snd a with
  | Returned notificationId => negb (truthy notificationId)
  | Raised _ => false
  end.

(** The component raised. *)
Definition raised (a : Attempt) : bool :=
  match snd a with
  | Returned _ => false
  | Raised _ => true
  end.

Definition count (p : Attempt -> bool) (l : list Attempt) : nat :=
  List.length (filter p l).

End Push.

(** [try { m } catch (error) { handler(error) }] *)
Definition try_catch {W A} (m : M W A) (handler : Thrown -> M W A) : M W A :=
  fun w =>
    match m w with
    | (Ok a, w') => (Ok a, w')
    | (Throw error, w') => handler error w'
    end.

(** ** The authenticated variant: [with auth/convex/pushNotifications.ts] *)
Module WithAuth.
Import Push.

(** A row of the [users] table (the table of the auth library, with the
    [pushToken] column the handlers add). *)
Record User : Type := {
  _id : Id;
  _creationTime : Z;
  name : option string;
  image : option string;
  email : option string;
  emailVerificationTime : option Z;
  phone : option string;
  phoneVerificationTime : option Z;
  isAnonymous : option bool;
  pushToken : option string
}.

Definition set_pushToken (token : option string) (u : User) : User :=
  {| _id := _id u; _creationTime := _creationTime u; name := name u;
     image := image u; email := email u;
     emailVerificationTime := emailVerificationTime u; phone := phone u;
     phoneVerificationTime := phoneVerificationTime u;
     isAnonymous := isAnonymous u; pushToken := token |}.

(** What a handler reaches through [ctx] and the module-level component
    handle.  [attempts] is a ghost field: the deliveries requested so far,
    oldest first, each with what the component answered. *)
Record World (C : Type) : Type := {
  users : list User;
  authUserId : option Id;
  push : C;
  attempts : list Attempt;
  clock : nat -> Z;
  ticks : nat
}.
Arguments users {C} _.
Arguments authUserId {C} _.
Arguments push {C} _.
Arguments attempts {C} _.
Arguments clock {C} _.
Arguments ticks {C} _.

Module Detail.
Inductive Status : Type := success | failed | no_token.
Record t : Type := {
  userId : Id;
  status : Status;
  notificationId : option string;
  error : option string
}.
End Detail.

(** The mutable locals of a broadcast loop. *)
Module Locals.
Record t : Type := {
  successCount : nat;
  failedCount : nat;
  details : list Detail.t
}.
End Locals.

Record BroadcastArgs : Type := {
  title : string;
  body : option string;
  data : option JVal;
  excludeCurrentUser : option bool;
  requireAuth : option bool
}.

Record BroadcastResult : Type := {
  success : nat;
  failed : nat;
  total : nat;
  senderId : option Id;
  details : list Detail.t
}.

Record SystemBroadcastArgs : Type := {
  sys_title : string;
  sys_body : option string;
  sys_data : option JVal
}.

Record SystemBroadcastResult : Type := {
  sys_success : nat;
  sys_failed : nat;
  sys_total : nat;
  totalUsers : nat;
  usersWithTokens : nat;
  usersWithoutTokens : nat;
  sys_details : list Detail.t
}.

Record SendToUserArgs : Type := {
  recipientId : Id;
  msg_title : string;
  msg_body : option string;
  msg_data : option JVal
}.

(** The row of the table that carries the id, if there is one. *)
Definition resolve (id : Id) (table : list User) : option User :=
  find (fun u => (_id u =? id)%nat) table.

Section Handlers.
Context {C : Type} `{PushNotifications C}.

Definition set_users (us : list User) (w : World C) : World C :=
  {| users := us; authUserId := authUserId w; push := push w;
     attempts := attempts w; clock := clock w; ticks := ticks w |}.

Definition set_push (c : C) (w : World C) : World C :=
  {| users := users w; authUserId := authUserId w; push := c;
     attempts := attempts w; clock := clock w; ticks := ticks w |}.

(** [Date.now()] *)
Definition Date_now : M (World C) Z :=
  fun w =>
    (Ok (clock w (ticks w)),
     {| users := users w; authUserId := authUserId w; push := push w;
        attempts := attempts w; clock := clock w; ticks := S (ticks w) |}).

(** [ctx.db.get(id)] *)
Definition db_get (id : Id) : M (World C) (option User) :=
  fun w => (Ok (resolve id (users w)), w).

(** [ctx.db.patch(id, fields)]; the store rejects a missing document. *)
Definition db_patch (id : Id) (fields : User -> User) : M (World C) unit :=
  fun w =>
    match resolve id (users w) with
    | Some _ =>
        (Ok tt,
         set_users (map (fun u => if (_id u =? id)%nat then fields u else u) (users w)) w)
    | None => (Throw (JsError "Update on nonexistent document"), w)
    end.

(** [ctx.db.query("users").collect()] *)
Definition db_collect : M (World C) (list User) :=
  fun w => (Ok (users w), w).

Definition getAuthUserId : M (World C) (option Id) :=
  fun w => (Ok (authUserId w), w).

(** [pushNotifications.recordToken(ctx, { userId, pushToken })] *)
Definition push_recordToken (userId : Id) (token : string) : M (World C) unit :=
  fun w => (Ok tt, set_push (recordToken (push w) userId token) w).

(** [pushNotifications.removeToken(ctx, { userId })] *)
Definition push_removeToken (userId : Id) : M (World C) unit :=
  fun w => (Ok tt, set_push (removeToken (push w) userId) w).

(** [pushNotifications.getStatusForUser(ctx, { userId })] *)
Definition push_getStatusForUser (userId : Id) : M (World C) Status :=
  fun w => (Ok (getStatusForUser (push w) userId), w).

(** [pushNotifications.sendPushNotification(ctx, args)]: the component
    moves, the attempt is logged, and a rejection becomes a [Throw]. *)
Definition push_sendPushNotification (args : SendArgs) : M (World C) (option string) :=
  fun w =>
    let (outcome, c) := sendPushNotification (push w) args in
    let w' :=
      {| users := users w; authUserId := authUserId w; push := c;
         attempts := (attempts w ++ [(args, outcome)])%list;
         clock := clock w; ticks := ticks w |} in
    match outcome with
    | Returned notificationId => (Ok notificationId, w')
    | Raised error => (Throw error, w')
    end.

Definition getCurrentUser : M (World C) (option User) :=
  userId <- getAuthUserId ;;
  match userId with
  | None => ret None
  | Some userId => db_get userId
  end.

Definition recordPushToken (token : string) : M (World C) unit :=
  user <- getCurrentUser ;;
  match user with
  | None => throw (ConvexError "User must be authenticated to record push token")
  | Some user =>
      push_recordToken (_id user) token ;;;
      db_patch (_id user) (set_pushToken (Some token)) ;;;
      ret tt
  end.

Definition removePushToken : M (World C) unit :=
  user <- getCurrentUser ;;
  match user with
  | None => throw (ConvexError "User must be authenticated")
  | Some user =>
      push_removeToken (_id user) ;;;
      db_patch (_id user) (set_pushToken None) ;;;
      ret tt
  end.

Definition sendNotificationToUser (args : SendToUserArgs) : M (World C) (option string) :=
  user <- getCurrentUser ;;
  match user with
  | None => throw (ConvexError "User must be authenticated to send notifications")
  | Some _ =>
      recipient <- db_get (recipientId args) ;;
      match recipient with
      | None => throw (ConvexError "Recipient not found")
      | Some _ =>
          notificationId <-
            push_sendPushNotification
              {| Push.userId := recipientId args;
                 notification :=
                   {| Push.title := msg_title args;
                      Push.body := msg_body args;
                      Push.data := msg_data args;
                      sound := "default";
                      priority := "high" |};
                 allowUnregisteredTokens := true |} ;;
          ret notificationId
      end
  end.

Definition getMyPushStatus : M (World C) Status :=
  user <- getCurrentUser ;;
  match user with
  | None => ret {| hasToken := false; paused := false |}
  | Some user =>
      status <- push_getStatusForUser (_id user) ;;
      ret status
  end.

Definition id_value (id : option Id) : JVal :=
  match id with
  | Some id => JId id
  | None => JUndefined
  end.

(** [args.excludeCurrentUser && currentUser && user._id === currentUser._id] *)
Definition isExcluded (args : BroadcastArgs) (currentUser : option User)
    (user : User) : bool :=
  truthyb (excludeCurrentUser args) &&
  match currentUser with
  | Some currentUser => (_id user =? _id currentUser)%nat
  | None => false
  end.

(** The callback that selects [usersWithTokens]. *)
Definition withToken (args : BroadcastArgs) (currentUser : option User)
    (user : User) : bool :=
  if isExcluded args currentUser user then false else truthy (pushToken user).

(** The callback that selects [usersWithoutTokens]. *)
Definition withoutToken (args : BroadcastArgs) (currentUser : option User)
    (user : User) : bool :=
  if isExcluded args currentUser user then false else negb (truthy (pushToken user)).

(** One turn of [for (const user of usersWithTokens)]. *)
Definition broadcastTurn (payload : Z -> JObject)
    (title : string) (body : option string)
    (user : User) (st : Locals.t) : M (World C) Locals.t :=
  try_catch
    (timestamp <- Date_now ;;
     notificationId <-
       push_sendPushNotification
         {| Push.userId := _id user;
            notification :=
              {| Push.title := title;
                 Push.body := body;
                 Push.data :=
                   Some (JObj (payload timestamp));
                 sound := "default";
                 priority := "high" |};
            allowUnregisteredTokens := true |} ;;
     if truthy notificationId then
       ret {| Locals.successCount := S (Locals.successCount st);
              Locals.failedCount := Locals.failedCount st;
              Locals.details :=
                (Locals.details st ++
                 [{| Detail.userId := _id user;
                     Detail.status := Detail.success;
                     Detail.notificationId := notificationId;
                     Detail.error := None |}])%list |}
     else
       ret {| Locals.successCount := Locals.successCount st;
              Locals.failedCount := Locals.failedCount st;
              Locals.details :=
                (Locals.details st ++
                 [{| Detail.userId := _id user;
                     Detail.status := Detail.no_token;
                     Detail.notificationId := None;
                     Detail.error := None |}])%list |})
    (fun error =>
       ret {| Locals.successCount := Locals.successCount st;
              Locals.failedCount := S (Locals.failedCount st);
              Locals.details :=
                (Locals.details st ++
                 [{| Detail.userId := _id user;
                     Detail.status := Detail.failed;
                     Detail.notificationId := None;
                     Detail.error := Some (errorMessage error) |}])%list |}).

(** [for (const user of usersWithoutTokens) details.push(...)] *)
Definition pushNoToken (details : list Detail.t) (without : list User) : list Detail.t :=
  fold_left
    (fun details user =>
       (details ++
        [{| Detail.userId := _id user;
            Detail.status := Detail.no_token;
            Detail.notificationId := None;
            Detail.error := None |}])%list)
    without details.

Definition start : Locals.t :=
  {| Locals.successCount := 0; Locals.failedCount := 0; Locals.details := [] |}.

(** [args.requireAuth !== false] *)
Definition authRequired (args : BroadcastArgs) : bool :=
  match requireAuth args with
  | Some false => false
  | _ => true
  end.

Definition sendBroadcastNotification (args : BroadcastArgs) : M (World C) BroadcastResult :=
  let requireAuth := authRequired args in
  currentUser <-
    (if requireAuth then
       currentUser <- getCurrentUser ;;
       match currentUser with
       | None =>
           throw (ConvexError "User must be authenticated to send broadcast notifications")
       | Some _ => ret currentUser
       end
     else getCurrentUser) ;;
  let senderId := option_map _id currentUser in
  allUsers <- db_collect ;;
  let usersWithTokens := filter (withToken args currentUser) allUsers in
  st <-
    forOf
      (broadcastTurn
         (fun timestamp =>
            obj_set "systemBroadcast" (JBool (negb requireAuth))
              (obj_set "timestamp" (JNum timestamp)
                 (obj_set "senderId" (id_value senderId)
                    (obj_set "type" (JStr "broadcast") (spread (data args))))))
         (title args) (body args))
      usersWithTokens start ;;
  let usersWithoutTokens := filter (withoutToken args currentUser) allUsers in
  ret {| success := Locals.successCount st;
         failed := Locals.failedCount st;
         total := List.length usersWithTokens;
         senderId := senderId;
         details := pushNoToken (Locals.details st) usersWithoutTokens |}.

Definition sendSystemBroadcast (args : SystemBroadcastArgs) : M (World C) SystemBroadcastResult :=
  allUsers <- db_collect ;;
  let usersWithTokens := filter (fun user => truthy (pushToken user)) allUsers in
  let usersWithoutTokens := filter (fun user => negb (truthy (pushToken user))) allUsers in
  st <-
    forOf
      (broadcastTurn
         (fun timestamp =>
            obj_set "systemMessage" (JBool true)
              (obj_set "timestamp" (JNum timestamp)
                 (obj_set "type" (JStr "system_broadcast") (spread (sys_data args)))))
         (sys_title args) (sys_body args))
      usersWithTokens start ;;
  ret {| sys_success := Locals.successCount st;
         sys_failed := Locals.failedCount st;
         sys_total := List.length usersWithTokens;
         totalUsers := List.length allUsers;
         usersWithTokens := List.length usersWithTokens;
         usersWithoutTokens := List.length usersWithoutTokens;
         sys_details := pushNoToken (Locals.details st) usersWithoutTokens |}.

Definition sendTestNotification : M (World C) (option string) :=
  user <- getCurrentUser ;;
  match user with
  | None => throw (ConvexError "User must be authenticated")
  | Some user =>
      timestamp <- Date_now ;;
      notificationId <-
        push_sendPushNotification
          {| Push.userId := _id user;
             notification :=
               {| Push.title := "Test Notification ðŸŽ‰";
                  Push.body := Some "This is a test notification from your app!";
                  Push.data :=
                    Some (JObj (obj_set "timestamp" (JNum timestamp)
                                  (obj_set "type" (JStr "test") [])));
                  sound := "default";
                  priority := "high" |};
             allowUnregisteredTokens := true |} ;;
      ret notificationId
  end.

Definition getCurrentUserWithToken : M (World C) (option User) :=
  user <- getCurrentUser ;;
  ret user.

(** *** Reading a run *)

(** The user [getCurrentUser] resolves to in [w]. *)
Definition currentUserOf (w : World C) : option User :=
  match authUserId w with
  | Some userId => resolve userId (users w)
  | None => None
  end.

(** [usersWithTokens] and [usersWithoutTokens] of a broadcast run in [w]. *)
Definition eligible (args : BroadcastArgs) (w : World C) : list User :=
  filter (withToken args (currentUserOf w)) (users w).

Definition ineligible (args : BroadcastArgs) (w : World C) : list User :=
  filter (withoutToken args (currentUserOf w)) (users w).

End Handlers.

(** The entry a turn of the loop pushes for the attempt it made. *)
Definition detailOf (a : Attempt) : Detail.t :=
  match snd a with
  | Returned notificationId =>
      if truthy notificationId then
        {| Detail.userId := attemptTo a; Detail.status := Detail.success;
           Detail.notificationId := notificationId; Detail.error := None |}
      else
        {| Detail.userId := attemptTo a; Detail.status := Detail.no_token;
           Detail.notificationId := None; Detail.error := None |}
  | Raised error =>
      {| Detail.userId := attemptTo a; Detail.status := Detail.failed;
         Detail.notificationId := None; Detail.error := Some (errorMessage error) |}
  end.

(** The entry pushed for a user that is not attempted. *)
Definition noTokenDetail (user : User) : Detail.t :=
  {| Detail.userId := _id user; Detail.status := Detail.no_token;
     Detail.notificationId := None; Detail.error := None |}.

End WithAuth.

(** ** The device variant: the handlers over the [devices] table of
    [without auth/convex/schema.ts] *)
Module WithoutAuth.
Import Push.

(** A row of the [devices] table. *)
Record Device : Type := {
  _id : Id;
  _creationTime : Z;
  pushToken : string;
  deviceId : option string;
  platform : option string;
  appVersion : option string;
  lastSeen : Z;
  isActive : option bool
}.

Definition set_lastSeen (t : Z) (d : Device) : Device :=
  {| _id := _id d; _creationTime := _creationTime d; pushToken := pushToken d;
     deviceId := deviceId d; platform := platform d; appVersion := appVersion d;
     lastSeen := t; isActive := isActive d |}.

Definition set_isActive (b : option bool) (d : Device) : Device :=
  {| _id := _id d; _creationTime := _creationTime d; pushToken := pushToken d;
     deviceId := deviceId d; platform := platform d; appVersion := appVersion d;
     lastSeen := lastSeen d; isActive := b |}.

(** As in [WithAuth], with the [devices] table and no caller identity. *)
Record World (C : Type) : Type := {
  devices : list Device;
  push : C;
  attempts : list Attempt;
  clock : nat -> Z;
  ticks : nat
}.
Arguments devices {C} _.
Arguments push {C} _.
Arguments attempts {C} _.
Arguments clock {C} _.
Arguments ticks {C} _.

Module Detail.
Inductive Status : Type := success | failed | inactive.
Record t : Type := {
  deviceId : Id;
  status : Status;
  notificationId : option string;
  error : option string
}.
End Detail.

Module Locals.
Record t : Type := {
  successCount : nat;
  failedCount : nat;
  details : list Detail.t
}.
End Locals.

Module DeviceStatus.
Record t : Type := {
  hasToken : bool;
  paused : bool;
  isActive : bool
}.
End DeviceStatus.

Record RegisterArgs : Type := {
  reg_pushToken : string;
  reg_deviceId : option string;
  reg_platform : option string;
  reg_appVersion : option string
}.

Record SendToDeviceArgs : Type := {
  msg_deviceId : Id;
  msg_title : string;
  msg_body : option string;
  msg_data : option JVal
}.

Record BroadcastArgs : Type := {
  title : string;
  body : option string;
  data : option JVal;
  excludeDeviceId : option Id
}.

Record BroadcastResult : Type := {
  success : nat;
  failed : nat;
  total : nat;
  details : list Detail.t
}.

(** The row of the table that carries the id, if there is one. *)
Definition resolve (id : Id) (table : list Device) : option Device :=
  find (fun d => (_id d =? id)%nat) table.

Record SendByTokenArgs : Type := {
  tok_pushToken : string;
  tok_title : string;
  tok_body : option string;
  tok_data : option JVal
}.

(** The first row of the [pushToken] index that carries the token. *)
Definition firstWithToken (token : string) (table : list Device) : option Device :=
  find (fun d => (pushToken d =? token)%string) table.

Section Handlers.
Context {C : Type} `{PushNotifications C}.

Definition set_devices (ds : list Device) (w : World C) : World C :=
  {| devices := ds; push := push w; attempts := attempts w;
     clock := clock w; ticks := ticks w |}.

Definition set_push (c : C) (w : World C) : World C :=
  {| devices := devices w; push := c; attempts := attempts w;
     clock := clock w; ticks := ticks w |}.

(** [Date.now()] *)
Definition Date_now : M (World C) Z :=
  fun w =>
    (Ok (clock w (ticks w)),
     {| devices := devices w; push := push w; attempts := attempts w;
        clock := clock w; ticks := S (ticks w) |}).

(** [ctx.db.get(id)] *)
Definition db_get (id : Id) : M (World C) (option Device) :=
  fun w => (Ok (resolve id (devices w)), w).

(** [ctx.db.query("devices").withIndex("pushToken", q => q.eq("pushToken", token)).first()] *)
Definition db_first_by_pushToken (token : string) : M (World C) (option Device) :=
  fun w => (Ok (firstWithToken token (devices w)), w).

(** [ctx.db.query("devices").collect()] *)
Definition db_collect : M (World C) (list Device) :=
  fun w => (Ok (devices w), w).

(** [ctx.db.patch(id, fields)]; the store rejects a missing document. *)
Definition db_patch (id : Id) (fields : Device -> Device) : M (World C) unit :=
  fun w =>
    match resolve id (devices w) with
    | Some _ =>
        (Ok tt,
         set_devices
           (map (fun d => if (_id d =? id)%nat then fields d else d) (devices w)) w)
    | None => (Throw (JsError "Update on nonexistent document"), w)
    end.

(** The id the store issues to the next document: one no row carries. *)
Definition fresh_id (ds : list Device) : Id :=
  S (fold_right Nat.max 0 (map _id ds)).

(** [ctx.db.insert("devices", doc)]: the store fills in [_id] and
    [_creationTime] and appends the row. *)
Definition db_insert (doc : Id -> Z -> Device) : M (World C) Id :=
  fun w =>
    let id := fresh_id (devices w) in
    (Ok id,
     {| devices := (devices w ++ [doc id (clock w (ticks w))])%list;
        push := push w; attempts := attempts w;
        clock := clock w; ticks := S (ticks w) |}).

Definition push_recordToken (userId : Id) (token : string) : M (World C) unit :=
  fun w => (Ok tt, set_push (recordToken (push w) userId token) w).

Definition push_removeToken (userId : Id) : M (World C) unit :=
  fun w => (Ok tt, set_push (removeToken (push w) userId) w).

Definition push_getStatusForUser (userId : Id) : M (World C) Status :=
  fun w => (Ok (getStatusForUser (push w) userId), w).

Definition push_sendPushNotification (args : SendArgs) : M (World C) (option string) :=
  fun w =>
    let (outcome, c) := sendPushNotification (push w) args in
    let w' :=
      {| devices := devices w; push := c;
         attempts := (attempts w ++ [(args, outcome)])%list;
         clock := clock w; ticks := ticks w |} in
    match outcome with
    | Returned notificationId => (Ok notificationId, w')
    | Raised error => (Throw error, w')
    end.

(** The fields [registerDevice] patches onto the row it found. *)
Definition refresh (args : RegisterArgs) (now : Z) (d : Device) : Device :=
  {| _id := _id d; _creationTime := _creationTime d;
     pushToken := pushToken d;
     deviceId := reg_deviceId args;
     platform := reg_platform args;
     appVersion := reg_appVersion args;
     lastSeen := now;
     isActive := Some true |}.

Definition registerDevice (args : RegisterArgs) : M (World C) Id :=
  existingDevice <- db_first_by_pushToken (reg_pushToken args) ;;
  match existingDevice with
  | Some existingDevice =>
      now <- Date_now ;;
      db_patch (_id existingDevice) (refresh args now) ;;;
      ret (_id existingDevice)
  | None =>
      now <- Date_now ;;
      deviceId <-
        db_insert
          (fun id created =>
             {| _id := id; _creationTime := created;
                pushToken := reg_pushToken args;
                deviceId := reg_deviceId args;
                platform := reg_platform args;
                appVersion := reg_appVersion args;
                lastSeen := now;
                isActive := Some true |}) ;;
      push_recordToken deviceId (reg_pushToken args) ;;;
      ret deviceId
  end.

Definition getAllDevices : M (World C) (list Device) := db_collect.

Definition removeDeviceToken (deviceId : Id) : M (World C) unit :=
  device <- db_get deviceId ;;
  match device with
  | None => throw (ConvexError "Device not found")
  | Some _ =>
      push_removeToken deviceId ;;;
      db_patch deviceId (set_isActive (Some false)) ;;;
      ret tt
  end.

(** [!device.isActive] *)
Definition notActive (device : Device) : bool :=
  match isActive device with
  | Some true => false
  | _ => true
  end.

Definition sendNotificationToDevice (args : SendToDeviceArgs) : M (World C) (option string) :=
  device <- db_get (msg_deviceId args) ;;
  match device with
  | None => throw (ConvexError "Device not found")
  | Some device =>
      if notActive device then throw (ConvexError "Device is not active")
      else
        notificationId <-
          push_sendPushNotification
            {| userId := msg_deviceId args;
               notification :=
                 {| Push.title := msg_title args;
                    Push.body := msg_body args;
                    Push.data := msg_data args;
                    sound := "default";
                    priority := "high" |};
               allowUnregisteredTokens := true |} ;;
        now <- Date_now ;;
        db_patch (msg_deviceId args) (set_lastSeen now) ;;;
        ret notificationId
  end.

Definition getDevicePushStatus (deviceId : Id) : M (World C) DeviceStatus.t :=
  device <- db_get deviceId ;;
  match device with
  | None =>
      ret {| DeviceStatus.hasToken := false;
             DeviceStatus.paused := false;
             DeviceStatus.isActive := false |}
  | Some device =>
      status <- push_getStatusForUser deviceId ;;
      ret {| DeviceStatus.hasToken := hasToken status;
             DeviceStatus.paused := paused status;
             DeviceStatus.isActive :=
               match isActive device with
               | Some b => b
               | None => true
               end |}
  end.

(** [args.excludeDeviceId && device._id === args.excludeDeviceId] *)
Definition isExcluded (args : BroadcastArgs) (device : Device) : bool :=
  match excludeDeviceId args with
  | Some excluded => (_id device =? excluded)%nat
  | None => false
  end.

(** The callback that selects [activeDevices]: [device.isActive !== false]. *)
Definition isActiveDevice (args : BroadcastArgs) (device : Device) : bool :=
  if isExcluded args device then false
  else match isActive device with
       | Some false => false
       | _ => true
       end.

(** The callback that selects [inactiveDevices]: [device.isActive === false]. *)
Definition isInactiveDevice (args : BroadcastArgs) (device : Device) : bool :=
  if isExcluded args device then false
  else match isActive device with
       | Some false => true
       | _ => false
       end.

(** One turn of [for (const device of activeDevices)]. *)
Definition broadcastTurn (args : BroadcastArgs) (device : Device) (st : Locals.t)
    : M (World C) Locals.t :=
  try_catch
    (timestamp <- Date_now ;;
     notificationId <-
       push_sendPushNotification
         {| userId := _id device;
            notification :=
              {| Push.title := title args;
                 Push.body := body args;
                 Push.data :=
                   Some (JObj
                     (obj_set "timestamp" (JNum timestamp)
                        (obj_set "type" (JStr "broadcast") (spread (data args)))));
                 sound := "default";
                 priority := "high" |};
            allowUnregisteredTokens := true |} ;;
     if truthy notificationId then
       ret {| Locals.successCount := S (Locals.successCount st);
              Locals.failedCount := Locals.failedCount st;
              Locals.details :=
                (Locals.details st ++
                 [{| Detail.deviceId := _id device;
                     Detail.status := Detail.success;
                     Detail.notificationId := notificationId;
                     Detail.error := None |}])%list |}
     else
       ret {| Locals.successCount := Locals.successCount st;
              Locals.failedCount := Locals.failedCount st;
              Locals.details :=
                (Locals.details st ++
                 [{| Detail.deviceId := _id device;
                     Detail.status := Detail.failed;
                     Detail.notificationId := None;
                     Detail.error := Some "No notification ID returned" |}])%list |})
    (fun error =>
       ret {| Locals.successCount := Locals.successCount st;
              Locals.failedCount := S (Locals.failedCount st);
              Locals.details :=
                (Locals.details st ++
                 [{| Detail.deviceId := _id device;
                     Detail.status := Detail.failed;
                     Detail.notificationId := None;
                     Detail.error := Some (errorMessage error) |}])%list |}).

(** [for (const device of inactiveDevices) details.push(...)] *)
Definition pushInactive (details : list Detail.t) (inactiveDevices : list Device)
    : list Detail.t :=
  fold_left
    (fun details device =>
       (details ++
        [{| Detail.deviceId := _id device;
            Detail.status := Detail.inactive;
            Detail.notificationId := None;
            Detail.error := None |}])%list)
    inactiveDevices details.

Definition start : Locals.t :=
  {| Locals.successCount := 0; Locals.failedCount := 0; Locals.details := [] |}.

Definition sendBroadcastNotification (args : BroadcastArgs) : M (World C) BroadcastResult :=
  allDevices <- db_collect ;;
  let activeDevices := filter (isActiveDevice args) allDevices in
  st <- forOf (broadcastTurn args) activeDevices start ;;
  let inactiveDevices := filter (isInactiveDevice args) allDevices in
  ret {| success := Locals.successCount st;
         failed := Locals.failedCount st;
         total := List.length activeDevices;
         details := pushInactive (Locals.details st) inactiveDevices |}.

Definition sendNotificationByToken (args : SendByTokenArgs) : M (World C) (option string) :=
  device <- db_first_by_pushToken (tok_pushToken args) ;;
  match device with
  | None => throw (ConvexError "Device with this token not found")
  | Some device =>
      notificationId <-
        push_sendPushNotification
          {| userId := _id device;
             notification :=
               {| Push.title := tok_title args;
                  Push.body := tok_body args;
                  Push.data := tok_data args;
                  sound := "default";
                  priority := "high" |};
             allowUnregisteredTokens := true |} ;;
      now <- Date_now ;;
      db_patch (_id device) (set_lastSeen now) ;;;
      ret notificationId
  end.

Definition sendTestNotification (deviceId : Id) : M (World C) (option string) :=
  device <- db_get deviceId ;;
  match device with
  | None => throw (ConvexError "Device not found")
  | Some _ =>
      timestamp <- Date_now ;;
      notificationId <-
        push_sendPushNotification
          {| userId := deviceId;
             notification :=
               {| Push.title := "Test Notification 🎉";
                  Push.body := Some "This is a test notification from your app!";
                  Push.data :=
                    Some (JObj (obj_set "timestamp" (JNum timestamp)
                                  (obj_set "type" (JStr "test") [])));
                  sound := "default";
                  priority := "high" |};
             allowUnregisteredTokens := true |} ;;
      ret notificationId
  end.

(** *** Reading a run *)

(** [activeDevices] and [inactiveDevices] of a broadcast run in [w]. *)
Definition eligible (args : BroadcastArgs) (w : World C) : list Device :=
  filter (isActiveDevice args) (devices w).

Definition ineligible (args : BroadcastArgs) (w : World C) : list Device :=
  filter (isInactiveDevice args) (devices w).

(** The row [registerDevice] inserts for a token it does not know. *)
Definition registered (args : RegisterArgs) (w : World C) : Device :=
  {| _id := fresh_id (devices w);
     _creationTime := clock w (S (ticks w));
     pushToken := reg_pushToken args;
     deviceId := reg_deviceId args;
     platform := reg_platform args;
     appVersion := reg_appVersion args;
     lastSeen := clock w (ticks w);
     isActive := Some true |}.

End Handlers.

(** The entry a turn of the loop pushes for the attempt it made. *)
Definition detailOf (a : Attempt) : Detail.t :=
  match snd a with
  | Returned notificationId =>
      if truthy notificationId then
        {| Detail.deviceId := attemptTo a; Detail.status := Detail.success;
           Detail.notificationId := notificationId; Detail.error := None |}
      else
        {| Detail.deviceId := attemptTo a; Detail.status := Detail.failed;
           Detail.notificationId := None;
           Detail.error := Some "No notification ID returned" |}
  | Raised error =>
      {| Detail.deviceId := attemptTo a; Detail.status := Detail.failed;
         Detail.notificationId := None; Detail.error := Some (errorMessage error) |}
  end.

(** The entry pushed for a device that is not attempted. *)
Definition inactiveDetail (device : Device) : Detail.t :=
  {| Detail.deviceId := _id device; Detail.status := Detail.inactive;
     Detail.notificationId := None; Detail.error := None |}.

End WithoutAuth.

(** ** The mobile clients

    The parts of the React Native code that decide something: how a tapped
    notification is routed by the [type] of its data, when the app takes
    itself for registered, and what the set-up card shows. *)
Module Client.

(** [content] of a notification as the listeners read it. *)
Record Content : Type := {
  title : option string;
  body : option string;
  data : option JVal
}.

(** The content of a notification the backend handed to the push
    component, taking it that the platform delivers title, body and data
    as they were sent. *)
Definition contentOf (n : Push.Notification) : Content :=
  {| title := Some (Push.title n); body := Push.body n; data := Push.data n |}.

(** [data?.key] *)
Definition field (key : string) (data : option JVal) : option JVal :=
  match data with
  | Some (JObj fields) => obj_get key fields
  | _ => None
  end.

(** [value === 'text'] *)
Definition isText (value : option JVal) (text : string) : bool :=
  match value with
  | Some (JStr s) => (s =? text)%string
  | _ => false
  end.

(** [value || fallback] for a [string | null]. *)
Definition orElse (value : option string) (fallback : string) : string :=
  match value with
  | Some s => if truthy value then s else fallback
  | None => fallback
  end.

(** The message of an alert: a fixed text, or the template
    [`You received a message from user ${data.senderId}`]. *)
Inductive Message : Type :=
| Text (text : string)
| FromUser (senderId : option JVal).

(** What a tap brings up: the [Alert.alert] call made, with its title,
    message and the labels of its buttons, or nothing. *)
Inductive Shown : Type :=
| Alert (title : string) (message : Message) (buttons : list string)
| Nothing.

(** The response listener of [NotificationListener] (authenticated app). *)
Definition onNotificationResponse (content : Content) : Shown :=
  if isText (field "type" (data content)) "user_message" then
    Alert "Message Notification" (FromUser (field "senderId" (data content)))
      ["OK"; "View"]
  else if isText (field "type" (data content)) "test" then
    Alert "Test Notification" (Text "This was a test notification!") ["OK"]
  else if truthy (title content) || truthy (body content) then
    Alert (orElse (title content) "Notification")
      (Text (orElse (body content) "You have a new notification"))
      ["OK"; "View"]
  else Nothing.

(** The response listener of the device app's [usePushNotifications]. *)
Definition onDeviceNotificationResponse (content : Content) : Shown :=
  if isText (field "type" (data content)) "test" then
    Alert "Test Notification" (Text "You tapped on a test notification!") []
  else if isText (field "type" (data content)) "broadcast" then
    Alert "Broadcast Message" (Text "You received a broadcast notification!") []
  else Nothing.

(** [Boolean(currentUser?.pushToken && expoPushToken)], [currentUser] being
    what the query [getCurrentUserWithToken] last returned. *)
Definition isRegistered (currentUser : option WithAuth.User)
    (expoPushToken : option string) : bool :=
  match currentUser with
  | Some user => truthy (WithAuth.pushToken user) && truthy expoPushToken
  | None => false
  end.

(** [Boolean(deviceId && expoPushToken)] of the device app. *)
Definition isDeviceRegistered (deviceId : option Id) (expoPushToken : option string) : bool :=
  match deviceId with
  | Some _ => truthy expoPushToken
  | None => false
  end.

(** The device app's [allDevices.find(device => device.pushToken === expoPushToken)],
    by which it recovers its device id from [getAllDevices]. *)
Definition currentDevice (allDevices : list WithoutAuth.Device) (expoPushToken : string)
    : option WithoutAuth.Device :=
  find (fun device => (WithoutAuth.pushToken device =? expoPushToken)%string) allDevices.

Inductive PermissionStatus : Type := granted | denied | undetermined.

Inductive StatusIcon : Type := CheckCircle2 | XCircle | Loader2 | Bell.

(** What [PushNotificationSetup] takes from the hook. *)
Record Setup : Type := {
  registered : bool;
  error : option string;
  permission : option PermissionStatus;
  isLoading : bool;
  expoPushToken : option string
}.

Definition isDenied (permission : option PermissionStatus) : bool :=
  match permission with
  | Some denied => true
  | _ => false
  end.

Definition isGranted (permission : option PermissionStatus) : bool :=
  match permission with
  | Some granted => true
  | _ => false
  end.

Definition getStatusColor (s : Setup) : string :=
  if registered s then "text-green-600"
  else if truthy (error s) then "text-red-600"
  else if isDenied (permission s) then "text-red-600"
  else "text-yellow-600".

Definition getStatusIcon (s : Setup) : StatusIcon :=
  if registered s then CheckCircle2
  else if truthy (error s) || isDenied (permission s) then XCircle
  else if isLoading s then Loader2
  else Bell.

Definition getStatusText (s : Setup) : string :=
  if registered s then "Push notifications are enabled"
  else if isDenied (permission s) then "Push notifications are disabled"
  else if isGranted (permission s) && negb (truthy (expoPushToken s))
  then "Setting up notifications..."
  else match error s with
       | Some message => if truthy (error s) then message
                         else "Push notifications not set up"
       | None => "Push notifications not set up"
       end.

End Client.

(** ** A push component to run the handlers against

    It keeps one token per recipient.  Delivery to a recipient without a
    token answers [null]; the token ["down"] stands for a gateway that
    rejects; any other token is answered with a ticket. *)
Module Stub.
Import Push.

Definition Comp : Type := list (Id * string).

Definition tokenOf (userId : Id) (c : Comp) : option string :=
  option_map snd (find (fun e => (fst e =? userId)%nat) c).

Definition forget (userId : Id) (c : Comp) : Comp :=
  filter (fun e => negb (fst e =? userId)%nat) c.

Definition send (c : Comp) (args : SendArgs) : Outcome * Comp :=
  match tokenOf (userId args) c with
  | None => (Returned None, c)
  | Some token =>
      if (token =? "down")%string then (Raised (JsError "gateway down"), c)
      else (Returned (Some ("ticket-" ++ token)), c)
  end.

#[global] Instance component : PushNotifications Comp := {|
  recordToken c userId token := (userId, token) :: forget userId c;
  removeToken c userId := forget userId c;
  sendPushNotification := send;
  getStatusForUser c userId :=
    {| hasToken := match tokenOf userId c with Some _ => true | None => false end;
       paused := false |}
|}.

End Stub.

(** ** Two small deployments *)
Module Scenario.

Definition user (id : Id) (token : option string) : WithAuth.User :=
  {| WithAuth._id := id; WithAuth._creationTime := Z.of_nat id;
     WithAuth.name := None; WithAuth.image := None; WithAuth.email := None;
     WithAuth.emailVerificationTime := None; WithAuth.phone := None;
     WithAuth.phoneVerificationTime := None; WithAuth.isAnonymous := None;
     WithAuth.pushToken := token |}.

(** Users 1 and 2 are reachable, 3 never registered, the gateway rejects 4,
    and the component has lost the token of 5. *)
Definition users : list WithAuth.User :=
  [user 1 (Some "tok-A"); user 2 (Some "tok-B"); user 3 None;
   user 4 (Some "down"); user 5 (Some "tok-E")].

Definition world (caller : option Id) : WithAuth.World Stub.Comp :=
  {| WithAuth.users := users;
     WithAuth.authUserId := caller;
     WithAuth.push := [(1, "tok-A"); (2, "tok-B"); (4, "down")];
     WithAuth.attempts := [];
     WithAuth.clock := fun _ => 1700000000000%Z;
     WithAuth.ticks := 0 |}.

Definition broadcast (exclude requireAuth : option bool) : WithAuth.BroadcastArgs :=
  {| WithAuth.title := "Broadcast Message"; WithAuth.body := None;
     WithAuth.data := None; WithAuth.excludeCurrentUser := exclude;
     WithAuth.requireAuth := requireAuth |}.

Definition announcement : WithAuth.SystemBroadcastArgs :=
  {| WithAuth.sys_title := "System Announcement"; WithAuth.sys_body := None;
     WithAuth.sys_data := None |}.

Definition device (id : Id) (token : string) (active : option bool)
    : WithoutAuth.Device :=
  {| WithoutAuth._id := id; WithoutAuth._creationTime := Z.of_nat id;
     WithoutAuth.pushToken := token; WithoutAuth.deviceId := None;
     WithoutAuth.platform := Some "ios"; WithoutAuth.appVersion := None;
     WithoutAuth.lastSeen := Z.of_nat id; WithoutAuth.isActive := active |}.

(** Devices 1 and 2 are reachable (2 predates the [isActive] column), 3 was
    removed, and the gateway rejects 4. *)
Definition devices : list WithoutAuth.Device :=
  [device 1 "tok-A" (Some true); device 2 "tok-B" None;
   device 3 "tok-C" (Some false); device 4 "down" (Some true)].

Definition fleet : WithoutAuth.World Stub.Comp :=
  {| WithoutAuth.devices := devices;
     WithoutAuth.push := [(1, "tok-A"); (2, "tok-B"); (4, "down")];
     WithoutAuth.attempts := [];
     WithoutAuth.clock := fun _ => 1700000000000%Z;
     WithoutAuth.ticks := 0 |}.

Definition deviceBroadcast (exclude : option Id) : WithoutAuth.BroadcastArgs :=
  {| WithoutAuth.title := "Broadcast Message"; WithoutAuth.body := None;
     WithoutAuth.data := None; WithoutAuth.excludeDeviceId := exclude |}.

Definition message (recipient : Id) : WithAuth.SendToUserArgs :=
  {| WithAuth.recipientId := recipient; WithAuth.msg_title := "Hello";
     WithAuth.msg_body := None; WithAuth.msg_data := None |}.

Definition registration (token : string) : WithoutAuth.RegisterArgs :=
  {| WithoutAuth.reg_pushToken := token; WithoutAuth.reg_deviceId := None;
     WithoutAuth.reg_platform := Some "android"; WithoutAuth.reg_appVersion := None |}.

(** A broadcast whose caller-supplied data claims another type and
    another sender. *)
Definition forged : WithAuth.BroadcastArgs :=
  {| WithAuth.title := "Hello"; WithAuth.body := Some "everyone";
     WithAuth.data :=
       Some (JObj [("type", JStr "user_message"); ("senderId", JId 2);
                   ("room", JStr "lobby")]);
     WithAuth.excludeCurrentUser := Some true;
     WithAuth.requireAuth := None |}.

(** A message to one user, typed and signed by its caller. *)
Definition note (recipient claimed : Id) : WithAuth.SendToUserArgs :=
  {| WithAuth.recipientId := recipient; WithAuth.msg_title := "Hello";
     WithAuth.msg_body := None;
     WithAuth.msg_data :=
       Some (JObj [("type", JStr "user_message"); ("senderId", JId claimed)]) |}.

Definition deviceMessage (id : Id) : WithoutAuth.SendToDeviceArgs :=
  {| WithoutAuth.msg_deviceId := id; WithoutAuth.msg_title := "Hello";
     WithoutAuth.msg_body := Some "device"; WithoutAuth.msg_data := None |}.

Definition byToken (token : string) : WithoutAuth.SendByTokenArgs :=
  {| WithoutAuth.tok_pushToken := token; WithoutAuth.tok_title := "Hello";
     WithoutAuth.tok_body := None; WithoutAuth.tok_data := None |}.

(** The fleet with a fifth device, active, whose token the component does
    not hold. *)
Definition strayFleet : WithoutAuth.World Stub.Comp :=
  {| WithoutAuth.devices := (devices ++ [device 5 "tok-E" (Some true)])%list;
     WithoutAuth.push := [(1, "tok-A"); (2, "tok-B"); (4, "down")];
     WithoutAuth.attempts := [];
     WithoutAuth.clock := fun _ => 1700000000000%Z;
     WithoutAuth.ticks := 0 |}.

End Scenario.

(** * Facts about the handlers *)

Open Scope list_scope.

(** Runs a handler on a closed world: [r] and [w'] become what it returns. *)
Ltac run_as r w' Hrun :=
  match goal with
  | |- context [?call = (_, _)] =>
      destruct call as [r w'] eqn:Hrun;
      let E := fresh "E" in
      pose proof Hrun as E; vm_compute in E; injection E as <- <-
  end.

(** ** The log of attempts *)

Lemma newAttempts_app (before new : list Push.Attempt) :
  Push.newAttempts before (before ++ new) = new.
Proof.
  unfold Push.newAttempts.
  induction before as [|a before IH]; simpl; auto.
Qed.


Lemma count_app (p : Push.Attempt -> bool) (l1 l2 : list Push.Attempt) :
  Push.count p (l1 ++ l2) = Push.count p l1 + Push.count p l2.
Proof.
  unfold Push.count. now rewrite filter_app, length_app.
Qed.

(** Every attempt is of exactly one of the three kinds. *)
Lemma attempt_kind (a : Push.Attempt) :
  (Push.delivered a, Push.raised a, Push.unanswered a) = (true, false, false) \/
  (Push.delivered a, Push.raised a, Push.unanswered a) = (false, true, false) \/
  (Push.delivered a, Push.raised a, Push.unanswered a) = (false, false, true).
Proof.
  destruct a as [args [notificationId|error]];
    unfold Push.delivered, Push.raised, Push.unanswered; cbn; auto.
  destruct (truthy notificationId); cbn; auto.
Qed.

Lemma count_partition (l : list Push.Attempt) :
  Push.count Push.delivered l + Push.count Push.raised l + Push.count Push.unanswered l
  = List.length l.
Proof.
  unfold Push.count.
  induction l as [|a l IH]; cbn [filter List.length]; auto.
  destruct (attempt_kind a) as [Hk|[Hk|Hk]]; injection Hk as -> -> ->;
    cbn [List.length]; lia.
Qed.

Lemma fold_left_push {A B : Type} (f : A -> B) (l : list A) (acc : list B) :
  fold_left (fun acc x => acc ++ [f x]) l acc = acc ++ map f l.
Proof.
  revert acc; induction l as [|x l IH]; intros acc; simpl.
  - now rewrite app_nil_r.
  - rewrite IH, <- app_assoc. reflexivity.
Qed.

(** ** The authenticated variant *)
Section AuthFacts.
Context {C : Type} `{Push.PushNotifications C}.
Import Push WithAuth.

Lemma getCurrentUser_run (w : World C) :
  getCurrentUser w = (Ok (currentUserOf w), w).
Proof.
  unfold getCurrentUser, currentUserOf, bind, getAuthUserId, db_get, ret.
  destruct (authUserId w); reflexivity.
Qed.

(** A turn of the loop makes one attempt, to the user at hand, never
    throws, and pushes the entry of that attempt. *)
Lemma auth_turn_run payload title body (user : User) (st : Locals.t) (w : World C) :
  exists a st' w',
    broadcastTurn payload title body user st w = (Ok st', w') /\
    attemptTo a = _id user /\
    attempts w' = attempts w ++ [a] /\
    users w' = users w /\
    authUserId w' = authUserId w /\
    Locals.details st' = Locals.details st ++ [detailOf a] /\
    Locals.successCount st' = Locals.successCount st + count delivered [a] /\
    Locals.failedCount st' = Locals.failedCount st + count raised [a].
Proof.
  unfold broadcastTurn, try_catch, bind, Date_now, push_sendPushNotification, ret.
  cbn [users authUserId push attempts clock ticks].
  match goal with
  | |- context [sendPushNotification (push w) ?args] =>
      destruct (sendPushNotification (push w) args) as [outcome c] eqn:Hsend;
      exists (args, outcome)
  end.
  destruct outcome as [notificationId|error].
  - destruct (truthy notificationId) eqn:Hid;
      eexists; eexists; (split; [reflexivity|]);
      unfold detailOf, attemptTo, count, delivered, raised; cbn; rewrite ?Hid; cbn;
      repeat split; auto; lia.
  - eexists; eexists; (split; [reflexivity|]);
      unfold detailOf, attemptTo, count, delivered, raised; cbn;
      repeat split; auto; lia.
Qed.

(** The loop over the eligible users: as many attempts as users, in their
    order, whatever the component answers. *)
Lemma auth_loop_run payload title body (eligible : list User) :
  forall (st : Locals.t) (w : World C),
  exists new st' w',
    forOf (broadcastTurn payload title body) eligible st w = (Ok st', w') /\
    map attemptTo new = map _id eligible /\
    attempts w' = attempts w ++ new /\
    users w' = users w /\
    authUserId w' = authUserId w /\
    Locals.details st' = Locals.details st ++ map detailOf new /\
    Locals.successCount st' = Locals.successCount st + count delivered new /\
    Locals.failedCount st' = Locals.failedCount st + count raised new.
Proof.
  induction eligible as [|user rest IH]; intros st w.
  - exists [], st, w. cbn. rewrite !app_nil_r. repeat split; auto.
  - destruct (auth_turn_run payload title body user st w)
      as (a & st1 & w1 & Hturn & Hto & Hlog & Husers & Hauth & Hdet & Hok & Hko).
    destruct (IH st1 w1)
      as (new & st' & w' & Hloop & Hto' & Hlog' & Husers' & Hauth' & Hdet' & Hok' & Hko').
    exists (a :: new), st', w'.
    cbn [forOf]. unfold bind at 1. rewrite Hturn, Hloop.
    split; [reflexivity|].
    split; [cbn; congruence|].
    split; [rewrite Hlog', Hlog, <- app_assoc; reflexivity|].
    split; [congruence|].
    split; [congruence|].
    split; [rewrite Hdet', Hdet, <- app_assoc; reflexivity|].
    change (a :: new) with ([a] ++ new).
    rewrite !count_app. split; lia.
Qed.

End AuthFacts.

(** ** The broadcasts of the authenticated variant *)
Section AuthBroadcastFacts.
Context {C : Type} `{Push.PushNotifications C}.
Import Push WithAuth.

(** What a call of [sendBroadcastNotification] comes to: it is refused
    before anything is sent, or it reports on one attempt per eligible
    user. *)
Lemma auth_broadcast_inv (args : BroadcastArgs) (w : World C) r w' :
  sendBroadcastNotification args w = (r, w') ->
  (r = Throw (ConvexError "User must be authenticated to send broadcast notifications") /\
   w' = w /\ authRequired args = true /\ currentUserOf w = None)
  \/
  (exists res new,
     r = Ok res /\
     (authRequired args = false \/ currentUserOf w <> None) /\
     attempts w' = attempts w ++ new /\
     users w' = users w /\
     map attemptTo new = map _id (eligible args w) /\
     total res = List.length (eligible args w) /\
     success res = count delivered new /\
     failed res = count raised new /\
     senderId res = option_map _id (currentUserOf w) /\
     details res = map detailOf new ++ map noTokenDetail (ineligible args w)).
Proof.
  unfold sendBroadcastNotification. intros Hrun.
  assert (Hcur :
    authRequired args = true /\ currentUserOf w = None \/
    authRequired args = false \/ currentUserOf w <> None).
  { destruct (authRequired args); destruct (currentUserOf w); auto.
    right; right; discriminate. }
  destruct Hcur as [[Hreq Hnone]|Hpass].
  - left. revert Hrun. rewrite Hreq. unfold bind at 1. unfold bind at 1.
    rewrite getCurrentUser_run, Hnone. unfold throw.
    intros [= <- <-]. auto.
  - right.
    assert (Hcu : forall (k : option User -> M (World C) BroadcastResult),
      bind (if authRequired args
            then (currentUser <- getCurrentUser ;;
                  match currentUser with
                  | None => throw (ConvexError
                      "User must be authenticated to send broadcast notifications")
                  | Some _ => ret currentUser
                  end)
            else getCurrentUser) k w = k (currentUserOf w) w).
    { intros k. destruct Hpass as [Hreq|Hsome].
      - rewrite Hreq. unfold bind. now rewrite getCurrentUser_run.
      - destruct (authRequired args).
        + unfold bind. rewrite getCurrentUser_run.
          destruct (currentUserOf w); [reflexivity|congruence].
        + unfold bind. now rewrite getCurrentUser_run. }
    rewrite Hcu in Hrun. clear Hcu.
    unfold bind at 1 in Hrun. unfold db_collect in Hrun.
    unfold bind in Hrun.
    match type of Hrun with
    | context [forOf (broadcastTurn ?payload ?t ?b) ?us ?st w] =>
        destruct (auth_loop_run payload t b us st w)
          as (new & st' & w1 & Hloop & Hto & Hlog & Husers & _ & Hdet & Hok & Hko)
    end.
    rewrite Hloop in Hrun. unfold ret in Hrun.
    injection Hrun as <- <-.
    eexists; exists new. split; [reflexivity|]. cbn.
    unfold pushNoToken. rewrite fold_left_push, Hdet. cbn.
    repeat split; auto.
Qed.

(** [sendSystemBroadcast] is never refused. *)
Lemma system_broadcast_run (args : SystemBroadcastArgs) (w : World C) :
  exists res new w',
    sendSystemBroadcast args w = (Ok res, w') /\
    attempts w' = attempts w ++ new /\
    users w' = users w /\
    map attemptTo new = map _id (filter (fun u => truthy (pushToken u)) (users w)) /\
    sys_total res = List.length (filter (fun u => truthy (pushToken u)) (users w)) /\
    sys_success res = count delivered new /\
    sys_failed res = count raised new /\
    totalUsers res = List.length (users w) /\
    sys_details res =
      map detailOf new ++
      map noTokenDetail (filter (fun u => negb (truthy (pushToken u))) (users w)).
Proof.
  unfold sendSystemBroadcast, bind, db_collect.
  match goal with
  | |- context [forOf (broadcastTurn ?payload ?t ?b) ?us ?st w] =>
      destruct (auth_loop_run payload t b us st w)
        as (new & st' & w1 & Hloop & Hto & Hlog & Husers & _ & Hdet & Hok & Hko)
  end.
  rewrite Hloop. unfold ret.
  eexists; exists new; eexists. split; [reflexivity|]. cbn.
  unfold pushNoToken. rewrite fold_left_push, Hdet. cbn.
  repeat split; auto.
Qed.

End AuthBroadcastFacts.

(** ** The broadcast of the device variant *)
Section DeviceBroadcastFacts.
Context {C : Type} `{Push.PushNotifications C}.
Import Push WithoutAuth.

Lemma device_turn_run (args : BroadcastArgs) (device : Device) (st : Locals.t)
    (w : World C) :
  exists a st' w',
    broadcastTurn args device st w = (Ok st', w') /\
    attemptTo a = _id device /\
    attempts w' = attempts w ++ [a] /\
    devices w' = devices w /\
    Locals.details st' = Locals.details st ++ [detailOf a] /\
    Locals.successCount st' = Locals.successCount st + count delivered [a] /\
    Locals.failedCount st' = Locals.failedCount st + count raised [a].
Proof.
  unfold broadcastTurn, try_catch, bind, Date_now, push_sendPushNotification, ret.
  cbn [devices push attempts clock ticks].
  match goal with
  | |- context [sendPushNotification (push w) ?sendArgs] =>
      destruct (sendPushNotification (push w) sendArgs) as [outcome c] eqn:Hsend;
      exists (sendArgs, outcome)
  end.
  destruct outcome as [notificationId|error].
  - destruct (truthy notificationId) eqn:Hid;
      eexists; eexists; (split; [reflexivity|]);
      unfold detailOf, attemptTo, count, delivered, raised; cbn; rewrite ?Hid; cbn;
      repeat split; auto; lia.
  - eexists; eexists; (split; [reflexivity|]);
      unfold detailOf, attemptTo, count, delivered, raised; cbn;
      repeat split; auto; lia.
Qed.

Lemma device_loop_run (args : BroadcastArgs) (active : list Device) :
  forall (st : Locals.t) (w : World C),
  exists new st' w',
    forOf (broadcastTurn args) active st w = (Ok st', w') /\
    map attemptTo new = map _id active /\
    attempts w' = attempts w ++ new /\
    devices w' = devices w /\
    Locals.details st' = Locals.details st ++ map detailOf new /\
    Locals.successCount st' = Locals.successCount st + count delivered new /\
    Locals.failedCount st' = Locals.failedCount st + count raised new.
Proof.
  induction active as [|device rest IH]; intros st w.
  - exists [], st, w. cbn. rewrite !app_nil_r. repeat split; auto.
  - destruct (device_turn_run args device st w)
      as (a & st1 & w1 & Hturn & Hto & Hlog & Hdevs & Hdet & Hok & Hko).
    destruct (IH st1 w1)
      as (new & st' & w' & Hloop & Hto' & Hlog' & Hdevs' & Hdet' & Hok' & Hko').
    exists (a :: new), st', w'.
    cbn [forOf]. unfold bind at 1. rewrite Hturn, Hloop.
    split; [reflexivity|].
    split; [cbn; congruence|].
    split; [rewrite Hlog', Hlog, <- app_assoc; reflexivity|].
    split; [congruence|].
    split; [rewrite Hdet', Hdet, <- app_assoc; reflexivity|].
    change (a :: new) with ([a] ++ new).
    rewrite !count_app. split; lia.
Qed.

(** The device broadcast is never refused. *)
Lemma device_broadcast_run (args : BroadcastArgs) (w : World C) :
  exists res new w',
    sendBroadcastNotification args w = (Ok res, w') /\
    attempts w' = attempts w ++ new /\
    devices w' = devices w /\
    map attemptTo new = map _id (eligible args w) /\
    total res = List.length (eligible args w) /\
    success res = count delivered new /\
    failed res = count raised new /\
    details res = map detailOf new ++ map inactiveDetail (ineligible args w).
Proof.
  unfold sendBroadcastNotification, bind, db_collect.
  destruct (device_loop_run args (filter (isActiveDevice args) (devices w)) start w)
    as (new & st' & w1 & Hloop & Hto & Hlog & Hdevs & Hdet & Hok & Hko).
  rewrite Hloop. unfold ret.
  eexists; exists new; eexists. split; [reflexivity|]. cbn.
  unfold pushInactive. rewrite fold_left_push, Hdet. cbn.
  repeat split; auto.
Qed.

End DeviceBroadcastFacts.

(** ** Lists of recipients *)

Lemma filter_split_perm {A : Type} (p q r : A -> bool) (l : list A) :
  (forall x, r x = p x || q x) ->
  (forall x, p x && q x = false) ->
  Permutation (filter p l ++ filter q l) (filter r l).
Proof.
  intros Hr Hpq.
  induction l as [|x l IH]; cbn [filter app]; auto.
  specialize (Hr x); specialize (Hpq x).
  destruct (p x), (q x); cbn in Hr, Hpq; rewrite Hr; try discriminate.
  - cbn. now constructor.
  - etransitivity; [symmetry; apply Permutation_middle|]. now constructor.
  - exact IH.
Qed.

(** Keeping some rows of a table keeps its ids distinct. *)
Lemma kept_ids_distinct {Row : Type} (id_of : Row -> Id) (keep : Row -> bool) :
  forall table : list Row,
    NoDup (map id_of table) -> NoDup (map id_of (filter keep table)).
Proof.
  intros table. induction table as [|row table IH]; cbn; intros Hdistinct.
  - constructor.
  - apply NoDup_cons_iff in Hdistinct as [Hfresh Hrest].
    destruct (keep row); cbn; [|now apply IH].
    apply NoDup_cons_iff. split; [|now apply IH].
    intros Hin. apply Hfresh.
    apply in_map_iff in Hin as (other & Hsame & Hin).
    apply filter_In in Hin as [Hin _].
    apply in_map_iff. eauto.
Qed.

Lemma auth_detail_ids (new : list Push.Attempt) :
  map WithAuth.Detail.userId (map WithAuth.detailOf new) = map Push.attemptTo new.
Proof.
  rewrite map_map. apply map_ext.
  intros [args [notificationId|error]]; unfold WithAuth.detailOf; cbn; auto.
  destruct (truthy notificationId); reflexivity.
Qed.

Lemma auth_noToken_ids (l : list WithAuth.User) :
  map WithAuth.Detail.userId (map WithAuth.noTokenDetail l) = map WithAuth._id l.
Proof. rewrite map_map. reflexivity. Qed.

Lemma device_detail_ids (new : list Push.Attempt) :
  map WithoutAuth.Detail.deviceId (map WithoutAuth.detailOf new) = map Push.attemptTo new.
Proof.
  rewrite map_map. apply map_ext.
  intros [args [notificationId|error]]; unfold WithoutAuth.detailOf; cbn; auto.
  destruct (truthy notificationId); reflexivity.
Qed.

Lemma device_inactive_ids (l : list WithoutAuth.Device) :
  map WithoutAuth.Detail.deviceId (map WithoutAuth.inactiveDetail l) = map WithoutAuth._id l.
Proof. rewrite map_map. reflexivity. Qed.

(** ** Runs that return *)
Section Returned.
Context {C : Type} `{Push.PushNotifications C}.
Import Push.

Lemma auth_broadcast_ok (args : WithAuth.BroadcastArgs) (w : WithAuth.World C) res w' :
  WithAuth.sendBroadcastNotification args w = (Ok res, w') ->
  let new := newAttempts (WithAuth.attempts w) (WithAuth.attempts w') in
  map attemptTo new = map WithAuth._id (WithAuth.eligible args w) /\
  WithAuth.total res = List.length (WithAuth.eligible args w) /\
  WithAuth.success res = count delivered new /\
  WithAuth.failed res = count raised new /\
  WithAuth.senderId res = option_map WithAuth._id (WithAuth.currentUserOf w) /\
  WithAuth.details res =
    map WithAuth.detailOf new ++ map WithAuth.noTokenDetail (WithAuth.ineligible args w).
Proof.
  intros Hrun new.
  destruct (auth_broadcast_inv args w _ _ Hrun)
    as [(Habs & _)|(res' & new' & Hres & _ & Hlog & _ & Hrest)]; [discriminate|].
  injection Hres as <-.
  assert (Hnew : new = new') by (unfold new; rewrite Hlog; apply newAttempts_app).
  rewrite Hnew. tauto.
Qed.

Lemma system_broadcast_ok (args : WithAuth.SystemBroadcastArgs) (w : WithAuth.World C) r w' :
  WithAuth.sendSystemBroadcast args w = (r, w') ->
  let new := newAttempts (WithAuth.attempts w) (WithAuth.attempts w') in
  exists res,
    r = Ok res /\
    map attemptTo new =
      map WithAuth._id (filter (fun u => truthy (WithAuth.pushToken u)) (WithAuth.users w)) /\
    WithAuth.sys_total res =
      List.length (filter (fun u => truthy (WithAuth.pushToken u)) (WithAuth.users w)) /\
    WithAuth.sys_success res = count delivered new /\
    WithAuth.sys_failed res = count raised new /\
    WithAuth.totalUsers res = List.length (WithAuth.users w) /\
    WithAuth.sys_details res =
      map WithAuth.detailOf new ++
      map WithAuth.noTokenDetail
        (filter (fun u => negb (truthy (WithAuth.pushToken u))) (WithAuth.users w)).
Proof.
  intros Hrun new.
  destruct (system_broadcast_run args w) as (res & new' & w1 & Hrun' & Hlog & _ & Hrest).
  rewrite Hrun' in Hrun. injection Hrun as <- <-.
  assert (Hnew : new = new') by (unfold new; rewrite Hlog; apply newAttempts_app).
  rewrite Hnew. exists res. tauto.
Qed.

Lemma device_broadcast_ok (args : WithoutAuth.BroadcastArgs) (w : WithoutAuth.World C) r w' :
  WithoutAuth.sendBroadcastNotification args w = (r, w') ->
  let new := newAttempts (WithoutAuth.attempts w) (WithoutAuth.attempts w') in
  exists res,
    r = Ok res /\
    map attemptTo new = map WithoutAuth._id (WithoutAuth.eligible args w) /\
    WithoutAuth.total res = List.length (WithoutAuth.eligible args w) /\
    WithoutAuth.success res = count delivered new /\
    WithoutAuth.failed res = count raised new /\
    WithoutAuth.details res =
      map WithoutAuth.detailOf new ++
      map WithoutAuth.inactiveDetail (WithoutAuth.ineligible args w).
Proof.
  intros Hrun new.
  destruct (device_broadcast_run args w) as (res & new' & w1 & Hrun' & Hlog & _ & Hrest).
  rewrite Hrun' in Hrun. injection Hrun as <- <-.
  assert (Hnew : new = new') by (unfold new; rewrite Hlog; apply newAttempts_app).
  rewrite Hnew. exists res. tauto.
Qed.

(** One attempt per eligible recipient. *)
Lemma attempts_length {A : Type} (f : A -> Id) (new : list Attempt) (l : list A) :
  map attemptTo new = map f l -> List.length new = List.length l.
Proof.
  intros Hmap. rewrite <- (length_map attemptTo new), Hmap. apply length_map.
Qed.

End Returned.

(** ** Who is attempted *)


Lemma in_ids_filter {A : Type} (f : A -> Id) (p : A -> bool) (l : list A) (id : Id) :
  In id (map f (filter p l)) -> exists x, In x l /\ p x = true /\ f x = id.
Proof.
  intros Hin. apply in_map_iff in Hin as (x & Hx & Hin).
  apply filter_In in Hin as [Hin Hp]. eauto.
Qed.



(** ** Rows and patches *)

Lemma find_map_stable {A : Type} (p : A -> bool) (g : A -> A) (l : list A) :
  (forall x, p (g x) = p x) -> find p (map g l) = option_map g (find p l).
Proof.
  intros Hp. induction l as [|x l IH]; cbn; auto.
  rewrite Hp. destruct (p x); auto.
Qed.

Lemma find_app_last {A : Type} (p : A -> bool) (l : list A) (x : A) :
  find p l = None -> p x = true -> find p (l ++ [x]) = Some x.
Proof.
  intros Hnone Hx. induction l as [|y l IH]; cbn in *.
  - now rewrite Hx.
  - destruct (p y); [discriminate|auto].
Qed.

Lemma map_map_idem {A : Type} (g : A -> A) (l : list A) :
  (forall x, g (g x) = g x) -> map g (map g l) = map g l.
Proof.
  intros Hg. rewrite map_map. apply map_ext. exact Hg.
Qed.

Section Rows.
Context {C : Type} `{Push.PushNotifications C}.

(** A user found by id carries that id. *)
Lemma user_resolve_id (id : Id) (table : list WithAuth.User) (u : WithAuth.User) :
  WithAuth.resolve id table = Some u -> WithAuth._id u = id.
Proof.
  intros Hfind. apply find_some in Hfind as [_ Heq]. now apply Nat.eqb_eq.
Qed.

Lemma device_resolve_id (id : Id) (table : list WithoutAuth.Device) (d : WithoutAuth.Device) :
  WithoutAuth.resolve id table = Some d -> WithoutAuth._id d = id.
Proof.
  intros Hfind. apply find_some in Hfind as [_ Heq]. now apply Nat.eqb_eq.
Qed.

(** A row of the table resolves by its own id, to some row. *)
Lemma device_in_resolves (table : list WithoutAuth.Device) (d : WithoutAuth.Device) :
  In d table -> exists d', WithoutAuth.resolve (WithoutAuth._id d) table = Some d'.
Proof.
  intros Hin. unfold WithoutAuth.resolve.
  destruct (find _ table) as [d'|] eqn:Hfind; eauto.
  exfalso. apply (find_none _ _ Hfind) in Hin. now rewrite Nat.eqb_refl in Hin.
Qed.

Lemma user_resolve_patched (id : Id) (g : WithAuth.User -> WithAuth.User)
    (table : list WithAuth.User) :
  (forall u, WithAuth._id (g u) = WithAuth._id u) ->
  WithAuth.resolve id (map g table) = option_map g (WithAuth.resolve id table).
Proof.
  intros Hid. unfold WithAuth.resolve. apply find_map_stable.
  intros u. now rewrite Hid.
Qed.

Lemma device_resolve_patched (id : Id) (g : WithoutAuth.Device -> WithoutAuth.Device)
    (table : list WithoutAuth.Device) :
  (forall d, WithoutAuth._id (g d) = WithoutAuth._id d) ->
  WithoutAuth.resolve id (map g table) = option_map g (WithoutAuth.resolve id table).
Proof.
  intros Hid. unfold WithoutAuth.resolve. apply find_map_stable.
  intros d. now rewrite Hid.
Qed.

(** The caller [getCurrentUser] resolves to carries the authenticated id. *)
Lemma currentUser_id (w : WithAuth.World C) (u : WithAuth.User) :
  WithAuth.currentUserOf w = Some u ->
  WithAuth.authUserId w = Some (WithAuth._id u) /\
  WithAuth.resolve (WithAuth._id u) (WithAuth.users w) = Some u.
Proof.
  unfold WithAuth.currentUserOf. destruct (WithAuth.authUserId w) as [id|]; [|discriminate].
  intros Hres. pose proof (user_resolve_id _ _ _ Hres) as ->. auto.
Qed.

(** What [recordPushToken] and [removePushToken] come to: a patch of the
    caller's row, or the refusal of a call without a caller. *)
Lemma auth_set_token_run (w : WithAuth.World C) (u : WithAuth.User)
    (token : option string) (c : C) :
  WithAuth.resolve (WithAuth._id u) (WithAuth.users w) = Some u ->
  (WithAuth.db_patch (WithAuth._id u) (WithAuth.set_pushToken token) ;;; ret tt)
    (WithAuth.set_push c w)
  = (Ok tt,
     WithAuth.set_users
       (map (fun x => if (WithAuth._id x =? WithAuth._id u)%nat
                      then WithAuth.set_pushToken token x else x)
          (WithAuth.users w))
       (WithAuth.set_push c w)).
Proof.
  intros Hres. unfold bind, WithAuth.db_patch, WithAuth.set_push.
  cbn [WithAuth.users]. now rewrite Hres.
Qed.

End Rows.

(** ** Registering and removing a device *)
Section DeviceRows.
Context {C : Type} `{Push.PushNotifications C}.
Import Push WithoutAuth.

Lemma register_known (args : RegisterArgs) (w : World C) (d : Device) :
  firstWithToken (reg_pushToken args) (devices w) = Some d ->
  registerDevice args w =
  (Ok (_id d),
   {| devices :=
        map (fun x => if (_id x =? _id d)%nat
                      then refresh args (clock w (ticks w)) x else x) (devices w);
      push := push w; attempts := attempts w;
      clock := clock w; ticks := S (ticks w) |}).
Proof.
  intros Hfind. unfold registerDevice, bind, db_first_by_pushToken.
  rewrite Hfind. unfold Date_now, db_patch. cbn [devices].
  apply find_some in Hfind as [Hin _].
  destruct (device_in_resolves _ _ Hin) as [d' ->]. reflexivity.
Qed.

Lemma register_unknown (args : RegisterArgs) (w : World C) :
  firstWithToken (reg_pushToken args) (devices w) = None ->
  registerDevice args w =
  (Ok (fresh_id (devices w)),
   {| devices := devices w ++ [registered args w];
      push := recordToken (push w) (fresh_id (devices w)) (reg_pushToken args);
      attempts := attempts w;
      clock := clock w; ticks := S (S (ticks w)) |}).
Proof.
  intros Hfind. unfold registerDevice, bind, db_first_by_pushToken.
  rewrite Hfind. reflexivity.
Qed.

Lemma remove_known (id : Id) (w : World C) (d : Device) :
  resolve id (devices w) = Some d ->
  removeDeviceToken id w =
  (Ok tt,
   {| devices :=
        map (fun x => if (_id x =? id)%nat then set_isActive (Some false) x else x)
          (devices w);
      push := removeToken (push w) id; attempts := attempts w;
      clock := clock w; ticks := ticks w |}).
Proof.
  intros Hres. unfold removeDeviceToken, bind, db_get. rewrite Hres.
  unfold push_removeToken, db_patch, set_push. cbn [devices]. now rewrite Hres.
Qed.

Lemma remove_unknown (id : Id) (w : World C) :
  resolve id (devices w) = None ->
  removeDeviceToken id w = (Throw (ConvexError "Device not found"), w).
Proof.
  intros Hres. unfold removeDeviceToken, bind, db_get. now rewrite Hres.
Qed.

End DeviceRows.

(** * Properties of the specification *)

Section Broadcasts.
Context {C : Type} `{Push.PushNotifications C}.
Import Push.

(** C1, as corrected.  In the authenticated and the system broadcast,
    for every behaviour of the delivery component, [total] is the number
    of eligible users (not excluded, with a token) and
    [success + failed + n = total], where [n] counts the eligible users
    whose delivery came back without an id (they are reported as
    [no_token] and counted by neither counter).  In the device broadcast
    [total] is the number of eligible devices (not excluded, not marked
    inactive) and [success + failed = total] whenever every delivery
    returned an id or raised. *)
Theorem broadcast_counters :
  (forall (args : WithAuth.BroadcastArgs) (w : WithAuth.World C) res w',
     WithAuth.sendBroadcastNotification args w = (Ok res, w') ->
     WithAuth.total res = List.length (WithAuth.eligible args w) /\
     WithAuth.success res + WithAuth.failed res
     + count unanswered (newAttempts (WithAuth.attempts w) (WithAuth.attempts w'))
     = WithAuth.total res)
  /\
  (forall (args : WithAuth.SystemBroadcastArgs) (w : WithAuth.World C) res w',
     WithAuth.sendSystemBroadcast args w = (Ok res, w') ->
     WithAuth.sys_total res =
       List.length (filter (fun u => truthy (WithAuth.pushToken u)) (WithAuth.users w)) /\
     WithAuth.sys_success res + WithAuth.sys_failed res
     + count unanswered (newAttempts (WithAuth.attempts w) (WithAuth.attempts w'))
     = WithAuth.sys_total res)
  /\
  (forall (args : WithoutAuth.BroadcastArgs) (w : WithoutAuth.World C) res w',
     WithoutAuth.sendBroadcastNotification args w = (Ok res, w') ->
     WithoutAuth.total res = List.length (WithoutAuth.eligible args w) /\
     (count unanswered
        (newAttempts (WithoutAuth.attempts w) (WithoutAuth.attempts w')) = 0 ->
      WithoutAuth.success res + WithoutAuth.failed res = WithoutAuth.total res)).
Proof.
  split; [|split].
  - intros args w res w' Hrun.
    destruct (auth_broadcast_ok args w res w' Hrun) as (Hto & Htot & Hok & Hko & _).
    split; [exact Htot|].
    rewrite Hok, Hko, Htot, count_partition. eapply attempts_length, Hto.
  - intros args w res w' Hrun.
    destruct (system_broadcast_ok args w _ _ Hrun)
      as (res' & [= <-] & Hto & Htot & Hok & Hko & _).
    split; [exact Htot|].
    rewrite Hok, Hko, Htot, count_partition. eapply attempts_length, Hto.
  - intros args w res w' Hrun.
    destruct (device_broadcast_ok args w _ _ Hrun)
      as (res' & [= <-] & Hto & Htot & Hok & Hko & _).
    split; [exact Htot|].
    intros Hnone.
    rewrite Hok, Hko, Htot, <- (attempts_length _ _ _ Hto), <- count_partition.
    lia.
Qed.

(** C2, as corrected.  A broadcast reports exactly once on every
    enumerated recipient other than the one its exclusion argument names:
    the ids of [details] are a rearrangement of the ids of the recipients
    that are not excluded (so there are as many entries as such
    recipients, and none is repeated when the table has no repeated id);
    the eligible recipients come first, each with the entry of its one
    delivery attempt, and the ineligible ones follow with [no_token]
    (users) or [inactive] (devices), no delivery being attempted for
    them.  The system broadcast excludes nobody and reports on all users. *)
Theorem broadcast_details :
  (forall (args : WithAuth.BroadcastArgs) (w : WithAuth.World C) res w',
     WithAuth.sendBroadcastNotification args w = (Ok res, w') ->
     let kept :=
       filter (fun u => negb (WithAuth.isExcluded args (WithAuth.currentUserOf w) u))
         (WithAuth.users w) in
     let new := newAttempts (WithAuth.attempts w) (WithAuth.attempts w') in
     List.length (WithAuth.details res) = List.length kept /\
     Permutation (map WithAuth.Detail.userId (WithAuth.details res))
       (map WithAuth._id kept) /\
     (NoDup (map WithAuth._id (WithAuth.users w)) ->
      NoDup (map WithAuth.Detail.userId (WithAuth.details res))) /\
     map attemptTo new = map WithAuth._id (WithAuth.eligible args w) /\
     WithAuth.details res =
       map WithAuth.detailOf new ++
       map WithAuth.noTokenDetail (WithAuth.ineligible args w))
  /\
  (forall (args : WithAuth.SystemBroadcastArgs) (w : WithAuth.World C) res w',
     WithAuth.sendSystemBroadcast args w = (Ok res, w') ->
     let new := newAttempts (WithAuth.attempts w) (WithAuth.attempts w') in
     List.length (WithAuth.sys_details res) = List.length (WithAuth.users w) /\
     Permutation (map WithAuth.Detail.userId (WithAuth.sys_details res))
       (map WithAuth._id (WithAuth.users w)) /\
     (NoDup (map WithAuth._id (WithAuth.users w)) ->
      NoDup (map WithAuth.Detail.userId (WithAuth.sys_details res))) /\
     map attemptTo new =
       map WithAuth._id
         (filter (fun u => truthy (WithAuth.pushToken u)) (WithAuth.users w)) /\
     WithAuth.sys_details res =
       map WithAuth.detailOf new ++
       map WithAuth.noTokenDetail
         (filter (fun u => negb (truthy (WithAuth.pushToken u))) (WithAuth.users w)))
  /\
  (forall (args : WithoutAuth.BroadcastArgs) (w : WithoutAuth.World C) res w',
     WithoutAuth.sendBroadcastNotification args w = (Ok res, w') ->
     let kept :=
       filter (fun d => negb (WithoutAuth.isExcluded args d)) (WithoutAuth.devices w) in
     let new := newAttempts (WithoutAuth.attempts w) (WithoutAuth.attempts w') in
     List.length (WithoutAuth.details res) = List.length kept /\
     Permutation (map WithoutAuth.Detail.deviceId (WithoutAuth.details res))
       (map WithoutAuth._id kept) /\
     (NoDup (map WithoutAuth._id (WithoutAuth.devices w)) ->
      NoDup (map WithoutAuth.Detail.deviceId (WithoutAuth.details res))) /\
     map attemptTo new = map WithoutAuth._id (WithoutAuth.eligible args w) /\
     WithoutAuth.details res =
       map WithoutAuth.detailOf new ++
       map WithoutAuth.inactiveDetail (WithoutAuth.ineligible args w)).
Proof.
  split; [|split].
  - intros args w res w' Hrun kept new.
    destruct (auth_broadcast_ok args w res w' Hrun) as (Hto & _ & _ & _ & _ & Hdet).
    fold new in Hto, Hdet.
    assert (Hids : Permutation (map WithAuth.Detail.userId (WithAuth.details res))
                     (map WithAuth._id kept)).
    { rewrite Hdet, map_app, auth_detail_ids, auth_noToken_ids, Hto, <- map_app.
      apply Permutation_map. unfold WithAuth.eligible, WithAuth.ineligible, kept.
      apply filter_split_perm; intros u;
        unfold WithAuth.withToken, WithAuth.withoutToken;
        destruct (WithAuth.isExcluded args (WithAuth.currentUserOf w) u);
        destruct (truthy (WithAuth.pushToken u)); reflexivity. }
    split; [|split; [exact Hids|split; [|split; assumption]]].
    + rewrite <- (length_map WithAuth.Detail.userId), <- (length_map WithAuth._id kept).
      apply Permutation_length, Hids.
    + intros Hnd. eapply Permutation_NoDup; [symmetry; exact Hids|].
      apply kept_ids_distinct, Hnd.
  - intros args w res w' Hrun new.
    destruct (system_broadcast_ok args w _ _ Hrun)
      as (res' & [= <-] & Hto & _ & _ & _ & _ & Hdet).
    fold new in Hto, Hdet.
    assert (Hids : Permutation (map WithAuth.Detail.userId (WithAuth.sys_details res))
                     (map WithAuth._id (WithAuth.users w))).
    { rewrite Hdet, map_app, auth_detail_ids, auth_noToken_ids, Hto, <- map_app.
      apply Permutation_map.
      rewrite <- (filter_true (WithAuth.users w)) at 3.
      apply filter_split_perm; intros u;
        destruct (truthy (WithAuth.pushToken u)); reflexivity. }
    split; [|split; [exact Hids|split; [|split; assumption]]].
    + rewrite <- (length_map WithAuth.Detail.userId),
        <- (length_map WithAuth._id (WithAuth.users w)).
      apply Permutation_length, Hids.
    + intros Hnd. eapply Permutation_NoDup; [symmetry; exact Hids|exact Hnd].
  - intros args w res w' Hrun kept new.
    destruct (device_broadcast_ok args w _ _ Hrun)
      as (res' & [= <-] & Hto & _ & _ & _ & Hdet).
    fold new in Hto, Hdet.
    assert (Hids : Permutation (map WithoutAuth.Detail.deviceId (WithoutAuth.details res))
                     (map WithoutAuth._id kept)).
    { rewrite Hdet, map_app, device_detail_ids, device_inactive_ids, Hto, <- map_app.
      apply Permutation_map. unfold WithoutAuth.eligible, WithoutAuth.ineligible, kept.
      apply filter_split_perm; intros d;
        unfold WithoutAuth.isActiveDevice, WithoutAuth.isInactiveDevice;
        destruct (WithoutAuth.isExcluded args d);
        destruct (WithoutAuth.isActive d) as [[|]|]; reflexivity. }
    split; [|split; [exact Hids|split; [|split; assumption]]].
    + rewrite <- (length_map WithoutAuth.Detail.deviceId),
        <- (length_map WithoutAuth._id kept).
      apply Permutation_length, Hids.
    + intros Hnd. eapply Permutation_NoDup; [symmetry; exact Hids|].
      apply kept_ids_distinct, Hnd.
Qed.

End Broadcasts.

Section BroadcastRecipients.
Context {C : Type} `{Push.PushNotifications C}.
Import Push.


(** C4.  The recipient named by the exclusion argument of a broadcast (the
    authenticated caller under [excludeCurrentUser], the device
    [excludeDeviceId]) is out of the eligible set, is sent nothing, has no
    entry at all in [details], whatever the status, and is not counted in
    [total]. *)
Theorem broadcast_exclusion :
  (forall (args : WithAuth.BroadcastArgs) (w : WithAuth.World C) res w' caller,
     WithAuth.excludeCurrentUser args = Some true ->
     WithAuth.currentUserOf w = Some caller ->
     WithAuth.sendBroadcastNotification args w = (Ok res, w') ->
     let r := WithAuth._id caller in
     ~ In r (map WithAuth._id (WithAuth.eligible args w)) /\
     ~ In r (map attemptTo (newAttempts (WithAuth.attempts w) (WithAuth.attempts w'))) /\
     ~ In r (map WithAuth.Detail.userId (WithAuth.details res)) /\
     WithAuth.total res =
       List.length
         (filter (fun u => negb (WithAuth._id u =? r)%nat && truthy (WithAuth.pushToken u))
            (WithAuth.users w)))
  /\
  (forall (args : WithoutAuth.BroadcastArgs) (w : WithoutAuth.World C) res w' r,
     WithoutAuth.excludeDeviceId args = Some r ->
     WithoutAuth.sendBroadcastNotification args w = (Ok res, w') ->
     ~ In r (map WithoutAuth._id (WithoutAuth.eligible args w)) /\
     ~ In r (map attemptTo
               (newAttempts (WithoutAuth.attempts w) (WithoutAuth.attempts w'))) /\
     ~ In r (map WithoutAuth.Detail.deviceId (WithoutAuth.details res)) /\
     WithoutAuth.total res =
       List.length
         (filter
            (fun d =>
               negb (WithoutAuth._id d =? r)%nat &&
               match WithoutAuth.isActive d with Some false => false | _ => true end)
            (WithoutAuth.devices w))).
Proof.
  split.
  - intros args w res w' caller Hflag Hcaller Hrun r.
    destruct (auth_broadcast_ok args w res w' Hrun) as (Hto & Htot & _ & _ & _ & Hdet).
    assert (Hel : ~ In r (map WithAuth._id (WithAuth.eligible args w))).
    { intros Hin. apply in_ids_filter in Hin as (u & _ & Hp & Hid).
      unfold WithAuth.withToken, WithAuth.isExcluded in Hp.
      rewrite Hcaller, Hflag in Hp. cbn in Hp.
      fold r in Hp. rewrite Hid, Nat.eqb_refl in Hp. discriminate. }
    assert (Hin : ~ In r (map WithAuth._id (WithAuth.ineligible args w))).
    { intros Hin. apply in_ids_filter in Hin as (u & _ & Hp & Hid).
      unfold WithAuth.withoutToken, WithAuth.isExcluded in Hp.
      rewrite Hcaller, Hflag in Hp. cbn in Hp.
      fold r in Hp. rewrite Hid, Nat.eqb_refl in Hp. discriminate. }
    split; [exact Hel|]. split; [now rewrite Hto|]. split.
    + rewrite Hdet, map_app, auth_detail_ids, auth_noToken_ids, Hto.
      intros Hor. apply in_app_or in Hor as [Hor|Hor]; auto.
    + rewrite Htot. unfold WithAuth.eligible. f_equal. apply filter_ext.
      intros u. unfold WithAuth.withToken, WithAuth.isExcluded.
      rewrite Hcaller, Hflag. cbn. fold r.
      destruct (WithAuth._id u =? r)%nat; reflexivity.
  - intros args w res w' r Hexcl Hrun.
    destruct (device_broadcast_ok args w _ _ Hrun)
      as (res' & [= <-] & Hto & Htot & _ & _ & Hdet).
    assert (Hel : ~ In r (map WithoutAuth._id (WithoutAuth.eligible args w))).
    { intros Hin. apply in_ids_filter in Hin as (d & _ & Hp & Hid).
      unfold WithoutAuth.isActiveDevice, WithoutAuth.isExcluded in Hp.
      rewrite Hexcl, Hid, Nat.eqb_refl in Hp. discriminate. }
    assert (Hin : ~ In r (map WithoutAuth._id (WithoutAuth.ineligible args w))).
    { intros Hin. apply in_ids_filter in Hin as (d & _ & Hp & Hid).
      unfold WithoutAuth.isInactiveDevice, WithoutAuth.isExcluded in Hp.
      rewrite Hexcl, Hid, Nat.eqb_refl in Hp. discriminate. }
    split; [exact Hel|]. split; [now rewrite Hto|]. split.
    + rewrite Hdet, map_app, device_detail_ids, device_inactive_ids, Hto.
      intros Hor. apply in_app_or in Hor as [Hor|Hor]; auto.
    + rewrite Htot. unfold WithoutAuth.eligible. f_equal. apply filter_ext.
      intros d. unfold WithoutAuth.isActiveDevice, WithoutAuth.isExcluded.
      rewrite Hexcl. destruct (WithoutAuth._id d =? r)%nat; reflexivity.
Qed.

(** C9.  With [requireAuth: false] and no caller that resolves to a user,
    the authenticated variant's broadcast goes through, reports no
    [senderId], and excludes nobody, whatever [excludeCurrentUser] says:
    exactly the users with a token are attempted. *)
Theorem broadcast_without_caller (args : WithAuth.BroadcastArgs) (w : WithAuth.World C) :
  WithAuth.requireAuth args = Some false ->
  WithAuth.currentUserOf w = None ->
  exists res w',
    WithAuth.sendBroadcastNotification args w = (Ok res, w') /\
    WithAuth.senderId res = None /\
    WithAuth.eligible args w =
      filter (fun u => truthy (WithAuth.pushToken u)) (WithAuth.users w) /\
    map attemptTo (newAttempts (WithAuth.attempts w) (WithAuth.attempts w')) =
      map WithAuth._id
        (filter (fun u => truthy (WithAuth.pushToken u)) (WithAuth.users w)) /\
    WithAuth.total res =
      List.length (filter (fun u => truthy (WithAuth.pushToken u)) (WithAuth.users w)).
Proof.
  intros Hreq Hnone.
  destruct (WithAuth.sendBroadcastNotification args w) as [r w'] eqn:Hrun.
  destruct (auth_broadcast_inv args w _ _ Hrun)
    as [(_ & _ & Habs & _)|(res & new & -> & _ & _)].
  { unfold WithAuth.authRequired in Habs. rewrite Hreq in Habs. discriminate. }
  destruct (auth_broadcast_ok args w res w' Hrun) as (Hto & Htot & _ & _ & Hsender & _).
  assert (Hel : WithAuth.eligible args w =
                filter (fun u => truthy (WithAuth.pushToken u)) (WithAuth.users w)).
  { unfold WithAuth.eligible. apply filter_ext. intros u.
    unfold WithAuth.withToken, WithAuth.isExcluded. rewrite Hnone.
    now rewrite andb_false_r. }
  exists res, w'. rewrite <- Hel.
  split; [reflexivity|]. split; [now rewrite Hsender, Hnone|]. auto.
Qed.

(** C10.  In the device broadcast a device without an [isActive] field is
    treated as an active one: both filters take it as they would take the
    same row with [isActive: true], so it is never among the inactive
    devices, and, unless it is the device the call excludes, it is
    eligible and a delivery is attempted for it.  Only devices whose
    [isActive] is [false] are ineligible, and only they are reported as
    [inactive]. *)
Theorem device_without_flag_is_active
    (args : WithoutAuth.BroadcastArgs) (w : WithoutAuth.World C) res w' d :
  WithoutAuth.sendBroadcastNotification args w = (Ok res, w') ->
  In d (WithoutAuth.devices w) ->
  WithoutAuth.isActive d = None ->
  WithoutAuth.isActiveDevice args d =
    WithoutAuth.isActiveDevice args (WithoutAuth.set_isActive (Some true) d) /\
  WithoutAuth.isInactiveDevice args d = false /\
  ~ In d (WithoutAuth.ineligible args w) /\
  (WithoutAuth.isExcluded args d = false ->
   In d (WithoutAuth.eligible args w) /\
   In (WithoutAuth._id d)
     (map attemptTo (newAttempts (WithoutAuth.attempts w) (WithoutAuth.attempts w')))) /\
  (forall x, In x (WithoutAuth.ineligible args w) -> WithoutAuth.isActive x = Some false) /\
  (forall entry,
     In entry (WithoutAuth.details res) ->
     WithoutAuth.Detail.status entry = WithoutAuth.Detail.inactive ->
     exists x,
       In x (WithoutAuth.devices w) /\
       WithoutAuth._id x = WithoutAuth.Detail.deviceId entry /\
       WithoutAuth.isActive x = Some false).
Proof.
  intros Hrun Hin Hflag.
  destruct (device_broadcast_ok args w _ _ Hrun)
    as (res' & [= <-] & Hto & _ & _ & _ & Hdet).
  assert (Hinactive : forall x, In x (WithoutAuth.ineligible args w) ->
                                In x (WithoutAuth.devices w) /\
                                WithoutAuth.isActive x = Some false).
  { intros x Hx. apply filter_In in Hx as [Hx Hp]. split; [exact Hx|].
    unfold WithoutAuth.isInactiveDevice in Hp.
    destruct (WithoutAuth.isExcluded args x); [discriminate|].
    destruct (WithoutAuth.isActive x) as [[|]|]; try discriminate. reflexivity. }
  split; [|split; [|split; [|split; [|split]]]].
  - unfold WithoutAuth.isActiveDevice, WithoutAuth.isExcluded. cbn.
    now rewrite Hflag.
  - unfold WithoutAuth.isInactiveDevice. rewrite Hflag.
    now destruct (WithoutAuth.isExcluded args d).
  - intros Hd. apply Hinactive in Hd as [_ Hd]. congruence.
  - intros Hexcl.
    assert (Hel : In d (WithoutAuth.eligible args w)).
    { apply filter_In. split; [exact Hin|].
      unfold WithoutAuth.isActiveDevice. now rewrite Hexcl, Hflag. }
    split; [exact Hel|]. rewrite Hto. now apply in_map.
  - intros x Hx. now apply Hinactive.
  - intros entry Hentry Hstatus.
    rewrite Hdet in Hentry. apply in_app_or in Hentry as [Hentry|Hentry].
    + apply in_map_iff in Hentry as ([sendArgs [notificationId|error]] & <- & _);
        unfold WithoutAuth.detailOf in Hstatus; cbn in Hstatus;
        try destruct (truthy notificationId); discriminate.
    + apply in_map_iff in Hentry as (x & <- & Hx).
      apply Hinactive in Hx as [Hx Hfalse]. exists x. auto.
Qed.

End BroadcastRecipients.

Section Tokens.
Context {C : Type} `{Push.PushNotifications C}.
Import Push.

(** C5.  Registering a token twice in a row gives the same recipient both
    times and adds no row the second time.  Device variant: both calls
    return the same device id, and the second call finds the row by its
    token and only patches it: the table keeps its length, its ids and
    its tokens, and the component is not called again.  User variant: the
    second call ends as the first did, on the same caller, and leaves the
    [users] table as the first call left it, with as many rows as before
    the first. *)
Theorem registration_idempotent :
  (forall (args args' : WithoutAuth.RegisterArgs) (w : WithoutAuth.World C) r1 w1 r2 w2,
     WithoutAuth.reg_pushToken args' = WithoutAuth.reg_pushToken args ->
     WithoutAuth.registerDevice args w = (r1, w1) ->
     WithoutAuth.registerDevice args' w1 = (r2, w2) ->
     exists id row,
       r1 = Ok id /\ r2 = Ok id /\
       WithoutAuth.firstWithToken (WithoutAuth.reg_pushToken args) (WithoutAuth.devices w1)
         = Some row /\
       WithoutAuth._id row = id /\
       List.length (WithoutAuth.devices w2) = List.length (WithoutAuth.devices w1) /\
       map WithoutAuth._id (WithoutAuth.devices w2)
         = map WithoutAuth._id (WithoutAuth.devices w1) /\
       map WithoutAuth.pushToken (WithoutAuth.devices w2)
         = map WithoutAuth.pushToken (WithoutAuth.devices w1) /\
       WithoutAuth.push w2 = WithoutAuth.push w1)
  /\
  (forall (token : string) (w : WithAuth.World C) r1 w1 r2 w2,
     WithAuth.recordPushToken token w = (r1, w1) ->
     WithAuth.recordPushToken token w1 = (r2, w2) ->
     r2 = r1 /\
     option_map WithAuth._id (WithAuth.currentUserOf w1)
       = option_map WithAuth._id (WithAuth.currentUserOf w) /\
     WithAuth.users w2 = WithAuth.users w1 /\
     List.length (WithAuth.users w2) = List.length (WithAuth.users w)).
Proof.
  split.
  - intros args args' w r1 w1 r2 w2 Htoken Hrun1 Hrun2.
    assert (Hfirst : exists row,
      r1 = Ok (WithoutAuth._id row) /\
      WithoutAuth.firstWithToken (WithoutAuth.reg_pushToken args) (WithoutAuth.devices w1)
        = Some row).
    { destruct (WithoutAuth.firstWithToken (WithoutAuth.reg_pushToken args)
                  (WithoutAuth.devices w)) as [d|] eqn:Hfind.
      - rewrite (register_known args w d Hfind) in Hrun1. injection Hrun1 as <- <-.
        exists (WithoutAuth.refresh args (WithoutAuth.clock w (WithoutAuth.ticks w)) d).
        split; [reflexivity|].
        cbn [WithoutAuth.devices]. unfold WithoutAuth.firstWithToken.
        rewrite find_map_stable.
        + fold (WithoutAuth.firstWithToken (WithoutAuth.reg_pushToken args)
                  (WithoutAuth.devices w)).
          rewrite Hfind. cbn [option_map]. now rewrite Nat.eqb_refl.
        + intros x. destruct (WithoutAuth._id x =? WithoutAuth._id d)%nat; reflexivity.
      - rewrite (register_unknown args w Hfind) in Hrun1. injection Hrun1 as <- <-.
        exists (WithoutAuth.registered args w). split; [reflexivity|].
        cbn [WithoutAuth.devices]. apply find_app_last; [exact Hfind|].
        cbn. apply String.eqb_refl. }
    destruct Hfirst as (row & -> & Hrow).
    rewrite <- Htoken in Hrow.
    rewrite (register_known args' w1 row Hrow) in Hrun2. injection Hrun2 as <- <-.
    exists (WithoutAuth._id row), row. cbn [WithoutAuth.devices WithoutAuth.push].
    rewrite Htoken in Hrow.
    split; [reflexivity|]. split; [reflexivity|]. split; [exact Hrow|].
    split; [reflexivity|]. split; [apply length_map|].
    split; [|split; [|reflexivity]]; rewrite map_map; apply map_ext; intros x;
      destruct (WithoutAuth._id x =? WithoutAuth._id row)%nat; reflexivity.
  - intros token w r1 w1 r2 w2 Hrun1 Hrun2.
    unfold WithAuth.recordPushToken in Hrun1, Hrun2.
    unfold bind at 1 in Hrun1. unfold bind at 1 in Hrun2.
    rewrite getCurrentUser_run in Hrun1, Hrun2.
    destruct (WithAuth.currentUserOf w) as [u|] eqn:Hcaller.
    + destruct (currentUser_id w u Hcaller) as [Hauth Hres].
      unfold bind at 1 in Hrun1. unfold WithAuth.push_recordToken in Hrun1.
      rewrite (auth_set_token_run w u (Some token) _ Hres) in Hrun1.
      injection Hrun1 as <- <-.
      set (g := fun x => if (WithAuth._id x =? WithAuth._id u)%nat
                         then WithAuth.set_pushToken (Some token) x else x) in *.
      assert (Hid : forall x, WithAuth._id (g x) = WithAuth._id x).
      { intros x. unfold g. destruct (WithAuth._id x =? WithAuth._id u)%nat; reflexivity. }
      assert (Hgg : forall x, g (g x) = g x).
      { intros x. unfold g. destruct (WithAuth._id x =? WithAuth._id u)%nat eqn:E; cbn.
        - now rewrite E.
        - now rewrite E. }
      set (w1 := WithAuth.set_users _ _) in *.
      assert (Hcaller1 : WithAuth.currentUserOf w1 = Some (g u)).
      { unfold WithAuth.currentUserOf, w1. cbn [WithAuth.authUserId WithAuth.users
          WithAuth.set_users WithAuth.set_push].
        rewrite Hauth, (user_resolve_patched _ g _ Hid), Hres. reflexivity. }
      rewrite Hcaller1 in Hrun2.
      destruct (currentUser_id w1 (g u) Hcaller1) as [_ Hres1].
      unfold bind at 1 in Hrun2. unfold WithAuth.push_recordToken in Hrun2.
      rewrite (auth_set_token_run w1 (g u) (Some token) _ Hres1) in Hrun2.
      injection Hrun2 as <- <-.
      split; [reflexivity|]. split; [rewrite Hcaller1; cbn; now rewrite Hid|].
      cbn [WithAuth.users WithAuth.set_users WithAuth.set_push w1].
      unfold w1. cbn [WithAuth.users WithAuth.set_users WithAuth.set_push].
      rewrite Hid. fold g. rewrite (map_map_idem g _ Hgg).
      split; [reflexivity|apply length_map].
    + unfold throw in Hrun1. injection Hrun1 as <- <-.
      rewrite Hcaller in Hrun2. unfold throw in Hrun2. injection Hrun2 as <- <-.
      rewrite Hcaller. auto.
Qed.

End Tokens.

Section SingleRecipient.
Context {C : Type} `{Push.PushNotifications C}.
Import Push.

(** C6, as corrected.  A single-recipient send whose recipient id does not
    resolve to a stored record throws and attempts no delivery (the world,
    and with it the log of attempts, is left as it was).  The device
    variant throws "Device not found"; the user variant throws
    "Recipient not found" when the caller is authenticated, and its
    authentication error when there is no caller.  The device variant
    also throws, before any delivery, when the device it resolved is
    marked inactive. *)
Theorem single_send_unresolved :
  (forall (args : WithAuth.SendToUserArgs) (w : WithAuth.World C),
     WithAuth.resolve (WithAuth.recipientId args) (WithAuth.users w) = None ->
     (WithAuth.currentUserOf w <> None ->
      WithAuth.sendNotificationToUser args w =
      (Throw (ConvexError "Recipient not found"), w)) /\
     (WithAuth.currentUserOf w = None ->
      WithAuth.sendNotificationToUser args w =
      (Throw (ConvexError "User must be authenticated to send notifications"), w)))
  /\
  (forall (args : WithoutAuth.SendToDeviceArgs) (w : WithoutAuth.World C),
     WithoutAuth.resolve (WithoutAuth.msg_deviceId args) (WithoutAuth.devices w) = None ->
     WithoutAuth.sendNotificationToDevice args w =
     (Throw (ConvexError "Device not found"), w))
  /\
  (forall (args : WithoutAuth.SendToDeviceArgs) (w : WithoutAuth.World C) d,
     WithoutAuth.resolve (WithoutAuth.msg_deviceId args) (WithoutAuth.devices w) = Some d ->
     WithoutAuth.isActive d = Some false ->
     WithoutAuth.sendNotificationToDevice args w =
     (Throw (ConvexError "Device is not active"), w)).
Proof.
  split; [|split].
  - intros args w Hres. split; intros Hcaller;
      unfold WithAuth.sendNotificationToUser; unfold bind at 1;
      rewrite getCurrentUser_run.
    + destruct (WithAuth.currentUserOf w); [|congruence].
      unfold bind, WithAuth.db_get. now rewrite Hres.
    + now rewrite Hcaller.
  - intros args w Hres.
    unfold WithoutAuth.sendNotificationToDevice, bind, WithoutAuth.db_get.
    now rewrite Hres.
  - intros args w d Hres Hflag.
    unfold WithoutAuth.sendNotificationToDevice, bind, WithoutAuth.db_get.
    rewrite Hres. unfold WithoutAuth.notActive. now rewrite Hflag.
Qed.

(** C7.  Removing a token is idempotent, and removing it from a device
    that was already deactivated is not an error.  Device variant: for a
    stored device marked inactive the call returns, and the device is
    still stored and inactive; a second removal ends as the first did and
    leaves the table as the first left it; the call throws only when the
    device id does not resolve, and then with "Device not found".  User
    variant: a second removal ends as the first did and leaves the table
    as the first left it; the call throws only when no caller resolves. *)
Theorem removal_idempotent :
  (forall (id : Id) (w : WithoutAuth.World C) d,
     WithoutAuth.resolve id (WithoutAuth.devices w) = Some d ->
     WithoutAuth.isActive d = Some false ->
     exists w' d',
       WithoutAuth.removeDeviceToken id w = (Ok tt, w') /\
       WithoutAuth.resolve id (WithoutAuth.devices w') = Some d' /\
       WithoutAuth.isActive d' = Some false)
  /\
  (forall (id : Id) (w : WithoutAuth.World C) r1 w1 r2 w2,
     WithoutAuth.removeDeviceToken id w = (r1, w1) ->
     WithoutAuth.removeDeviceToken id w1 = (r2, w2) ->
     r2 = r1 /\ WithoutAuth.devices w2 = WithoutAuth.devices w1)
  /\
  (forall (id : Id) (w : WithoutAuth.World C) e w',
     WithoutAuth.removeDeviceToken id w = (Throw e, w') ->
     WithoutAuth.resolve id (WithoutAuth.devices w) = None /\
     e = ConvexError "Device not found")
  /\
  (forall (w : WithAuth.World C) r1 w1 r2 w2,
     WithAuth.removePushToken w = (r1, w1) ->
     WithAuth.removePushToken w1 = (r2, w2) ->
     r2 = r1 /\ WithAuth.users w2 = WithAuth.users w1)
  /\
  (forall (w : WithAuth.World C) e w',
     WithAuth.removePushToken w = (Throw e, w') ->
     WithAuth.currentUserOf w = None).
Proof.
  assert (Hkeep : forall id x,
    WithoutAuth._id
      ((fun x => if (WithoutAuth._id x =? id)%nat
                 then WithoutAuth.set_isActive (Some false) x else x) x)
    = WithoutAuth._id x).
  { intros id x. cbn. destruct (WithoutAuth._id x =? id)%nat; reflexivity. }
  split; [|split; [|split; [|split]]].
  - intros id w d Hres Hflag.
    rewrite (remove_known id w d Hres). eexists; eexists.
    split; [reflexivity|]. cbn [WithoutAuth.devices].
    rewrite (device_resolve_patched id _ _ (Hkeep id)), Hres. cbn [option_map].
    rewrite (device_resolve_id _ _ _ Hres), Nat.eqb_refl. auto.
  - intros id w r1 w1 r2 w2 Hrun1 Hrun2.
    destruct (WithoutAuth.resolve id (WithoutAuth.devices w)) as [d|] eqn:Hres.
    + rewrite (remove_known id w d Hres) in Hrun1. injection Hrun1 as <- <-.
      erewrite remove_known in Hrun2.
      2:{ cbn [WithoutAuth.devices].
          rewrite (device_resolve_patched id _ _ (Hkeep id)), Hres. reflexivity. }
      injection Hrun2 as <- <-. split; [reflexivity|].
      cbn [WithoutAuth.devices]. apply map_map_idem.
      intros x. destruct (WithoutAuth._id x =? id)%nat eqn:E; cbn; now rewrite E.
    + rewrite (remove_unknown id w Hres) in Hrun1. injection Hrun1 as <- <-.
      rewrite (remove_unknown id w Hres) in Hrun2. injection Hrun2 as <- <-. auto.
  - intros id w e w' Hrun.
    destruct (WithoutAuth.resolve id (WithoutAuth.devices w)) as [d|] eqn:Hres.
    + rewrite (remove_known id w d Hres) in Hrun. discriminate.
    + rewrite (remove_unknown id w Hres) in Hrun. injection Hrun as <- <-. auto.
  - intros w r1 w1 r2 w2 Hrun1 Hrun2.
    unfold WithAuth.removePushToken in Hrun1, Hrun2.
    unfold bind at 1 in Hrun1. unfold bind at 1 in Hrun2.
    rewrite getCurrentUser_run in Hrun1, Hrun2.
    destruct (WithAuth.currentUserOf w) as [u|] eqn:Hcaller.
    + destruct (currentUser_id w u Hcaller) as [Hauth Hres].
      unfold bind at 1 in Hrun1. unfold WithAuth.push_removeToken in Hrun1.
      rewrite (auth_set_token_run w u None _ Hres) in Hrun1.
      injection Hrun1 as <- <-.
      set (g := fun x => if (WithAuth._id x =? WithAuth._id u)%nat
                         then WithAuth.set_pushToken None x else x) in *.
      assert (Hid : forall x, WithAuth._id (g x) = WithAuth._id x).
      { intros x. unfold g. destruct (WithAuth._id x =? WithAuth._id u)%nat; reflexivity. }
      assert (Hgg : forall x, g (g x) = g x).
      { intros x. unfold g. destruct (WithAuth._id x =? WithAuth._id u)%nat eqn:E; cbn;
          now rewrite E. }
      set (w1 := WithAuth.set_users _ _) in *.
      assert (Hcaller1 : WithAuth.currentUserOf w1 = Some (g u)).
      { unfold WithAuth.currentUserOf, w1. cbn [WithAuth.authUserId WithAuth.users
          WithAuth.set_users WithAuth.set_push].
        rewrite Hauth, (user_resolve_patched _ g _ Hid), Hres. reflexivity. }
      rewrite Hcaller1 in Hrun2.
      destruct (currentUser_id w1 (g u) Hcaller1) as [_ Hres1].
      unfold bind at 1 in Hrun2. unfold WithAuth.push_removeToken in Hrun2.
      rewrite (auth_set_token_run w1 (g u) None _ Hres1) in Hrun2.
      injection Hrun2 as <- <-.
      split; [reflexivity|].
      unfold w1. cbn [WithAuth.users WithAuth.set_users WithAuth.set_push].
      rewrite Hid. fold g. apply (map_map_idem g _ Hgg).
    + unfold throw in Hrun1. injection Hrun1 as <- <-.
      rewrite Hcaller in Hrun2. unfold throw in Hrun2. injection Hrun2 as <- <-.
      auto.
  - intros w e w' Hrun.
    unfold WithAuth.removePushToken in Hrun. unfold bind at 1 in Hrun.
    rewrite getCurrentUser_run in Hrun.
    destruct (WithAuth.currentUserOf w) as [u|] eqn:Hcaller; [|reflexivity].
    destruct (currentUser_id w u Hcaller) as [_ Hres].
    unfold bind at 1 in Hrun. unfold WithAuth.push_removeToken in Hrun.
    rewrite (auth_set_token_run w u None _ Hres) in Hrun. discriminate.
Qed.

(** C8.  A status query on a recipient that does not resolve returns the
    default status instead of throwing: [hasToken] and [paused] false,
    and [isActive] false in the device variant. *)
Theorem status_of_missing_recipient :
  (forall (id : Id) (w : WithoutAuth.World C),
     WithoutAuth.resolve id (WithoutAuth.devices w) = None ->
     WithoutAuth.getDevicePushStatus id w =
     (Ok {| WithoutAuth.DeviceStatus.hasToken := false;
            WithoutAuth.DeviceStatus.paused := false;
            WithoutAuth.DeviceStatus.isActive := false |}, w))
  /\
  (forall (w : WithAuth.World C),
     WithAuth.currentUserOf w = None ->
     WithAuth.getMyPushStatus w = (Ok {| hasToken := false; paused := false |}, w)).
Proof.
  split.
  - intros id w Hres.
    unfold WithoutAuth.getDevicePushStatus, bind, WithoutAuth.db_get.
    now rewrite Hres.
  - intros w Hcaller.
    unfold WithAuth.getMyPushStatus. unfold bind at 1.
    now rewrite getCurrentUser_run, Hcaller.
Qed.

End SingleRecipient.

(** * The properties on the two deployments *)

Section Runs.
Import Push.

(** One user answers without an id: four are eligible, two are delivered,
    one delivery raises, and the counters add up to three. *)
Lemma broadcast_counters_counterexample :
  exists res w',
    WithAuth.sendBroadcastNotification (Scenario.broadcast None None)
      (Scenario.world (Some 1)) = (Ok res, w') /\
    WithAuth.total res = 4 /\
    WithAuth.success res + WithAuth.failed res <> WithAuth.total res.
Proof.
  eexists; eexists. split; [vm_compute; reflexivity|].
  split; [reflexivity|]. cbn. discriminate.
Qed.

(** The device broadcast over the fleet: every attempt is answered with a
    ticket or raises, and the counters add up to the three eligible devices. *)
Lemma broadcast_counters_witness :
  exists res w',
    WithoutAuth.sendBroadcastNotification (Scenario.deviceBroadcast None) Scenario.fleet
      = (Ok res, w') /\
    count unanswered
      (newAttempts (WithoutAuth.attempts Scenario.fleet) (WithoutAuth.attempts w')) = 0 /\
    WithoutAuth.success res + WithoutAuth.failed res = WithoutAuth.total res.
Proof.
  run_as r w' Hrun.
  eexists; eexists. split; [reflexivity|].
  destruct (proj2 (proj2 (broadcast_counters (C := Stub.Comp))) _ _ _ _ Hrun)
    as [_ Hsum].
  assert (Hnone : count unanswered
            (newAttempts (WithoutAuth.attempts Scenario.fleet)
               (WithoutAuth.attempts
                  (snd (WithoutAuth.sendBroadcastNotification
                          (Scenario.deviceBroadcast None) Scenario.fleet)))) = 0)
    by (vm_compute; reflexivity).
  rewrite Hrun in Hnone.
  split; [exact Hnone|exact (Hsum Hnone)].
Defined.

(** The caller excludes themself: five users are enumerated, four are
    reported. *)
Lemma broadcast_details_counterexample :
  exists res w',
    WithAuth.sendBroadcastNotification (Scenario.broadcast (Some true) None)
      (Scenario.world (Some 1)) = (Ok res, w') /\
    List.length (WithAuth.users (Scenario.world (Some 1))) = 5 /\
    List.length (WithAuth.details res) <>
    List.length (WithAuth.users (Scenario.world (Some 1))).
Proof.
  eexists; eexists. split; [vm_compute; reflexivity|].
  split; [reflexivity|]. cbn. discriminate.
Qed.

(** The same call reports once on each of the four other users. *)
Lemma broadcast_details_witness :
  exists res w',
    WithAuth.sendBroadcastNotification (Scenario.broadcast (Some true) None)
      (Scenario.world (Some 1)) = (Ok res, w') /\
    NoDup (map WithAuth._id (WithAuth.users (Scenario.world (Some 1)))) /\
    List.length (WithAuth.details res) = 4 /\
    NoDup (map WithAuth.Detail.userId (WithAuth.details res)).
Proof.
  run_as r w' Hrun.
  eexists; eexists. split; [reflexivity|].
  assert (Hnd : NoDup (map WithAuth._id (WithAuth.users (Scenario.world (Some 1))))).
  { cbn. repeat (constructor; [cbn; intuition discriminate|]). constructor. }
  split; [exact Hnd|].
  destruct (proj1 (broadcast_details (C := Stub.Comp)) _ _ _ _ Hrun)
    as (Hlen & _ & Hdup & _).
  split; [exact Hlen|exact (Hdup Hnd)].
Defined.


(** User 1 broadcasts to the others: nothing is sent to, or reported on,
    user 1. *)
Lemma broadcast_exclusion_witness :
  exists res w',
    WithAuth.sendBroadcastNotification (Scenario.broadcast (Some true) None)
      (Scenario.world (Some 1)) = (Ok res, w') /\
    ~ In 1 (map attemptTo (newAttempts (WithAuth.attempts (Scenario.world (Some 1)))
                             (WithAuth.attempts w'))) /\
    ~ In 1 (map WithAuth.Detail.userId (WithAuth.details res)) /\
    WithAuth.total res = 3.
Proof.
  run_as r w' Hrun.
  eexists; eexists. split; [reflexivity|].
  destruct (proj1 (broadcast_exclusion (C := Stub.Comp))
              (Scenario.broadcast (Some true) None) (Scenario.world (Some 1))
              _ _ (Scenario.user 1 (Some "tok-A")) eq_refl eq_refl Hrun)
    as (_ & Hsent & Hdet & Htot).
  split; [exact Hsent|]. split; [exact Hdet|exact Htot].
Defined.

(** Nobody is signed in and [requireAuth] is [false]: asking to exclude
    the caller excludes nobody. *)
Lemma broadcast_without_caller_witness :
  exists res w',
    WithAuth.sendBroadcastNotification (Scenario.broadcast (Some true) (Some false))
      (Scenario.world None) = (Ok res, w') /\
    WithAuth.senderId res = None /\
    map attemptTo (newAttempts (WithAuth.attempts (Scenario.world None))
                     (WithAuth.attempts w')) = [1; 2; 4; 5].
Proof.
  destruct (broadcast_without_caller (C := Stub.Comp)
              (Scenario.broadcast (Some true) (Some false)) (Scenario.world None)
              eq_refl eq_refl)
    as (res & w' & Hrun & Hsender & _ & Hto & _).
  exists res, w'. split; [exact Hrun|]. split; [exact Hsender|exact Hto].
Defined.

(** Device 2 has no [isActive] field and is sent the broadcast. *)
Lemma device_without_flag_is_active_witness :
  exists res w',
    WithoutAuth.sendBroadcastNotification (Scenario.deviceBroadcast (Some 1)) Scenario.fleet
      = (Ok res, w') /\
    In (Scenario.device 2 "tok-B" None) (WithoutAuth.devices Scenario.fleet) /\
    In 2 (map attemptTo (newAttempts (WithoutAuth.attempts Scenario.fleet)
                           (WithoutAuth.attempts w'))).
Proof.
  run_as r w' Hrun.
  eexists; eexists. split; [reflexivity|].
  assert (Hin : In (Scenario.device 2 "tok-B" None) (WithoutAuth.devices Scenario.fleet))
    by (cbn; auto).
  split; [exact Hin|].
  destruct (device_without_flag_is_active (C := Stub.Comp)
              (Scenario.deviceBroadcast (Some 1)) Scenario.fleet _ _
              (Scenario.device 2 "tok-B" None) Hrun Hin eq_refl)
    as (_ & _ & _ & Hsent & _).
  exact (proj2 (Hsent eq_refl)).
Defined.

End Runs.

Section TokenRuns.
Import Push.

(** A new token is registered twice: one row is added, once. *)
Lemma registration_idempotent_witness :
  exists id w1 w2,
    WithoutAuth.registerDevice (Scenario.registration "tok-Z") Scenario.fleet
      = (Ok id, w1) /\
    WithoutAuth.registerDevice (Scenario.registration "tok-Z") w1 = (Ok id, w2) /\
    List.length (WithoutAuth.devices w1) = 5 /\
    List.length (WithoutAuth.devices w2) = 5.
Proof.
  destruct (WithoutAuth.registerDevice (Scenario.registration "tok-Z") Scenario.fleet)
    as [r1 w1] eqn:Hrun1.
  destruct (WithoutAuth.registerDevice (Scenario.registration "tok-Z") w1)
    as [r2 w2] eqn:Hrun2.
  destruct (proj1 (registration_idempotent (C := Stub.Comp))
              _ _ _ _ _ _ _ eq_refl Hrun1 Hrun2)
    as (id & row & -> & -> & _ & _ & Hlen & _).
  exists id, w1, w2. split; [reflexivity|]. split; [exact Hrun2|].
  assert (Hfive : List.length (WithoutAuth.devices w1) = 5).
  { vm_compute in Hrun1. injection Hrun1 as _ <-. reflexivity. }
  split; [exact Hfive|]. now rewrite Hlen.
Defined.

(** Nobody is signed in and user 99 does not exist: the send is refused
    for the missing caller, not for the missing recipient. *)
Lemma single_send_unresolved_counterexample :
  WithAuth.resolve (WithAuth.recipientId (Scenario.message 99))
    (WithAuth.users (Scenario.world None)) = None /\
  fst (WithAuth.sendNotificationToUser (Scenario.message 99) (Scenario.world None))
  = Throw (ConvexError "User must be authenticated to send notifications") /\
  fst (WithAuth.sendNotificationToUser (Scenario.message 99) (Scenario.world None))
  <> Throw (ConvexError "Recipient not found").
Proof.
  split; [reflexivity|]. split; [reflexivity|]. cbn. discriminate.
Qed.

(** User 1 sends to user 99, who does not exist. *)
Lemma single_send_unresolved_witness :
  WithAuth.sendNotificationToUser (Scenario.message 99) (Scenario.world (Some 1))
  = (Throw (ConvexError "Recipient not found"), Scenario.world (Some 1)).
Proof.
  apply (proj1 (proj1 (single_send_unresolved (C := Stub.Comp))
                  (Scenario.message 99) (Scenario.world (Some 1)) eq_refl)).
  cbn. discriminate.
Defined.

(** Device 3 was removed before; removing it again returns. *)
Lemma removal_idempotent_witness :
  exists w' d',
    WithoutAuth.removeDeviceToken 3 Scenario.fleet = (Ok tt, w') /\
    WithoutAuth.resolve 3 (WithoutAuth.devices w') = Some d' /\
    WithoutAuth.isActive d' = Some false.
Proof.
  exact (proj1 (removal_idempotent (C := Stub.Comp)) 3 Scenario.fleet
           (Scenario.device 3 "tok-C" (Some false)) eq_refl eq_refl).
Defined.

(** The status of device 99, which does not exist. *)
Lemma status_of_missing_recipient_witness :
  WithoutAuth.getDevicePushStatus 99 Scenario.fleet =
  (Ok {| WithoutAuth.DeviceStatus.hasToken := false;
         WithoutAuth.DeviceStatus.paused := false;
         WithoutAuth.DeviceStatus.isActive := false |}, Scenario.fleet).
Proof.
  exact (proj1 (status_of_missing_recipient (C := Stub.Comp)) 99 Scenario.fleet eq_refl).
Defined.

End TokenRuns.

(** * Further facts *)

(** ** Objects *)

Lemma obj_get_set_same (key : string) (value : JVal) (obj : JObject) :
  obj_get key (obj_set key value obj) = Some value.
Proof.
  induction obj as [|[k x] obj IH]; cbn.
  - now rewrite String.eqb_refl.
  - destruct (k =? key)%string eqn:E; cbn; rewrite E; auto.
Qed.

Lemma obj_get_set_other (key other : string) (value : JVal) (obj : JObject) :
  other <> key -> obj_get key (obj_set other value obj) = obj_get key obj.
Proof.
  intros Hne. induction obj as [|[k x] obj IH]; cbn.
  - destruct (other =? key)%string eqn:E; [|reflexivity].
    apply String.eqb_eq in E. contradiction.
  - destruct (k =? other)%string eqn:E; cbn.
    + apply String.eqb_eq in E. subst k.
      destruct (other =? key)%string eqn:E'; [|reflexivity].
      apply String.eqb_eq in E'. contradiction.
    + now rewrite IH.
Qed.

(** ** Ids of the [devices] table *)

Lemma fresh_id_above (table : list WithoutAuth.Device) (d : WithoutAuth.Device) :
  In d table -> WithoutAuth._id d < WithoutAuth.fresh_id table.
Proof.
  unfold WithoutAuth.fresh_id.
  induction table as [|x table IH]; cbn; [contradiction|].
  intros [->|Hin]; [lia|]. specialize (IH Hin). lia.
Qed.

Lemma fresh_id_unresolved (table : list WithoutAuth.Device) :
  WithoutAuth.resolve (WithoutAuth.fresh_id table) table = None.
Proof.
  unfold WithoutAuth.resolve.
  destruct (find _ table) as [d|] eqn:Hfind; [|reflexivity].
  apply find_some in Hfind as [Hin Heq]. apply Nat.eqb_eq in Heq.
  apply fresh_id_above in Hin. lia.
Qed.

Lemma fresh_id_new (table : list WithoutAuth.Device) :
  ~ In (WithoutAuth.fresh_id table) (map WithoutAuth._id table).
Proof.
  intros Hin. apply in_map_iff in Hin as (d & Hid & Hin).
  apply fresh_id_above in Hin. lia.
Qed.

(** With distinct ids a row is the one its id resolves to. *)
Lemma device_resolve_own (table : list WithoutAuth.Device) (d : WithoutAuth.Device) :
  NoDup (map WithoutAuth._id table) -> In d table ->
  WithoutAuth.resolve (WithoutAuth._id d) table = Some d.
Proof.
  unfold WithoutAuth.resolve.
  induction table as [|x table IH]; cbn; intros Hdistinct Hin; [contradiction|].
  apply NoDup_cons_iff in Hdistinct as [Hfresh Hrest].
  destruct Hin as [->|Hin].
  - now rewrite Nat.eqb_refl.
  - destruct (WithoutAuth._id x =? WithoutAuth._id d)%nat eqn:E; [|auto].
    apply Nat.eqb_eq in E. exfalso. apply Hfresh. rewrite E. now apply in_map.
Qed.

Lemma firstWithToken_token (token : string) (table : list WithoutAuth.Device)
    (d : WithoutAuth.Device) :
  WithoutAuth.firstWithToken token table = Some d ->
  In d table /\ WithoutAuth.pushToken d = token.
Proof.
  intros Hfind. apply find_some in Hfind as [Hin Heq].
  split; [exact Hin|]. now apply String.eqb_eq.
Qed.

Lemma firstWithToken_none (token : string) (table : list WithoutAuth.Device) :
  WithoutAuth.firstWithToken token table = None ->
  ~ In token (map WithoutAuth.pushToken table).
Proof.
  intros Hfind Hin. apply in_map_iff in Hin as (d & Htoken & Hin).
  apply (find_none _ _ Hfind) in Hin. cbn in Hin.
  rewrite Htoken, String.eqb_refl in Hin. discriminate.
Qed.

Lemma NoDup_snoc {A : Type} (l : list A) (x : A) :
  NoDup l -> ~ In x l -> NoDup (l ++ [x]).
Proof.
  intros Hl Hx. induction l as [|y l IH]; cbn.
  - constructor; [intros []|constructor].
  - apply NoDup_cons_iff in Hl as [Hy Hl]. constructor.
    + intros Hin. apply in_app_or in Hin as [Hin|[->|[]]]; [auto|].
      apply Hx. now left.
    + apply IH; [exact Hl|]. intros Hin. apply Hx. now right.
Qed.

Section RegisteredRow.
Context {C : Type} `{Push.PushNotifications C}.
Import Push WithoutAuth.

(** The row a registration leaves behind: the token's index leads to it,
    it carries the returned id, it is active and it has the fields of the
    call. *)
Lemma registered_row (args : RegisterArgs) (w : World C) r w1 :
  registerDevice args w = (r, w1) ->
  exists row,
    r = Ok (_id row) /\
    In row (devices w1) /\
    firstWithToken (reg_pushToken args) (devices w1) = Some row /\
    pushToken row = reg_pushToken args /\
    isActive row = Some true /\
    deviceId row = reg_deviceId args /\
    platform row = reg_platform args /\
    appVersion row = reg_appVersion args /\
    lastSeen row = clock w (ticks w).
Proof.
  intros Hrun.
  destruct (firstWithToken (reg_pushToken args) (devices w)) as [d|] eqn:Hfind.
  - rewrite (register_known args w d Hfind) in Hrun. injection Hrun as <- <-.
    destruct (firstWithToken_token _ _ _ Hfind) as [Hin Htoken].
    exists (refresh args (clock w (ticks w)) d). cbn [devices].
    split; [reflexivity|]. split; [|split].
    + apply in_map_iff. exists d. now rewrite Nat.eqb_refl.
    + unfold firstWithToken. rewrite find_map_stable.
      * fold (firstWithToken (reg_pushToken args) (devices w)).
        rewrite Hfind. cbn [option_map]. now rewrite Nat.eqb_refl.
      * intros x. destruct (_id x =? _id d)%nat; reflexivity.
    + cbn. auto 10.
  - rewrite (register_unknown args w Hfind) in Hrun. injection Hrun as <- <-.
    exists (registered args w). cbn [devices].
    split; [reflexivity|]. split; [apply in_or_app; right; now left|]. split.
    + apply find_app_last; [exact Hfind|]. cbn. apply String.eqb_refl.
    + cbn. auto 10.
Qed.

(** A registration never throws. *)
Lemma register_returns (args : RegisterArgs) (w : World C) :
  exists id w1, registerDevice args w = (Ok id, w1).
Proof.
  destruct (registerDevice args w) as [r w1] eqn:Hrun.
  destruct (registered_row args w r w1 Hrun) as (row & -> & _). eauto.
Qed.

End RegisteredRow.

(** ** Registering a device *)
Section Registering.
Context {C : Type} `{Push.PushNotifications C}.
Import Push WithoutAuth.

Lemma register_ids_distinct (args : RegisterArgs) (w : World C) r w1 :
  registerDevice args w = (r, w1) ->
  NoDup (map _id (devices w)) -> NoDup (map _id (devices w1)).
Proof.
  intros Hrun Hdistinct.
  destruct (firstWithToken (reg_pushToken args) (devices w)) as [d|] eqn:Hfind.
  - rewrite (register_known args w d Hfind) in Hrun. injection Hrun as <- <-.
    cbn [devices]. rewrite map_map.
    erewrite map_ext; [exact Hdistinct|].
    intros x. cbn. destruct (_id x =? _id d)%nat; reflexivity.
  - rewrite (register_unknown args w Hfind) in Hrun. injection Hrun as <- <-.
    cbn [devices]. rewrite map_app. cbn.
    apply NoDup_snoc; [exact Hdistinct|apply fresh_id_new].
Qed.

(** X1.  Registration followed by a lookup: in a table with distinct ids,
    the id [registerDevice] returns resolves to the row the token's index
    leads to; that row carries the token and the metadata of the call, is
    active, and was last seen at the time the call read. *)
Theorem register_then_lookup (args : RegisterArgs) (w : World C) id w1 :
  NoDup (map _id (devices w)) ->
  registerDevice args w = (Ok id, w1) ->
  exists row,
    resolve id (devices w1) = Some row /\
    firstWithToken (reg_pushToken args) (devices w1) = Some row /\
    pushToken row = reg_pushToken args /\
    isActive row = Some true /\
    deviceId row = reg_deviceId args /\
    platform row = reg_platform args /\
    appVersion row = reg_appVersion args /\
    lastSeen row = clock w (ticks w).
Proof.
  intros Hdistinct Hrun.
  destruct (registered_row args w _ _ Hrun) as (row & [= ->] & Hin & Hfirst & Hrest).
  exists row. split; [|split; assumption].
  apply device_resolve_own; [|exact Hin].
  exact (register_ids_distinct args w _ _ Hrun Hdistinct).
Qed.

(** X2.  [registerDevice] keeps the table well formed: if no two rows
    shared an id before the call none do after it, and likewise for push
    tokens; the call adds one row when the token is new and none when it
    is known. *)
Theorem register_keeps_rows_distinct (args : RegisterArgs) (w : World C) r w1 :
  registerDevice args w = (r, w1) ->
  (NoDup (map _id (devices w)) -> NoDup (map _id (devices w1))) /\
  (NoDup (map pushToken (devices w)) -> NoDup (map pushToken (devices w1))) /\
  List.length (devices w1) =
    match firstWithToken (reg_pushToken args) (devices w) with
    | Some _ => List.length (devices w)
    | None => S (List.length (devices w))
    end.
Proof.
  intros Hrun. split; [exact (register_ids_distinct args w r w1 Hrun)|].
  destruct (firstWithToken (reg_pushToken args) (devices w)) as [d|] eqn:Hfind.
  - rewrite (register_known args w d Hfind) in Hrun. injection Hrun as <- <-.
    cbn [devices]. split; [|apply length_map].
    intros Hdistinct. rewrite map_map.
    erewrite map_ext; [exact Hdistinct|].
    intros x. cbn. destruct (_id x =? _id d)%nat; reflexivity.
  - rewrite (register_unknown args w Hfind) in Hrun. injection Hrun as <- <-.
    cbn [devices]. split.
    + intros Hdistinct. rewrite map_app. cbn.
      apply NoDup_snoc; [exact Hdistinct|now apply firstWithToken_none].
    + rewrite length_app. cbn. lia.
Qed.

(** X3.  Registering a token that is already stored does not call the
    push component.  In particular, registering again the token of a
    device that [removeDeviceToken] deactivated returns the same id and
    makes the row active, while the component stays as [removeToken] left
    it: the token is not recorded again. *)
Theorem reregistration_skips_component :
  (forall (args : RegisterArgs) (w : World C) d r w1,
     firstWithToken (reg_pushToken args) (devices w) = Some d ->
     registerDevice args w = (r, w1) ->
     r = Ok (_id d) /\ push w1 = push w /\ attempts w1 = attempts w)
  /\
  (forall (args : RegisterArgs) (w : World C) d w1 r w2,
     firstWithToken (reg_pushToken args) (devices w) = Some d ->
     removeDeviceToken (_id d) w = (Ok tt, w1) ->
     registerDevice args w1 = (r, w2) ->
     r = Ok (_id d) /\
     push w2 = removeToken (push w) (_id d) /\
     exists row,
       resolve (_id d) (devices w2) = Some row /\ isActive row = Some true).
Proof.
  split.
  - intros args w d r w1 Hfind Hrun.
    rewrite (register_known args w d Hfind) in Hrun. injection Hrun as <- <-. auto.
  - intros args w d w1 r w2 Hfind Hremove Hrun.
    destruct (firstWithToken_token _ _ _ Hfind) as [Hin _].
    destruct (device_in_resolves _ _ Hin) as [d0 Hres].
    rewrite (remove_known _ w d0 Hres) in Hremove. injection Hremove as <-.
    set (off := fun x => if (_id x =? _id d)%nat
                         then set_isActive (Some false) x else x) in *.
    assert (Hoff : forall x, _id (off x) = _id x).
    { intros x. unfold off. destruct (_id x =? _id d)%nat; reflexivity. }
    assert (Hfind1 : firstWithToken (reg_pushToken args) (map off (devices w))
                     = Some (off d)).
    { unfold firstWithToken. rewrite find_map_stable.
      - fold (firstWithToken (reg_pushToken args) (devices w)). now rewrite Hfind.
      - intros x. unfold off. destruct (_id x =? _id d)%nat; reflexivity. }
    erewrite register_known in Hrun by exact Hfind1.
    injection Hrun as <- <-. cbn [devices push]. rewrite Hoff.
    split; [reflexivity|]. split; [reflexivity|].
    match goal with
    | |- context [map ?on (map off (devices w))] =>
        rewrite (device_resolve_patched (_id d) on);
        [|intros x; cbn; destruct (_id x =? _id d)%nat; reflexivity]
    end.
    rewrite (device_resolve_patched _ off _ Hoff), Hres. cbn [option_map].
    eexists. split; [reflexivity|].
    rewrite Hoff, (device_resolve_id _ _ _ Hres), Nat.eqb_refl. reflexivity.
Qed.

(** X4.  A device that has just been registered is sent the next
    broadcast, unless the broadcast excludes it. *)
Theorem registered_device_is_broadcast_to
    (args : RegisterArgs) (w : World C) id w1 (bargs : BroadcastArgs) res w2 :
  registerDevice args w = (Ok id, w1) ->
  excludeDeviceId bargs <> Some id ->
  sendBroadcastNotification bargs w1 = (Ok res, w2) ->
  In id (map attemptTo (newAttempts (attempts w1) (attempts w2))).
Proof.
  intros Hreg Hexcl Hrun.
  destruct (registered_row args w _ _ Hreg) as (row & [= ->] & Hin & _ & _ & Hactive & _).
  destruct (device_broadcast_ok bargs w1 _ _ Hrun) as (res' & _ & Hto & _).
  rewrite Hto. apply in_map. apply filter_In. split; [exact Hin|].
  unfold isActiveDevice, isExcluded. rewrite Hactive.
  destruct (excludeDeviceId bargs) as [excluded|]; [|reflexivity].
  destruct (_id row =? excluded)%nat eqn:E; [|reflexivity].
  apply Nat.eqb_eq in E. congruence.
Qed.

(** X5.  The device app finds itself again: looking the token up in what
    [getAllDevices] returns after a registration, as [usePushNotifications]
    does, gives a device with the id the registration returned. *)
Theorem device_app_recovers_id (args : RegisterArgs) (w : World C) r w1 :
  registerDevice args w = (r, w1) ->
  exists allDevices device,
    getAllDevices w1 = (Ok allDevices, w1) /\
    Client.currentDevice allDevices (reg_pushToken args) = Some device /\
    r = Ok (_id device) /\
    Client.isDeviceRegistered (Some (_id device)) (Some (reg_pushToken args))
    = truthy (Some (reg_pushToken args)).
Proof.
  intros Hreg.
  destruct (registered_row args w _ _ Hreg) as (row & -> & _ & Hfirst & _).
  exists (devices w1), row. auto.
Qed.

End Registering.

(** ** Sending to one device *)
Section DeviceSends.
Context {C : Type} `{Push.PushNotifications C}.
Import Push WithoutAuth.

Lemma patch_keeps_ids (id : Id) (f : Device -> Device) (table : list Device) :
  (forall d, _id (f d) = _id d) ->
  map _id (map (fun d => if (_id d =? id)%nat then f d else d) table) = map _id table.
Proof.
  intros Hf. rewrite map_map. apply map_ext.
  intros d. destruct (_id d =? id)%nat; auto.
Qed.

(** X6.  [sendNotificationToDevice] to a stored, active device makes
    exactly one delivery attempt, addressed to that device, with the
    caller's title, body and data as given, default sound, high priority
    and [allowUnregisteredTokens].  If the component answers, the answer is
    returned and the device's [lastSeen] is set to the time read after the
    delivery, no id, token or activity flag changing; if the component
    raises, the call throws the same error and the table is as it was. *)
Theorem send_to_device_delivers (args : SendToDeviceArgs) (w : World C) d r w' :
  resolve (msg_deviceId args) (devices w) = Some d ->
  isActive d = Some true ->
  sendNotificationToDevice args w = (r, w') ->
  let request :=
    {| userId := msg_deviceId args;
       notification :=
         {| Push.title := msg_title args; Push.body := msg_body args;
            Push.data := msg_data args; sound := "default"; priority := "high" |};
       allowUnregisteredTokens := true |} in
  let outcome := fst (sendPushNotification (push w) request) in
  newAttempts (attempts w) (attempts w') = [(request, outcome)] /\
  match outcome with
  | Returned notificationId =>
      r = Ok notificationId /\
      map _id (devices w') = map _id (devices w) /\
      map pushToken (devices w') = map pushToken (devices w) /\
      map isActive (devices w') = map isActive (devices w) /\
      exists row,
        resolve (msg_deviceId args) (devices w') = Some row /\
        lastSeen row = clock w (ticks w)
  | Raised error => r = Throw error /\ devices w' = devices w
  end.
Proof.
  intros Hres Hactive Hrun request outcome.
  unfold sendNotificationToDevice, bind, db_get in Hrun. rewrite Hres in Hrun.
  unfold notActive in Hrun. rewrite Hactive in Hrun.
  unfold push_sendPushNotification in Hrun. fold request in Hrun.
  unfold outcome.
  destruct (sendPushNotification (push w) request) as [answer c].
  cbn [fst]. destruct answer as [notificationId|error].
  - unfold Date_now, db_patch in Hrun. cbn [devices] in Hrun.
    rewrite Hres in Hrun. unfold ret in Hrun. injection Hrun as <- <-.
    unfold set_devices. cbn [attempts devices]. split; [apply newAttempts_app|].
    split; [reflexivity|]. split; [now apply patch_keeps_ids|].
    split; [|split].
    + rewrite map_map. apply map_ext.
      intros x. destruct (_id x =? msg_deviceId args)%nat; reflexivity.
    + rewrite map_map. apply map_ext.
      intros x. destruct (_id x =? msg_deviceId args)%nat; reflexivity.
    + rewrite device_resolve_patched, Hres.
      * cbn [option_map]. eexists. split; [reflexivity|].
        rewrite (device_resolve_id _ _ _ Hres), Nat.eqb_refl. reflexivity.
      * intros x. destruct (_id x =? msg_deviceId args)%nat; reflexivity.
  - injection Hrun as <- <-. cbn [attempts devices].
    split; [apply newAttempts_app|]. auto.
Qed.

(** X7.  The three readings of a missing [isActive] field disagree: for a
    stored device without the field, [getDevicePushStatus] reports it
    active and a broadcast that does not exclude it attempts a delivery,
    but [sendNotificationToDevice] refuses it with "Device is not active"
    and attempts nothing. *)
Theorem flagless_device_disagreement (id : Id) (w : World C) d :
  resolve id (devices w) = Some d ->
  isActive d = None ->
  (exists status,
     getDevicePushStatus id w = (Ok status, w) /\
     DeviceStatus.isActive status = true)
  /\
  (forall bargs res w',
     excludeDeviceId bargs <> Some id ->
     sendBroadcastNotification bargs w = (Ok res, w') ->
     In id (map attemptTo (newAttempts (attempts w) (attempts w'))))
  /\
  (forall args,
     msg_deviceId args = id ->
     sendNotificationToDevice args w = (Throw (ConvexError "Device is not active"), w)).
Proof.
  intros Hres Hflag. split; [|split].
  - unfold getDevicePushStatus, bind, db_get, push_getStatusForUser, ret.
    rewrite Hres, Hflag. eexists. split; reflexivity.
  - intros bargs res w' Hexcl Hrun.
    destruct (device_broadcast_ok bargs w _ _ Hrun) as (res' & _ & Hto & _).
    rewrite Hto, <- (device_resolve_id _ _ _ Hres).
    apply in_map, filter_In. split.
    + apply find_some in Hres. tauto.
    + unfold isActiveDevice, isExcluded. rewrite Hflag.
      destruct (excludeDeviceId bargs) as [excluded|]; [|reflexivity].
      destruct (_id d =? excluded)%nat eqn:E; [|reflexivity].
      apply Nat.eqb_eq in E. rewrite (device_resolve_id _ _ _ Hres) in E. congruence.
  - intros args <-.
    unfold sendNotificationToDevice, bind, db_get. rewrite Hres.
    unfold notActive. now rewrite Hflag.
Qed.

(** X8.  After [removeDeviceToken] has returned for a device, the device
    is out of reach of the sends that look at [isActive]:
    [sendNotificationToDevice] refuses it without attempting a delivery,
    no broadcast attempts it, a broadcast that does not exclude it reports
    it as [inactive], and [getDevicePushStatus] reports it inactive. *)
Theorem removed_device_is_unreachable (id : Id) (w w1 : World C) :
  removeDeviceToken id w = (Ok tt, w1) ->
  (forall args,
     msg_deviceId args = id ->
     sendNotificationToDevice args w1 = (Throw (ConvexError "Device is not active"), w1))
  /\
  (forall bargs res w2,
     sendBroadcastNotification bargs w1 = (Ok res, w2) ->
     ~ In id (map attemptTo (newAttempts (attempts w1) (attempts w2))) /\
     (excludeDeviceId bargs <> Some id ->
      In {| Detail.deviceId := id; Detail.status := Detail.inactive;
            Detail.notificationId := None; Detail.error := None |}
         (details res)))
  /\
  (exists status,
     getDevicePushStatus id w1 = (Ok status, w1) /\
     DeviceStatus.isActive status = false).
Proof.
  intros Hremove.
  destruct (resolve id (devices w)) as [d|] eqn:Hres.
  2:{ rewrite (remove_unknown id w Hres) in Hremove. discriminate. }
  rewrite (remove_known id w d Hres) in Hremove. injection Hremove as <-.
  set (off := fun x => if (_id x =? id)%nat then set_isActive (Some false) x else x).
  assert (Hoff : forall x, _id (off x) = _id x).
  { intros x. unfold off. destruct (_id x =? id)%nat; reflexivity. }
  assert (Hdown : forall x, In x (map off (devices w)) -> _id x = id ->
                            isActive x = Some false).
  { intros x Hin Hid. apply in_map_iff in Hin as (y & <- & _).
    rewrite Hoff in Hid. unfold off. apply Nat.eqb_eq in Hid. now rewrite Hid. }
  assert (Hres1 : exists row, resolve id (map off (devices w)) = Some row /\
                              In row (map off (devices w)) /\
                              _id row = id /\ isActive row = Some false).
  { rewrite (device_resolve_patched _ off _ Hoff), Hres. cbn [option_map].
    exists (off d). split; [reflexivity|].
    assert (Hin : In (off d) (map off (devices w))).
    { apply in_map. apply find_some in Hres. tauto. }
    assert (Hid : _id (off d) = id)
      by (rewrite Hoff; exact (device_resolve_id _ _ _ Hres)).
    auto. }
  destruct Hres1 as (row & Hrow & Hin & Hid & Hflag).
  cbn [devices attempts]. fold off.
  match goal with
  | |- context [sendNotificationToDevice _ ?world] => set (w1 := world)
  end.
  split; [|split].
  - intros args <-.
    unfold sendNotificationToDevice, bind, db_get. cbn [devices w1].
    rewrite Hrow. unfold notActive. now rewrite Hflag.
  - intros bargs res w2 Hrun.
    destruct (device_broadcast_ok bargs w1 _ _ Hrun)
      as (res' & [= <-] & Hto & _ & _ & _ & Hdet).
    split.
    + cbn [attempts w1] in Hto. rewrite Hto. intros Hatt.
      apply in_ids_filter in Hatt as (x & Hx & Hp & Hxid).
      cbn [devices w1] in Hx. unfold isActiveDevice in Hp.
      rewrite (Hdown x Hx Hxid) in Hp.
      destruct (isExcluded bargs x); discriminate.
    + intros Hexcl. rewrite Hdet. apply in_or_app. right.
      apply in_map_iff. exists row. split.
      * unfold inactiveDetail. now rewrite Hid.
      * apply filter_In. split; [exact Hin|].
        unfold isInactiveDevice, isExcluded. rewrite Hflag.
        destruct (excludeDeviceId bargs) as [excluded|]; [|reflexivity].
        destruct (_id row =? excluded)%nat eqn:E; [|reflexivity].
        apply Nat.eqb_eq in E. congruence.
  - unfold getDevicePushStatus, bind, db_get, push_getStatusForUser, ret.
    cbn [devices w1]. rewrite Hrow, Hflag. eexists. split; reflexivity.
Qed.

(** X9.  [sendNotificationByToken] throws "Device with this token not
    found", attempting nothing, when no row carries the token.  Otherwise
    it makes exactly one attempt, addressed to the first row with the
    token and carrying the caller's title, body and data, whether or not
    that device is active, and returns the component's answer or throws
    its error.  After a registration, it reaches the registered device. *)
Theorem send_by_token_reaches_first_row :
  (forall (args : SendByTokenArgs) (w : World C),
     firstWithToken (tok_pushToken args) (devices w) = None ->
     sendNotificationByToken args w =
     (Throw (ConvexError "Device with this token not found"), w))
  /\
  (forall (args : SendByTokenArgs) (w : World C) d r w',
     firstWithToken (tok_pushToken args) (devices w) = Some d ->
     sendNotificationByToken args w = (r, w') ->
     let request :=
       {| userId := _id d;
          notification :=
            {| Push.title := tok_title args; Push.body := tok_body args;
               Push.data := tok_data args; sound := "default"; priority := "high" |};
          allowUnregisteredTokens := true |} in
     let outcome := fst (sendPushNotification (push w) request) in
     newAttempts (attempts w) (attempts w') = [(request, outcome)] /\
     match outcome with
     | Returned notificationId =>
         r = Ok notificationId /\ map isActive (devices w') = map isActive (devices w)
     | Raised error => r = Throw error /\ devices w' = devices w
     end)
  /\
  (forall (reg : RegisterArgs) (args : SendByTokenArgs) (w : World C) id w1 r w2,
     tok_pushToken args = reg_pushToken reg ->
     registerDevice reg w = (Ok id, w1) ->
     sendNotificationByToken args w1 = (r, w2) ->
     map attemptTo (newAttempts (attempts w1) (attempts w2)) = [id]).
Proof.
  assert (Hfound : forall (args : SendByTokenArgs) (w : World C) d r w',
    firstWithToken (tok_pushToken args) (devices w) = Some d ->
    sendNotificationByToken args w = (r, w') ->
    let request :=
      {| userId := _id d;
         notification :=
           {| Push.title := tok_title args; Push.body := tok_body args;
              Push.data := tok_data args; sound := "default"; priority := "high" |};
         allowUnregisteredTokens := true |} in
    let outcome := fst (sendPushNotification (push w) request) in
    newAttempts (attempts w) (attempts w') = [(request, outcome)] /\
    match outcome with
    | Returned notificationId =>
        r = Ok notificationId /\ map isActive (devices w') = map isActive (devices w)
    | Raised error => r = Throw error /\ devices w' = devices w
    end).
  { intros args w d r w' Hfind Hrun request outcome.
    unfold sendNotificationByToken, bind, db_first_by_pushToken in Hrun.
    rewrite Hfind in Hrun.
    unfold push_sendPushNotification in Hrun. fold request in Hrun.
    unfold outcome.
    destruct (sendPushNotification (push w) request) as [answer c].
    cbn [fst]. destruct answer as [notificationId|error].
    - unfold Date_now, db_patch in Hrun. cbn [devices] in Hrun.
      destruct (firstWithToken_token _ _ _ Hfind) as [Hin _].
      destruct (device_in_resolves _ _ Hin) as [d' Hres].
      rewrite Hres in Hrun. unfold ret in Hrun. injection Hrun as <- <-.
      unfold set_devices. cbn [attempts devices]. split; [apply newAttempts_app|].
      split; [reflexivity|].
      rewrite map_map. apply map_ext.
      intros x. destruct (_id x =? _id d)%nat; reflexivity.
    - injection Hrun as <- <-. cbn [attempts devices].
      split; [apply newAttempts_app|]. auto. }
  split; [|split; [exact Hfound|]].
  - intros args w Hfind.
    unfold sendNotificationByToken, bind, db_first_by_pushToken.
    now rewrite Hfind.
  - intros reg args w id w1 r w2 Htoken Hreg Hrun.
    destruct (registered_row reg w _ _ Hreg) as (row & [= ->] & _ & Hfirst & _).
    rewrite <- Htoken in Hfirst.
    destruct (Hfound args w1 row r w2 Hfirst Hrun) as [-> _]. reflexivity.
Qed.

(** X10.  The device variant's [sendTestNotification] throws "Device not
    found", attempting nothing, for an id that does not resolve.  For a
    stored device it makes exactly one attempt, addressed to it, whether
    or not the device is active, with data of type ["test"]; it returns
    the component's answer or throws its error, and never writes to the
    table. *)
Theorem device_test_send :
  (forall (id : Id) (w : World C),
     resolve id (devices w) = None ->
     sendTestNotification id w = (Throw (ConvexError "Device not found"), w))
  /\
  (forall (id : Id) (w : World C) d r w',
     resolve id (devices w) = Some d ->
     sendTestNotification id w = (r, w') ->
     exists request outcome,
       newAttempts (attempts w) (attempts w') = [(request, outcome)] /\
       outcome = fst (sendPushNotification (push w) request) /\
       userId request = id /\
       allowUnregisteredTokens request = true /\
       Client.field "type" (Push.data (notification request)) = Some (JStr "test") /\
       Client.field "timestamp" (Push.data (notification request))
         = Some (JNum (clock w (ticks w))) /\
       devices w' = devices w /\
       r = match outcome with
           | Returned notificationId => Ok notificationId
           | Raised error => Throw error
           end).
Proof.
  split.
  - intros id w Hres. unfold sendTestNotification, bind, db_get. now rewrite Hres.
  - intros id w d r w' Hres Hrun.
    unfold sendTestNotification, bind, db_get in Hrun. rewrite Hres in Hrun.
    unfold Date_now, push_sendPushNotification in Hrun.
    cbn [devices push attempts clock ticks] in Hrun.
    match type of Hrun with
    | context [sendPushNotification (push w) ?request] =>
        exists request, (fst (sendPushNotification (push w) request));
        destruct (sendPushNotification (push w) request) as [answer c]
    end.
    cbn [fst]. destruct answer as [notificationId|error];
      unfold ret in Hrun; injection Hrun as <- <-; cbn [attempts devices];
      (split; [apply newAttempts_app|]); repeat split; reflexivity.
Qed.

End DeviceSends.

(** ** What a broadcast hands to the component *)
Section Requests.
Context {C : Type} `{Push.PushNotifications C}.
Import Push.

Lemma auth_turn_request payload title body (user : WithAuth.User)
    (st : WithAuth.Locals.t) (w : WithAuth.World C) :
  exists outcome st' w',
    WithAuth.broadcastTurn payload title body user st w = (Ok st', w') /\
    WithAuth.attempts w' =
      WithAuth.attempts w ++
      [({| userId := WithAuth._id user;
           notification :=
             {| Push.title := title; Push.body := body;
                Push.data := Some (JObj (payload (WithAuth.clock w (WithAuth.ticks w))));
                sound := "default"; priority := "high" |};
           allowUnregisteredTokens := true |}, outcome)].
Proof.
  unfold WithAuth.broadcastTurn, try_catch, bind, WithAuth.Date_now,
    WithAuth.push_sendPushNotification, ret.
  cbn [WithAuth.users WithAuth.authUserId WithAuth.push WithAuth.attempts
       WithAuth.clock WithAuth.ticks].
  match goal with
  | |- context [sendPushNotification (WithAuth.push w) ?request] =>
      destruct (sendPushNotification (WithAuth.push w) request) as [outcome c]
  end.
  exists outcome.
  destruct outcome as [notificationId|error];
    [destruct (truthy notificationId)|]; eexists; eexists; split; reflexivity.
Qed.

(** Every request of a loop has the title, body and fixed settings of the
    call and a data object built by [payload] from a time. *)
Lemma auth_loop_requests payload title body (eligible : list WithAuth.User) :
  forall (st : WithAuth.Locals.t) (w : WithAuth.World C),
  exists new st' w',
    forOf (WithAuth.broadcastTurn payload title body) eligible st w = (Ok st', w') /\
    WithAuth.attempts w' = WithAuth.attempts w ++ new /\
    Forall
      (fun a =>
         exists timestamp,
           fst a =
           {| userId := attemptTo a;
              notification :=
                {| Push.title := title; Push.body := body;
                   Push.data := Some (JObj (payload timestamp));
                   sound := "default"; priority := "high" |};
              allowUnregisteredTokens := true |})
      new.
Proof.
  induction eligible as [|user rest IH]; intros st w.
  - exists [], st, w. cbn. rewrite app_nil_r. auto.
  - destruct (auth_turn_request payload title body user st w)
      as (outcome & st1 & w1 & Hturn & Hlog).
    destruct (IH st1 w1) as (new & st' & w' & Hloop & Hlog' & Hall).
    eexists (_ :: new), st', w'.
    cbn [forOf]. unfold bind at 1. rewrite Hturn, Hloop.
    split; [reflexivity|]. split.
    + rewrite Hlog', Hlog, <- app_assoc. reflexivity.
    + constructor; [|exact Hall]. eexists. reflexivity.
Qed.

Lemma device_turn_request (args : WithoutAuth.BroadcastArgs)
    (device : WithoutAuth.Device) (st : WithoutAuth.Locals.t)
    (w : WithoutAuth.World C) :
  exists outcome st' w',
    WithoutAuth.broadcastTurn args device st w = (Ok st', w') /\
    WithoutAuth.attempts w' =
      WithoutAuth.attempts w ++
      [({| userId := WithoutAuth._id device;
           notification :=
             {| Push.title := WithoutAuth.title args;
                Push.body := WithoutAuth.body args;
                Push.data :=
                  Some (JObj
                    (obj_set "timestamp"
                       (JNum (WithoutAuth.clock w (WithoutAuth.ticks w)))
                       (obj_set "type" (JStr "broadcast")
                          (spread (WithoutAuth.data args)))));
                sound := "default"; priority := "high" |};
           allowUnregisteredTokens := true |}, outcome)].
Proof.
  unfold WithoutAuth.broadcastTurn, try_catch, bind, WithoutAuth.Date_now,
    WithoutAuth.push_sendPushNotification, ret.
  cbn [WithoutAuth.devices WithoutAuth.push WithoutAuth.attempts
       WithoutAuth.clock WithoutAuth.ticks].
  match goal with
  | |- context [sendPushNotification (WithoutAuth.push w) ?request] =>
      destruct (sendPushNotification (WithoutAuth.push w) request) as [outcome c]
  end.
  exists outcome.
  destruct outcome as [notificationId|error];
    [destruct (truthy notificationId)|]; eexists; eexists; split; reflexivity.
Qed.

Lemma device_loop_requests (args : WithoutAuth.BroadcastArgs)
    (active : list WithoutAuth.Device) :
  forall (st : WithoutAuth.Locals.t) (w : WithoutAuth.World C),
  exists new st' w',
    forOf (WithoutAuth.broadcastTurn args) active st w = (Ok st', w') /\
    WithoutAuth.attempts w' = WithoutAuth.attempts w ++ new /\
    Forall
      (fun a =>
         exists timestamp,
           fst a =
           {| userId := attemptTo a;
              notification :=
                {| Push.title := WithoutAuth.title args;
                   Push.body := WithoutAuth.body args;
                   Push.data :=
                     Some (JObj
                       (obj_set "timestamp" (JNum timestamp)
                          (obj_set "type" (JStr "broadcast")
                             (spread (WithoutAuth.data args)))));
                   sound := "default"; priority := "high" |};
              allowUnregisteredTokens := true |})
      new.
Proof.
  induction active as [|device rest IH]; intros st w.
  - exists [], st, w. cbn. rewrite app_nil_r. auto.
  - destruct (device_turn_request args device st w)
      as (outcome & st1 & w1 & Hturn & Hlog).
    destruct (IH st1 w1) as (new & st' & w' & Hloop & Hlog' & Hall).
    eexists (_ :: new), st', w'.
    cbn [forOf]. unfold bind at 1. rewrite Hturn, Hloop.
    split; [reflexivity|]. split.
    + rewrite Hlog', Hlog, <- app_assoc. reflexivity.
    + constructor; [|exact Hall]. eexists. reflexivity.
Qed.

(** The loop a returning [sendBroadcastNotification] ran. *)
Lemma auth_broadcast_loop (args : WithAuth.BroadcastArgs) (w : WithAuth.World C) res w' :
  WithAuth.sendBroadcastNotification args w = (Ok res, w') ->
  exists st,
    forOf
      (WithAuth.broadcastTurn
         (fun timestamp =>
            obj_set "systemBroadcast" (JBool (negb (WithAuth.authRequired args)))
              (obj_set "timestamp" (JNum timestamp)
                 (obj_set "senderId"
                    (WithAuth.id_value (option_map WithAuth._id (WithAuth.currentUserOf w)))
                    (obj_set "type" (JStr "broadcast") (spread (WithAuth.data args))))))
         (WithAuth.title args) (WithAuth.body args))
      (WithAuth.eligible args w) WithAuth.start w = (Ok st, w').
Proof.
  unfold WithAuth.sendBroadcastNotification. intros Hrun.
  unfold bind at 1 in Hrun.
  destruct (WithAuth.authRequired args) eqn:Hreq.
  - unfold bind at 1 in Hrun. rewrite getCurrentUser_run in Hrun.
    destruct (WithAuth.currentUserOf w) as [u|] eqn:Hcaller; [|discriminate].
    unfold ret at 1 in Hrun. unfold bind at 1 in Hrun.
    unfold WithAuth.db_collect in Hrun. unfold bind in Hrun.
    unfold WithAuth.eligible. rewrite Hcaller.
    match type of Hrun with
    | context [forOf ?turn ?us ?st w] =>
        destruct (forOf turn us st w) as [[st'|e] w1] eqn:Hloop; [|discriminate]
    end.
    injection Hrun as _ <-. eauto.
  - rewrite getCurrentUser_run in Hrun.
    unfold bind at 1 in Hrun. unfold WithAuth.db_collect in Hrun. unfold bind in Hrun.
    unfold WithAuth.eligible.
    match type of Hrun with
    | context [forOf ?turn ?us ?st w] =>
        destruct (forOf turn us st w) as [[st'|e] w1] eqn:Hloop; [|discriminate]
    end.
    injection Hrun as _ <-. eauto.
Qed.

End Requests.

Section Stamps.
Context {C : Type} `{Push.PushNotifications C}.
Import Push.

Lemma system_broadcast_loop (args : WithAuth.SystemBroadcastArgs)
    (w : WithAuth.World C) r w' :
  WithAuth.sendSystemBroadcast args w = (r, w') ->
  exists st,
    forOf
      (WithAuth.broadcastTurn
         (fun timestamp =>
            obj_set "systemMessage" (JBool true)
              (obj_set "timestamp" (JNum timestamp)
                 (obj_set "type" (JStr "system_broadcast")
                    (spread (WithAuth.sys_data args)))))
         (WithAuth.sys_title args) (WithAuth.sys_body args))
      (filter (fun u => truthy (WithAuth.pushToken u)) (WithAuth.users w))
      WithAuth.start w = (Ok st, w').
Proof.
  unfold WithAuth.sendSystemBroadcast, bind, WithAuth.db_collect. intros Hrun.
  match type of Hrun with
  | context [forOf (WithAuth.broadcastTurn ?payload ?t ?b) ?us ?st w] =>
      destruct (auth_loop_requests payload t b us st w)
        as (new & st' & w1 & Hloop & _)
  end.
  rewrite Hloop in Hrun. injection Hrun as _ <-. eauto.
Qed.

Lemma device_broadcast_loop (args : WithoutAuth.BroadcastArgs)
    (w : WithoutAuth.World C) r w' :
  WithoutAuth.sendBroadcastNotification args w = (r, w') ->
  exists st,
    forOf (WithoutAuth.broadcastTurn args) (WithoutAuth.eligible args w)
      WithoutAuth.start w = (Ok st, w').
Proof.
  unfold WithoutAuth.sendBroadcastNotification, bind, WithoutAuth.db_collect.
  intros Hrun. unfold WithoutAuth.eligible.
  destruct (device_loop_requests args (filter (WithoutAuth.isActiveDevice args)
              (WithoutAuth.devices w)) WithoutAuth.start w)
    as (new & st' & w1 & Hloop & _).
  rewrite Hloop in Hrun. injection Hrun as _ <-. eauto.
Qed.

(** The keys a broadcast stamps, in the words of [Client.field]. *)
Lemma field_stamped (key : string) (value : JVal) (obj : JObject) :
  Client.field key (Some (JObj (obj_set key value obj))) = Some value.
Proof. apply obj_get_set_same. Qed.

Lemma field_kept (key other : string) (value : JVal) (obj : JObject) :
  other <> key ->
  Client.field key (Some (JObj (obj_set other value obj)))
  = Client.field key (Some (JObj obj)).
Proof. apply obj_get_set_other. Qed.



(** X13.  No broadcast writes to its table: the users, respectively the
    devices, are after the call what they were before it (the device
    broadcast in particular does not touch [lastSeen], as the
    single-device sends do), and the signed-in caller is unchanged. *)
Theorem broadcasts_write_nothing :
  (forall (args : WithAuth.BroadcastArgs) (w : WithAuth.World C) r w',
     WithAuth.sendBroadcastNotification args w = (r, w') ->
     WithAuth.users w' = WithAuth.users w /\
     WithAuth.authUserId w' = WithAuth.authUserId w)
  /\
  (forall (args : WithAuth.SystemBroadcastArgs) (w : WithAuth.World C) r w',
     WithAuth.sendSystemBroadcast args w = (r, w') ->
     WithAuth.users w' = WithAuth.users w /\
     WithAuth.authUserId w' = WithAuth.authUserId w)
  /\
  (forall (args : WithoutAuth.BroadcastArgs) (w : WithoutAuth.World C) r w',
     WithoutAuth.sendBroadcastNotification args w = (r, w') ->
     WithoutAuth.devices w' = WithoutAuth.devices w).
Proof.
  split; [|split].
  - intros args w r w' Hrun. destruct r as [res|e].
    + destruct (auth_broadcast_loop args w res w' Hrun) as (st & Hloop).
      match type of Hloop with
      | forOf (WithAuth.broadcastTurn ?payload ?t ?b) ?us ?st0 w = _ =>
          destruct (auth_loop_run payload t b us st0 w)
            as (new & st' & w1 & Hloop' & _ & _ & Husers & Hauth & _)
      end.
      rewrite Hloop in Hloop'. injection Hloop' as _ <-. auto.
    + destruct (auth_broadcast_inv args w _ _ Hrun)
        as [(_ & -> & _)|(res & _ & Hres & _)]; [auto|discriminate].
  - intros args w r w' Hrun.
    destruct (system_broadcast_loop args w r w' Hrun) as (st & Hloop).
    match type of Hloop with
    | forOf (WithAuth.broadcastTurn ?payload ?t ?b) ?us ?st0 w = _ =>
        destruct (auth_loop_run payload t b us st0 w)
          as (new & st' & w1 & Hloop' & _ & _ & Husers & Hauth & _)
    end.
    rewrite Hloop in Hloop'. injection Hloop' as _ <-. auto.
  - intros args w r w' Hrun.
    destruct (device_broadcast_run args w) as (res & new & w1 & Hrun' & _ & Hdevs & _).
    rewrite Hrun' in Hrun. injection Hrun as _ <-. exact Hdevs.
Qed.

End Stamps.

(** ** The caller's token *)
Section CallerToken.
Context {C : Type} `{Push.PushNotifications C}.
Import Push WithAuth.

(** What a returning [recordPushToken] or [removePushToken] did: it
    patched the rows carrying the caller's id. *)
Lemma record_token_inv (token : string) (w w1 : World C) :
  recordPushToken token w = (Ok tt, w1) ->
  exists u,
    currentUserOf w = Some u /\
    authUserId w1 = authUserId w /\
    users w1 =
      map (fun x => if (_id x =? _id u)%nat then set_pushToken (Some token) x else x)
        (users w).
Proof.
  unfold recordPushToken. unfold bind at 1. rewrite getCurrentUser_run.
  destruct (currentUserOf w) as [u|] eqn:Hcaller; [|discriminate].
  destruct (currentUser_id w u Hcaller) as [_ Hres].
  unfold bind at 1. unfold push_recordToken.
  rewrite (auth_set_token_run w u (Some token) _ Hres).
  intros [= <-]. exists u. auto.
Qed.

Lemma remove_token_inv (w w1 : World C) :
  removePushToken w = (Ok tt, w1) ->
  exists u,
    currentUserOf w = Some u /\
    authUserId w1 = authUserId w /\
    users w1 =
      map (fun x => if (_id x =? _id u)%nat then set_pushToken None x else x)
        (users w).
Proof.
  unfold removePushToken. unfold bind at 1. rewrite getCurrentUser_run.
  destruct (currentUserOf w) as [u|] eqn:Hcaller; [|discriminate].
  destruct (currentUser_id w u Hcaller) as [_ Hres].
  unfold bind at 1. unfold push_removeToken.
  rewrite (auth_set_token_run w u None _ Hres).
  intros [= <-]. exists u. auto.
Qed.

Lemma patched_caller (token : option string) (w w1 : World C) (u : User) :
  currentUserOf w = Some u ->
  authUserId w1 = authUserId w ->
  users w1 =
    map (fun x => if (_id x =? _id u)%nat then set_pushToken token x else x) (users w) ->
  currentUserOf w1 = Some (set_pushToken token u) /\
  In (set_pushToken token u) (users w1) /\
  (forall x, In x (users w1) -> _id x = _id u -> pushToken x = token) /\
  (forall x, In x (users w) -> _id x <> _id u -> In x (users w1)) /\
  map _id (users w1) = map _id (users w).
Proof.
  intros Hcaller Hauth Husers.
  destruct (currentUser_id w u Hcaller) as [Hid Hres].
  assert (Hkeep : forall x,
    _id ((fun x => if (_id x =? _id u)%nat then set_pushToken token x else x) x) = _id x).
  { intros x. cbn. destruct (_id x =? _id u)%nat; reflexivity. }
  split; [|split; [|split; [|split]]].
  - unfold currentUserOf. rewrite Hauth, Hid, Husers.
    rewrite (user_resolve_patched _ _ _ Hkeep), Hres. cbn.
    now rewrite Nat.eqb_refl.
  - rewrite Husers. apply in_map_iff. exists u. rewrite Nat.eqb_refl.
    split; [reflexivity|]. apply find_some in Hres. tauto.
  - intros x Hin Hsame. rewrite Husers in Hin.
    apply in_map_iff in Hin as (y & <- & _). rewrite Hkeep in Hsame.
    apply Nat.eqb_eq in Hsame. now rewrite Hsame.
  - intros x Hin Hother. rewrite Husers. apply in_map_iff. exists x.
    apply Nat.eqb_neq in Hother. now rewrite Hother.
  - rewrite Husers, map_map. apply map_ext. exact Hkeep.
Qed.

(** X14.  Recording a token and reading it back: after [recordPushToken]
    has returned, [getCurrentUserWithToken] returns the caller's row with
    that token; every row of another user is still in the table, and the
    table has the same ids in the same order.  The app, which calls itself
    registered when that row and its own state both hold a non-empty
    token, does so exactly when the recorded token and its own are
    non-empty. *)
Theorem record_then_read_token (token : string) (w w1 : World C) :
  recordPushToken token w = (Ok tt, w1) ->
  exists caller,
    currentUserOf w = Some caller /\
    getCurrentUserWithToken w1 = (Ok (Some (set_pushToken (Some token) caller)), w1) /\
    (forall x, In x (users w) -> _id x <> _id caller -> In x (users w1)) /\
    map _id (users w1) = map _id (users w) /\
    (forall expoPushToken,
       Client.isRegistered (currentUserOf w1) expoPushToken
       = truthy (Some token) && truthy expoPushToken).
Proof.
  intros Hrun.
  destruct (record_token_inv token w w1 Hrun) as (u & Hcaller & Hauth & Husers).
  destruct (patched_caller (Some token) w w1 u Hcaller Hauth Husers)
    as (Hcaller1 & _ & _ & Hframe & Hids).
  exists u. split; [exact Hcaller|]. split; [|split; [exact Hframe|split; [exact Hids|]]].
  - unfold getCurrentUserWithToken, bind. now rewrite getCurrentUser_run, Hcaller1.
  - intros expo. now rewrite Hcaller1.
Qed.

(** X15.  The recorded token decides delivery: after [recordPushToken]
    has returned, the next system broadcast attempts a delivery to the
    caller if and only if the token is not the empty string (an empty
    token is stored, and counts as no token). *)
Theorem recorded_token_decides_delivery
    (token : string) (w w1 : World C) (args : SystemBroadcastArgs) res w2 caller :
  recordPushToken token w = (Ok tt, w1) ->
  currentUserOf w = Some caller ->
  sendSystemBroadcast args w1 = (Ok res, w2) ->
  In (_id caller) (map attemptTo (newAttempts (attempts w1) (attempts w2)))
  <-> token <> "".
Proof.
  intros Hrun Hcaller Hsend.
  destruct (record_token_inv token w w1 Hrun) as (u & Hcaller' & Hauth & Husers).
  rewrite Hcaller in Hcaller'. injection Hcaller' as <-.
  destruct (patched_caller (Some token) w w1 caller Hcaller Hauth Husers)
    as (_ & Hin & Hown & _).
  destruct (system_broadcast_ok args w1 _ _ Hsend) as (res' & _ & Hto & _).
  rewrite Hto.
  assert (Htruthy : truthy (Some token) = true <-> token <> "").
  { cbn. destruct (token =? "")%string eqn:E.
    - apply String.eqb_eq in E. split; [discriminate|congruence].
    - apply String.eqb_neq in E. tauto. }
  rewrite <- Htruthy. split.
  - intros Hatt. apply in_ids_filter in Hatt as (x & Hx & Hp & Hid).
    now rewrite (Hown x Hx Hid) in Hp.
  - intros Hp. apply in_map_iff. exists (set_pushToken (Some token) caller).
    split; [reflexivity|]. apply filter_In. auto.
Qed.

(** X16.  After [removePushToken] has returned, [getCurrentUserWithToken]
    shows the caller without a token, the app no longer calls itself
    registered, and no broadcast attempts a delivery to the caller: the
    system broadcast reports the caller as [no_token]. *)
Theorem removed_token_stops_delivery (w w1 : World C) :
  removePushToken w = (Ok tt, w1) ->
  exists caller,
    currentUserOf w = Some caller /\
    getCurrentUserWithToken w1 = (Ok (Some (set_pushToken None caller)), w1) /\
    (forall expoPushToken, Client.isRegistered (currentUserOf w1) expoPushToken = false) /\
    (forall args res w2,
       sendSystemBroadcast args w1 = (Ok res, w2) ->
       ~ In (_id caller) (map attemptTo (newAttempts (attempts w1) (attempts w2))) /\
       In {| Detail.userId := _id caller; Detail.status := Detail.no_token;
             Detail.notificationId := None; Detail.error := None |}
          (sys_details res)) /\
    (forall args res w2,
       sendBroadcastNotification args w1 = (Ok res, w2) ->
       ~ In (_id caller) (map attemptTo (newAttempts (attempts w1) (attempts w2)))).
Proof.
  intros Hrun.
  destruct (remove_token_inv w w1 Hrun) as (u & Hcaller & Hauth & Husers).
  destruct (patched_caller None w w1 u Hcaller Hauth Husers)
    as (Hcaller1 & Hin & Hown & _).
  exists u. split; [exact Hcaller|]. split; [|split; [|split]].
  - unfold getCurrentUserWithToken, bind. now rewrite getCurrentUser_run, Hcaller1.
  - intros expo. now rewrite Hcaller1.
  - intros args res w2 Hsend.
    destruct (system_broadcast_ok args w1 _ _ Hsend)
      as (res' & [= <-] & Hto & _ & _ & _ & _ & Hdet).
    split.
    + rewrite Hto. intros Hatt. apply in_ids_filter in Hatt as (x & Hx & Hp & Hid).
      now rewrite (Hown x Hx Hid) in Hp.
    + rewrite Hdet. apply in_or_app. right.
      apply in_map_iff. exists (set_pushToken None u).
      split; [reflexivity|]. apply filter_In. auto.
  - intros args res w2 Hsend.
    destruct (auth_broadcast_ok args w1 res w2 Hsend) as (Hto & _).
    rewrite Hto. intros Hatt. apply in_ids_filter in Hatt as (x & Hx & Hp & Hid).
    unfold withToken in Hp. rewrite (Hown x Hx Hid) in Hp.
    destruct (isExcluded args (currentUserOf w1) x); discriminate.
Qed.

End CallerToken.

(** ** Reports and refusals of the authenticated variant *)

Lemma filter_split_length {A : Type} (p : A -> bool) (l : list A) :
  List.length l = List.length (filter p l) + List.length (filter (fun x => negb (p x)) l).
Proof.
  induction l as [|x l IH]; cbn; [reflexivity|].
  destruct (p x); cbn; lia.
Qed.

Lemma filter_map_length {A B : Type} (f : A -> B) (p : B -> bool) (q : A -> bool)
    (l : list A) :
  (forall a, p (f a) = q a) ->
  List.length (filter p (map f l)) = List.length (filter q l).
Proof.
  intros Hpq. induction l as [|a l IH]; cbn [map filter]; [reflexivity|].
  rewrite Hpq. destruct (q a); cbn [List.length]; auto.
Qed.

Lemma filter_map_none {A B : Type} (f : A -> B) (p : B -> bool) (l : list A) :
  (forall a, p (f a) = false) -> filter p (map f l) = [].
Proof.
  intros Hp. induction l as [|a l IH]; cbn [map filter]; [reflexivity|].
  now rewrite Hp.
Qed.

Lemma count_raised_or_unanswered (l : list Push.Attempt) :
  List.length (filter (fun a => Push.raised a || Push.unanswered a) l)
  = Push.count Push.raised l + Push.count Push.unanswered l.
Proof.
  unfold Push.count.
  induction l as [|a l IH]; cbn [filter List.length]; auto.
  destruct (attempt_kind a) as [Hk|[Hk|Hk]]; injection Hk as _ -> ->;
    cbn [orb List.length]; lia.
Qed.

Lemma auth_success_entries (new : list Push.Attempt) (rest : list WithAuth.User) :
  List.length
    (filter (fun e => match WithAuth.Detail.status e with
                      | WithAuth.Detail.success => true
                      | _ => false
                      end)
       (map WithAuth.detailOf new ++ map WithAuth.noTokenDetail rest))
  = Push.count Push.delivered new.
Proof.
  rewrite filter_app, length_app, (filter_map_none WithAuth.noTokenDetail) by reflexivity.
  cbn [List.length]. rewrite Nat.add_0_r. apply filter_map_length.
  intros [request [notificationId|error]]; unfold WithAuth.detailOf, Push.delivered; cbn;
    [destruct (truthy notificationId)|]; reflexivity.
Qed.

Lemma auth_failed_entries (new : list Push.Attempt) (rest : list WithAuth.User) :
  List.length
    (filter (fun e => match WithAuth.Detail.status e with
                      | WithAuth.Detail.failed => true
                      | _ => false
                      end)
       (map WithAuth.detailOf new ++ map WithAuth.noTokenDetail rest))
  = Push.count Push.raised new.
Proof.
  rewrite filter_app, length_app, (filter_map_none WithAuth.noTokenDetail) by reflexivity.
  cbn [List.length]. rewrite Nat.add_0_r. apply filter_map_length.
  intros [request [notificationId|error]]; unfold WithAuth.detailOf, Push.raised; cbn;
    [destruct (truthy notificationId)|]; reflexivity.
Qed.

Lemma device_success_entries (new : list Push.Attempt) (rest : list WithoutAuth.Device) :
  List.length
    (filter (fun e => match WithoutAuth.Detail.status e with
                      | WithoutAuth.Detail.success => true
                      | _ => false
                      end)
       (map WithoutAuth.detailOf new ++ map WithoutAuth.inactiveDetail rest))
  = Push.count Push.delivered new.
Proof.
  rewrite filter_app, length_app, (filter_map_none WithoutAuth.inactiveDetail)
    by reflexivity.
  cbn [List.length]. rewrite Nat.add_0_r. apply filter_map_length.
  intros [request [notificationId|error]]; unfold WithoutAuth.detailOf, Push.delivered; cbn;
    [destruct (truthy notificationId)|]; reflexivity.
Qed.

Lemma device_failed_entries (new : list Push.Attempt) (rest : list WithoutAuth.Device) :
  List.length
    (filter (fun e => match WithoutAuth.Detail.status e with
                      | WithoutAuth.Detail.failed => true
                      | _ => false
                      end)
       (map WithoutAuth.detailOf new ++ map WithoutAuth.inactiveDetail rest))
  = Push.count Push.raised new + Push.count Push.unanswered new.
Proof.
  rewrite filter_app, length_app, (filter_map_none WithoutAuth.inactiveDetail)
    by reflexivity.
  cbn [List.length]. rewrite Nat.add_0_r, <- count_raised_or_unanswered.
  apply filter_map_length.
  intros [request [notificationId|error]];
    unfold WithoutAuth.detailOf, Push.raised, Push.unanswered; cbn;
    [destruct (truthy notificationId)|]; reflexivity.
Qed.

Section Reports.
Context {C : Type} `{Push.PushNotifications C}.
Import Push.

(** X17.  The counters of a broadcast against its details.  In the
    authenticated and the system broadcast they agree: [success] is the
    number of entries with status [success] and [failed] the number with
    status [failed].  In the device broadcast [success] agrees, but the
    entries with status [failed] are [failed] plus the deliveries that
    came back without an id, which are reported as failed and not
    counted. *)
Theorem counters_against_details :
  (forall (args : WithAuth.BroadcastArgs) (w : WithAuth.World C) res w',
     WithAuth.sendBroadcastNotification args w = (Ok res, w') ->
     List.length
       (filter (fun e => match WithAuth.Detail.status e with
                         | WithAuth.Detail.success => true
                         | _ => false
                         end) (WithAuth.details res)) = WithAuth.success res /\
     List.length
       (filter (fun e => match WithAuth.Detail.status e with
                         | WithAuth.Detail.failed => true
                         | _ => false
                         end) (WithAuth.details res)) = WithAuth.failed res)
  /\
  (forall (args : WithAuth.SystemBroadcastArgs) (w : WithAuth.World C) res w',
     WithAuth.sendSystemBroadcast args w = (Ok res, w') ->
     List.length
       (filter (fun e => match WithAuth.Detail.status e with
                         | WithAuth.Detail.success => true
                         | _ => false
                         end) (WithAuth.sys_details res)) = WithAuth.sys_success res /\
     List.length
       (filter (fun e => match WithAuth.Detail.status e with
                         | WithAuth.Detail.failed => true
                         | _ => false
                         end) (WithAuth.sys_details res)) = WithAuth.sys_failed res)
  /\
  (forall (args : WithoutAuth.BroadcastArgs) (w : WithoutAuth.World C) res w',
     WithoutAuth.sendBroadcastNotification args w = (Ok res, w') ->
     List.length
       (filter (fun e => match WithoutAuth.Detail.status e with
                         | WithoutAuth.Detail.success => true
                         | _ => false
                         end) (WithoutAuth.details res)) = WithoutAuth.success res /\
     List.length
       (filter (fun e => match WithoutAuth.Detail.status e with
                         | WithoutAuth.Detail.failed => true
                         | _ => false
                         end) (WithoutAuth.details res))
     = WithoutAuth.failed res
       + count unanswered
           (newAttempts (WithoutAuth.attempts w) (WithoutAuth.attempts w'))).
Proof.
  split; [|split].
  - intros args w res w' Hrun.
    destruct (auth_broadcast_ok args w res w' Hrun) as (_ & _ & Hok & Hko & _ & Hdet).
    rewrite Hdet, Hok, Hko. split; [apply auth_success_entries|apply auth_failed_entries].
  - intros args w res w' Hrun.
    destruct (system_broadcast_ok args w _ _ Hrun)
      as (res' & [= <-] & _ & _ & Hok & Hko & _ & Hdet).
    rewrite Hdet, Hok, Hko. split; [apply auth_success_entries|apply auth_failed_entries].
  - intros args w res w' Hrun.
    destruct (device_broadcast_ok args w _ _ Hrun)
      as (res' & [= <-] & _ & _ & Hok & Hko & Hdet).
    rewrite Hdet, Hok, Hko.
    split; [apply device_success_entries|apply device_failed_entries].
Qed.

(** X18.  The breakdown of a system broadcast is consistent: it never
    throws, [totalUsers] is the size of the table and the sum of
    [usersWithTokens] and [usersWithoutTokens], [total] is
    [usersWithTokens], and there is one entry of [details] per user.  On
    an empty table it attempts nothing and every number is zero. *)
Theorem system_broadcast_breakdown (args : WithAuth.SystemBroadcastArgs)
    (w : WithAuth.World C) r w' :
  WithAuth.sendSystemBroadcast args w = (r, w') ->
  exists res,
    r = Ok res /\
    WithAuth.totalUsers res = List.length (WithAuth.users w) /\
    WithAuth.totalUsers res = WithAuth.usersWithTokens res + WithAuth.usersWithoutTokens res /\
    WithAuth.sys_total res = WithAuth.usersWithTokens res /\
    List.length (WithAuth.sys_details res) = WithAuth.totalUsers res /\
    (WithAuth.users w = [] ->
     newAttempts (WithAuth.attempts w) (WithAuth.attempts w') = [] /\
     WithAuth.sys_success res = 0 /\ WithAuth.sys_failed res = 0 /\
     WithAuth.sys_total res = 0 /\ WithAuth.totalUsers res = 0 /\
     WithAuth.sys_details res = []).
Proof.
  intros Hrun.
  destruct (system_broadcast_loop args w r w' Hrun) as (st & Hloop).
  destruct (system_broadcast_ok args w r w' Hrun)
    as (res & -> & Hto & Htot & Hok & Hko & Husers & Hdet).
  exists res. split; [reflexivity|].
  assert (Hfields :
    WithAuth.usersWithTokens res =
      List.length (filter (fun u => truthy (WithAuth.pushToken u)) (WithAuth.users w)) /\
    WithAuth.usersWithoutTokens res =
      List.length (filter (fun u => negb (truthy (WithAuth.pushToken u)))
                     (WithAuth.users w))).
  { unfold WithAuth.sendSystemBroadcast, bind, WithAuth.db_collect in Hrun.
    rewrite Hloop in Hrun. unfold ret in Hrun. injection Hrun as <-. auto. }
  destruct Hfields as [Hwith Hwithout].
  split; [exact Husers|]. split; [|split; [|split]].
  - rewrite Husers, Hwith, Hwithout. apply filter_split_length.
  - now rewrite Htot, Hwith.
  - rewrite Hdet, length_app, !length_map, (attempts_length _ _ _ Hto), Husers.
    symmetry. apply filter_split_length.
  - intros Hempty. rewrite Hempty in *. cbn in Hto, Htot, Hdet, Husers.
    apply map_eq_nil in Hto. rewrite Hto in *. cbn in Hdet.
    rewrite Hok, Hko. unfold count. cbn. repeat split; assumption || reflexivity.
Qed.

(** X19.  The only way [sendBroadcastNotification] fails is its guard: it
    throws exactly when authentication is required ([requireAuth] is not
    [false]) and no caller resolves; it then throws "User must be
    authenticated to send broadcast notifications" and has attempted and
    written nothing. *)
Theorem broadcast_refused_only_without_caller
    (args : WithAuth.BroadcastArgs) (w : WithAuth.World C) r w' :
  WithAuth.sendBroadcastNotification args w = (r, w') ->
  ((exists e, r = Throw e) <->
   WithAuth.requireAuth args <> Some false /\ WithAuth.currentUserOf w = None) /\
  (forall e, r = Throw e ->
     e = ConvexError "User must be authenticated to send broadcast notifications" /\
     w' = w).
Proof.
  intros Hrun.
  assert (Hreq : WithAuth.authRequired args = true <-> WithAuth.requireAuth args <> Some false).
  { unfold WithAuth.authRequired.
    destruct (WithAuth.requireAuth args) as [[|]|]; split; congruence. }
  destruct (auth_broadcast_inv args w _ _ Hrun)
    as [(-> & -> & Hguard & Hnone)|(res & new & -> & Hpass & _)].
  - split.
    + split; [intros _; split; [now apply Hreq|exact Hnone]|eauto].
    + intros e [= <-]. auto.
  - split.
    + split; [intros [e He]; discriminate|].
      intros [Hguard Hnone]. apply Hreq in Hguard.
      destruct Hpass as [Hpass|Hpass]; congruence.
    + intros e He. discriminate.
Qed.

(** X20.  [sendNotificationToUser] from a signed-in caller to a stored
    recipient makes exactly one delivery attempt, addressed to the
    recipient, with the caller's title, body and data passed on as given
    (the handler adds no sender and no type), and returns the component's
    answer or throws its error; it does not look at the recipient's token
    and writes nothing to the table. *)
Theorem send_to_user_delivers
    (args : WithAuth.SendToUserArgs) (w : WithAuth.World C) caller recipient r w' :
  WithAuth.currentUserOf w = Some caller ->
  WithAuth.resolve (WithAuth.recipientId args) (WithAuth.users w) = Some recipient ->
  WithAuth.sendNotificationToUser args w = (r, w') ->
  let request :=
    {| userId := WithAuth.recipientId args;
       notification :=
         {| Push.title := WithAuth.msg_title args; Push.body := WithAuth.msg_body args;
            Push.data := WithAuth.msg_data args;
            sound := "default"; priority := "high" |};
       allowUnregisteredTokens := true |} in
  let outcome := fst (sendPushNotification (WithAuth.push w) request) in
  newAttempts (WithAuth.attempts w) (WithAuth.attempts w') = [(request, outcome)] /\
  WithAuth.users w' = WithAuth.users w /\
  r = match outcome with
      | Returned notificationId => Ok notificationId
      | Raised error => Throw error
      end.
Proof.
  intros Hcaller Hres Hrun request outcome.
  unfold WithAuth.sendNotificationToUser in Hrun. unfold bind at 1 in Hrun.
  rewrite getCurrentUser_run, Hcaller in Hrun.
  unfold bind, WithAuth.db_get in Hrun. rewrite Hres in Hrun.
  unfold WithAuth.push_sendPushNotification in Hrun. fold request in Hrun.
  unfold outcome.
  destruct (sendPushNotification (WithAuth.push w) request) as [answer c].
  cbn [fst]. destruct answer as [notificationId|error];
    unfold ret in Hrun; injection Hrun as <- <-; cbn [WithAuth.attempts WithAuth.users];
    (split; [apply newAttempts_app|]); auto.
Qed.

(** X21.  The authenticated [sendTestNotification] throws "User must be
    authenticated", attempting nothing, when no caller resolves.
    Otherwise it makes exactly one attempt, addressed to the caller
    whether or not the caller has a token, with data of type ["test"],
    and returns the component's answer or throws its error, writing
    nothing to the table. *)
Theorem auth_test_send :
  (forall (w : WithAuth.World C),
     WithAuth.currentUserOf w = None ->
     WithAuth.sendTestNotification w =
     (Throw (ConvexError "User must be authenticated"), w))
  /\
  (forall (w : WithAuth.World C) caller r w',
     WithAuth.currentUserOf w = Some caller ->
     WithAuth.sendTestNotification w = (r, w') ->
     exists request outcome,
       newAttempts (WithAuth.attempts w) (WithAuth.attempts w') = [(request, outcome)] /\
       outcome = fst (sendPushNotification (WithAuth.push w) request) /\
       userId request = WithAuth._id caller /\
       allowUnregisteredTokens request = true /\
       Client.field "type" (Push.data (notification request)) = Some (JStr "test") /\
       Client.field "timestamp" (Push.data (notification request))
         = Some (JNum (WithAuth.clock w (WithAuth.ticks w))) /\
       WithAuth.users w' = WithAuth.users w /\
       r = match outcome with
           | Returned notificationId => Ok notificationId
           | Raised error => Throw error
           end).
Proof.
  split.
  - intros w Hcaller. unfold WithAuth.sendTestNotification. unfold bind at 1.
    now rewrite getCurrentUser_run, Hcaller.
  - intros w caller r w' Hcaller Hrun.
    unfold WithAuth.sendTestNotification in Hrun. unfold bind at 1 in Hrun.
    rewrite getCurrentUser_run, Hcaller in Hrun.
    unfold bind, WithAuth.Date_now, WithAuth.push_sendPushNotification in Hrun.
    cbn [WithAuth.users WithAuth.authUserId WithAuth.push WithAuth.attempts
         WithAuth.clock WithAuth.ticks] in Hrun.
    match type of Hrun with
    | context [sendPushNotification (WithAuth.push w) ?request] =>
        exists request, (fst (sendPushNotification (WithAuth.push w) request));
        destruct (sendPushNotification (WithAuth.push w) request) as [answer c]
    end.
    cbn [fst]. destruct answer as [notificationId|error];
      unfold ret in Hrun; injection Hrun as <- <-;
      cbn [WithAuth.attempts WithAuth.users];
      (split; [apply newAttempts_app|]); repeat split; reflexivity.
Qed.

End Reports.

(** ** From the backend to the tap *)
Section Routing.
Context {C : Type} `{Push.PushNotifications C}.
Import Push.

Lemma auth_test_send_attempt (w : WithAuth.World C) caller r w' :
  WithAuth.currentUserOf w = Some caller ->
  WithAuth.sendTestNotification w = (r, w') ->
  exists outcome timestamp,
    newAttempts (WithAuth.attempts w) (WithAuth.attempts w') =
    [({| userId := WithAuth._id caller;
         notification :=
           {| Push.title := "Test Notification ðŸŽ‰";
              Push.body := Some "This is a test notification from your app!";
              Push.data :=
                Some (JObj [("type", JStr "test"); ("timestamp", JNum timestamp)]);
              sound := "default"; priority := "high" |};
         allowUnregisteredTokens := true |}, outcome)].
Proof.
  intros Hcaller Hrun.
  unfold WithAuth.sendTestNotification in Hrun. unfold bind at 1 in Hrun.
  rewrite getCurrentUser_run, Hcaller in Hrun.
  unfold bind, WithAuth.Date_now, WithAuth.push_sendPushNotification in Hrun.
  cbn [WithAuth.users WithAuth.authUserId WithAuth.push WithAuth.attempts
       WithAuth.clock WithAuth.ticks] in Hrun.
  match type of Hrun with
  | context [sendPushNotification (WithAuth.push w) ?request] =>
      destruct (sendPushNotification (WithAuth.push w) request) as [answer c]
  end.
  exists answer, (WithAuth.clock w (WithAuth.ticks w)).
  destruct answer as [notificationId|error];
    unfold ret in Hrun; injection Hrun as _ <-; cbn [WithAuth.attempts];
    apply newAttempts_app.
Qed.

Lemma device_test_send_attempt (id : Id) (w : WithoutAuth.World C) d r w' :
  WithoutAuth.resolve id (WithoutAuth.devices w) = Some d ->
  WithoutAuth.sendTestNotification id w = (r, w') ->
  exists outcome timestamp,
    newAttempts (WithoutAuth.attempts w) (WithoutAuth.attempts w') =
    [({| userId := id;
         notification :=
           {| Push.title := "Test Notification 🎉";
              Push.body := Some "This is a test notification from your app!";
              Push.data :=
                Some (JObj [("type", JStr "test"); ("timestamp", JNum timestamp)]);
              sound := "default"; priority := "high" |};
         allowUnregisteredTokens := true |}, outcome)].
Proof.
  intros Hres Hrun.
  unfold WithoutAuth.sendTestNotification, bind, WithoutAuth.db_get in Hrun.
  rewrite Hres in Hrun.
  unfold WithoutAuth.Date_now, WithoutAuth.push_sendPushNotification in Hrun.
  cbn [WithoutAuth.devices WithoutAuth.push WithoutAuth.attempts
       WithoutAuth.clock WithoutAuth.ticks] in Hrun.
  match type of Hrun with
  | context [sendPushNotification (WithoutAuth.push w) ?request] =>
      destruct (sendPushNotification (WithoutAuth.push w) request) as [answer c]
  end.
  exists answer, (WithoutAuth.clock w (WithoutAuth.ticks w)).
  destruct answer as [notificationId|error];
    unfold ret in Hrun; injection Hrun as _ <-; cbn [WithoutAuth.attempts];
    apply newAttempts_app.
Qed.

Lemma send_to_user_attempt (args : WithAuth.SendToUserArgs) (w : WithAuth.World C)
    caller recipient r w' :
  WithAuth.currentUserOf w = Some caller ->
  WithAuth.resolve (WithAuth.recipientId args) (WithAuth.users w) = Some recipient ->
  WithAuth.sendNotificationToUser args w = (r, w') ->
  exists outcome,
    newAttempts (WithAuth.attempts w) (WithAuth.attempts w') =
    [({| userId := WithAuth.recipientId args;
         notification :=
           {| Push.title := WithAuth.msg_title args; Push.body := WithAuth.msg_body args;
              Push.data := WithAuth.msg_data args;
              sound := "default"; priority := "high" |};
         allowUnregisteredTokens := true |}, outcome)].
Proof.
  intros Hcaller Hres Hrun.
  unfold WithAuth.sendNotificationToUser in Hrun. unfold bind at 1 in Hrun.
  rewrite getCurrentUser_run, Hcaller in Hrun.
  unfold bind, WithAuth.db_get in Hrun. rewrite Hres in Hrun.
  unfold WithAuth.push_sendPushNotification in Hrun.
  match type of Hrun with
  | context [sendPushNotification (WithAuth.push w) ?request] =>
      destruct (sendPushNotification (WithAuth.push w) request) as [answer c]
  end.
  exists answer.
  destruct answer as [notificationId|error];
    unfold ret in Hrun; injection Hrun as _ <-; cbn [WithAuth.attempts];
    apply newAttempts_app.
Qed.

(** X22.  Where a tap on a broadcast leads, taking it that the platform
    delivers a notification as it was sent.  In the authenticated app a
    notification of [sendBroadcastNotification] or [sendSystemBroadcast]
    is never shown as a message from a user or as a test, whatever data
    the caller supplied: it brings up the plain alert, with the
    broadcast's title and body (or their fallbacks), or nothing when both
    are empty.  In the device app a notification of the device broadcast
    always brings up the "Broadcast Message" alert. *)
Theorem broadcast_taps_are_routed :
  (forall (args : WithAuth.BroadcastArgs) (w : WithAuth.World C) res w',
     WithAuth.sendBroadcastNotification args w = (Ok res, w') ->
     Forall
       (fun a =>
          Client.onNotificationResponse (Client.contentOf (notification (fst a))) =
          if truthy (Some (WithAuth.title args)) || truthy (WithAuth.body args)
          then Client.Alert
                 (Client.orElse (Some (WithAuth.title args)) "Notification")
                 (Client.Text
                    (Client.orElse (WithAuth.body args) "You have a new notification"))
                 ["OK"; "View"]
          else Client.Nothing)
       (newAttempts (WithAuth.attempts w) (WithAuth.attempts w')))
  /\
  (forall (args : WithAuth.SystemBroadcastArgs) (w : WithAuth.World C) r w',
     WithAuth.sendSystemBroadcast args w = (r, w') ->
     Forall
       (fun a =>
          Client.onNotificationResponse (Client.contentOf (notification (fst a))) =
          if truthy (Some (WithAuth.sys_title args)) || truthy (WithAuth.sys_body args)
          then Client.Alert
                 (Client.orElse (Some (WithAuth.sys_title args)) "Notification")
                 (Client.Text
                    (Client.orElse (WithAuth.sys_body args) "You have a new notification"))
                 ["OK"; "View"]
          else Client.Nothing)
       (newAttempts (WithAuth.attempts w) (WithAuth.attempts w')))
  /\
  (forall (args : WithoutAuth.BroadcastArgs) (w : WithoutAuth.World C) r w',
     WithoutAuth.sendBroadcastNotification args w = (r, w') ->
     Forall
       (fun a =>
          Client.onDeviceNotificationResponse (Client.contentOf (notification (fst a)))
          = Client.Alert "Broadcast Message"
              (Client.Text "You received a broadcast notification!") [])
       (newAttempts (WithoutAuth.attempts w) (WithoutAuth.attempts w'))).
Proof.
  split; [|split].
  - intros args w res w' Hrun.
    destruct (auth_broadcast_loop args w res w' Hrun) as (st & Hloop).
    match type of Hloop with
    | forOf (WithAuth.broadcastTurn ?payload ?t ?b) ?us ?st0 w = _ =>
        destruct (auth_loop_requests payload t b us st0 w)
          as (new & st' & w1 & Hloop' & Hlog & Hall)
    end.
    rewrite Hloop in Hloop'. injection Hloop' as _ <-.
    rewrite Hlog, newAttempts_app.
    eapply Forall_impl; [|exact Hall].
    intros a (timestamp & Heq). rewrite Heq.
    unfold Client.onNotificationResponse, Client.contentOf.
    cbn [notification Push.title Push.body Push.data
         Client.title Client.body Client.data].
    assert (Htype : forall payload,
      payload =
        obj_set "systemBroadcast" (JBool (negb (WithAuth.authRequired args)))
          (obj_set "timestamp" (JNum timestamp)
             (obj_set "senderId"
                (WithAuth.id_value (option_map WithAuth._id (WithAuth.currentUserOf w)))
                (obj_set "type" (JStr "broadcast") (spread (WithAuth.data args))))) ->
      Client.field "type" (Some (JObj payload)) = Some (JStr "broadcast")).
    { intros payload ->. rewrite !field_kept by discriminate. apply field_stamped. }
    rewrite (Htype _ eq_refl). reflexivity.
  - intros args w r w' Hrun.
    destruct (system_broadcast_loop args w r w' Hrun) as (st & Hloop).
    match type of Hloop with
    | forOf (WithAuth.broadcastTurn ?payload ?t ?b) ?us ?st0 w = _ =>
        destruct (auth_loop_requests payload t b us st0 w)
          as (new & st' & w1 & Hloop' & Hlog & Hall)
    end.
    rewrite Hloop in Hloop'. injection Hloop' as _ <-.
    rewrite Hlog, newAttempts_app.
    eapply Forall_impl; [|exact Hall].
    intros a (timestamp & Heq). rewrite Heq.
    unfold Client.onNotificationResponse, Client.contentOf.
    cbn [notification Push.title Push.body Push.data
         Client.title Client.body Client.data].
    assert (Htype : forall payload,
      payload =
        obj_set "systemMessage" (JBool true)
          (obj_set "timestamp" (JNum timestamp)
             (obj_set "type" (JStr "system_broadcast")
                (spread (WithAuth.sys_data args)))) ->
      Client.field "type" (Some (JObj payload)) = Some (JStr "system_broadcast")).
    { intros payload ->. rewrite !field_kept by discriminate. apply field_stamped. }
    rewrite (Htype _ eq_refl). reflexivity.
  - intros args w r w' Hrun.
    destruct (device_broadcast_loop args w r w' Hrun) as (st & Hloop).
    destruct (device_loop_requests args (WithoutAuth.eligible args w) WithoutAuth.start w)
      as (new & st' & w1 & Hloop' & Hlog & Hall).
    rewrite Hloop in Hloop'. injection Hloop' as _ <-.
    rewrite Hlog, newAttempts_app.
    eapply Forall_impl; [|exact Hall].
    intros a (timestamp & Heq). rewrite Heq.
    unfold Client.onDeviceNotificationResponse, Client.contentOf.
    cbn [notification Push.title Push.body Push.data
         Client.title Client.body Client.data].
    assert (Htype : forall payload,
      payload =
        obj_set "timestamp" (JNum timestamp)
          (obj_set "type" (JStr "broadcast") (spread (WithoutAuth.data args))) ->
      Client.field "type" (Some (JObj payload)) = Some (JStr "broadcast")).
    { intros payload ->. rewrite !field_kept by discriminate. apply field_stamped. }
    rewrite (Htype _ eq_refl). reflexivity.
Qed.

(** X23.  Where a tap on a single send leads, on the same terms.  The
    test notification of either backend brings up the "Test Notification"
    alert of its app.  A notification of [sendNotificationToUser] whose
    data the caller typed ["user_message"] brings up the message alert
    naming the [senderId] of that data: the sender shown is the one the
    caller wrote, the handler neither sets nor checks it. *)
Theorem single_send_taps_are_routed :
  (forall (w : WithAuth.World C) caller r w',
     WithAuth.currentUserOf w = Some caller ->
     WithAuth.sendTestNotification w = (r, w') ->
     Forall
       (fun a =>
          Client.onNotificationResponse (Client.contentOf (notification (fst a)))
          = Client.Alert "Test Notification"
              (Client.Text "This was a test notification!") ["OK"])
       (newAttempts (WithAuth.attempts w) (WithAuth.attempts w')))
  /\
  (forall (id : Id) (w : WithoutAuth.World C) d r w',
     WithoutAuth.resolve id (WithoutAuth.devices w) = Some d ->
     WithoutAuth.sendTestNotification id w = (r, w') ->
     Forall
       (fun a =>
          Client.onDeviceNotificationResponse (Client.contentOf (notification (fst a)))
          = Client.Alert "Test Notification"
              (Client.Text "You tapped on a test notification!") [])
       (newAttempts (WithoutAuth.attempts w) (WithoutAuth.attempts w')))
  /\
  (forall (args : WithAuth.SendToUserArgs) (w : WithAuth.World C) caller recipient r w',
     WithAuth.currentUserOf w = Some caller ->
     WithAuth.resolve (WithAuth.recipientId args) (WithAuth.users w) = Some recipient ->
     Client.field "type" (WithAuth.msg_data args) = Some (JStr "user_message") ->
     WithAuth.sendNotificationToUser args w = (r, w') ->
     Forall
       (fun a =>
          Client.onNotificationResponse (Client.contentOf (notification (fst a)))
          = Client.Alert "Message Notification"
              (Client.FromUser (Client.field "senderId" (WithAuth.msg_data args)))
              ["OK"; "View"])
       (newAttempts (WithAuth.attempts w) (WithAuth.attempts w'))).
Proof.
  split; [|split].
  - intros w caller r w' Hcaller Hrun.
    destruct (auth_test_send_attempt w caller r w' Hcaller Hrun)
      as (outcome & timestamp & ->).
    constructor; [reflexivity|constructor].
  - intros id w d r w' Hres Hrun.
    destruct (device_test_send_attempt id w d r w' Hres Hrun)
      as (outcome & timestamp & ->).
    constructor; [reflexivity|constructor].
  - intros args w caller recipient r w' Hcaller Hres Htype Hrun.
    destruct (send_to_user_attempt args w caller recipient r w' Hcaller Hres Hrun)
      as (outcome & ->).
    constructor; [|constructor].
    unfold Client.onNotificationResponse, Client.contentOf.
    cbn [fst notification Push.data Client.data]. rewrite Htype. reflexivity.
Qed.

End Routing.

(** ** The set-up card *)

(** X24.  The set-up card is consistent with itself: it shows the check
    mark exactly when its colour is green, which is exactly when the app is
    registered, whatever error is pending; it shows the cross exactly when
    its colour is red, which (when the app is not registered) is exactly
    when there is an error message or the permission is denied; and its
    colour is yellow exactly when it shows the spinner or the bell. *)
Theorem setup_card_is_consistent (s : Client.Setup) :
  (Client.getStatusIcon s = Client.CheckCircle2 <-> Client.registered s = true) /\
  (Client.getStatusColor s = "text-green-600" <-> Client.registered s = true) /\
  (Client.getStatusIcon s = Client.XCircle <-> Client.getStatusColor s = "text-red-600") /\
  (Client.getStatusIcon s = Client.XCircle <->
   Client.registered s = false /\
   (truthy (Client.error s) = true \/ Client.permission s = Some Client.denied)) /\
  (Client.getStatusColor s = "text-yellow-600" <->
   Client.getStatusIcon s = Client.Loader2 \/ Client.getStatusIcon s = Client.Bell) /\
  (Client.registered s = true ->
   Client.getStatusText s = "Push notifications are enabled").
Proof.
  unfold Client.getStatusIcon, Client.getStatusColor, Client.getStatusText,
    Client.isDenied.
  destruct (Client.registered s), (truthy (Client.error s)),
    (Client.permission s) as [[| |]|], (Client.isLoading s); cbn;
    repeat split; intros; try discriminate; try reflexivity; auto;
    repeat match goal with
           | Hor : _ \/ _ |- _ => destruct Hor
           | Hand : _ /\ _ |- _ => destruct Hand
           end; try discriminate.
Qed.

(** * The further facts on the two deployments *)

Section DeviceRuns.
Import Push.

Lemma fleet_ids_distinct :
  NoDup (map WithoutAuth._id (WithoutAuth.devices Scenario.fleet)).
Proof.
  cbn. repeat (constructor; [cbn; intuition discriminate|]). constructor.
Qed.

(** A new token is registered on the fleet: it gets id 5, which resolves
    to an active row with that token. *)
Lemma register_then_lookup_witness :
  exists w1 row,
    WithoutAuth.registerDevice (Scenario.registration "tok-Z") Scenario.fleet
      = (Ok 5, w1) /\
    WithoutAuth.resolve 5 (WithoutAuth.devices w1) = Some row /\
    WithoutAuth.pushToken row = "tok-Z" /\
    WithoutAuth.isActive row = Some true.
Proof.
  run_as r w1 Hrun.
  destruct (register_then_lookup (C := Stub.Comp) _ _ _ _ fleet_ids_distinct Hrun)
    as (row & Hres & _ & Htoken & Hactive & _).
  eexists; exists row. split; [reflexivity|]. auto.
Defined.

Lemma register_keeps_rows_distinct_witness :
  exists r w1,
    WithoutAuth.registerDevice (Scenario.registration "tok-Z") Scenario.fleet = (r, w1) /\
    NoDup (map WithoutAuth._id (WithoutAuth.devices w1)) /\
    List.length (WithoutAuth.devices w1) = 5.
Proof.
  run_as r w1 Hrun.
  destruct (register_keeps_rows_distinct (C := Stub.Comp) _ _ _ _ Hrun)
    as (Hids & _ & Hlen).
  eexists; eexists. split; [reflexivity|].
  split; [exact (Hids fleet_ids_distinct)|exact Hlen].
Defined.

(** Device 3 was removed; it is removed again and registers its token
    again: it is active, and the component has not been given the token. *)
Lemma reregistration_skips_component_witness :
  exists w1 w2 row,
    WithoutAuth.removeDeviceToken 3 Scenario.fleet = (Ok tt, w1) /\
    WithoutAuth.registerDevice (Scenario.registration "tok-C") w1 = (Ok 3, w2) /\
    Stub.tokenOf 3 (WithoutAuth.push w2) = None /\
    WithoutAuth.resolve 3 (WithoutAuth.devices w2) = Some row /\
    WithoutAuth.isActive row = Some true.
Proof.
  destruct (WithoutAuth.removeDeviceToken 3 Scenario.fleet) as [r1 w1] eqn:Hremove.
  assert (Hr1 : r1 = Ok tt) by (vm_compute in Hremove; now injection Hremove as <- _).
  subst r1.
  destruct (WithoutAuth.registerDevice (Scenario.registration "tok-C") w1)
    as [r2 w2] eqn:Hrun.
  destruct (proj2 (reregistration_skips_component (C := Stub.Comp))
              (Scenario.registration "tok-C") Scenario.fleet
              (Scenario.device 3 "tok-C" (Some false)) w1 r2 w2
              eq_refl Hremove Hrun)
    as (-> & Hpush & row & Hres & Hactive).
  exists w1, w2, row. split; [reflexivity|]. split; [exact Hrun|].
  split; [now rewrite Hpush|]. auto.
Defined.

Lemma registered_device_is_broadcast_to_witness :
  exists w1 res w2,
    WithoutAuth.registerDevice (Scenario.registration "tok-Z") Scenario.fleet
      = (Ok 5, w1) /\
    WithoutAuth.sendBroadcastNotification (Scenario.deviceBroadcast (Some 1)) w1
      = (Ok res, w2) /\
    In 5 (map attemptTo (newAttempts (WithoutAuth.attempts w1) (WithoutAuth.attempts w2))).
Proof.
  destruct (WithoutAuth.registerDevice (Scenario.registration "tok-Z") Scenario.fleet)
    as [r1 w1] eqn:Hreg.
  assert (Hr1 : r1 = Ok 5) by (vm_compute in Hreg; now injection Hreg as <- _).
  subst r1.
  destruct (device_broadcast_run (C := Stub.Comp) (Scenario.deviceBroadcast (Some 1)) w1)
    as (res & _ & w2 & Hrun & _).
  exists w1, res, w2. split; [reflexivity|]. split; [exact Hrun|].
  assert (Hother : WithoutAuth.excludeDeviceId (Scenario.deviceBroadcast (Some 1))
                   <> Some 5) by (cbn; discriminate).
  exact (registered_device_is_broadcast_to (C := Stub.Comp)
           (Scenario.registration "tok-Z") Scenario.fleet 5 w1
           (Scenario.deviceBroadcast (Some 1)) res w2 Hreg Hother Hrun).
Defined.

Lemma device_app_recovers_id_witness :
  exists w1 device,
    WithoutAuth.registerDevice (Scenario.registration "tok-B") Scenario.fleet
      = (Ok 2, w1) /\
    Client.currentDevice (WithoutAuth.devices w1) "tok-B" = Some device /\
    WithoutAuth._id device = 2.
Proof.
  run_as r w1 Hrun.
  destruct (device_app_recovers_id (C := Stub.Comp) _ _ _ _ Hrun)
    as (all & device & Hall & Hfind & Hid & _).
  injection Hall as <-. injection Hid as Hid.
  eexists; exists device. split; [reflexivity|]. auto.
Defined.

(** Device 1 is sent a message: one attempt, answered with a ticket. *)
Lemma send_to_device_delivers_witness :
  exists w',
    WithoutAuth.sendNotificationToDevice (Scenario.deviceMessage 1) Scenario.fleet
      = (Ok (Some "ticket-tok-A"), w') /\
    map attemptTo (newAttempts (WithoutAuth.attempts Scenario.fleet)
                     (WithoutAuth.attempts w')) = [1].
Proof.
  run_as r w' Hrun.
  destruct (send_to_device_delivers (C := Stub.Comp) (Scenario.deviceMessage 1)
              Scenario.fleet (Scenario.device 1 "tok-A" (Some true)) _ _
              eq_refl eq_refl Hrun)
    as (Hnew & _).
  eexists. split; [reflexivity|]. rewrite Hnew. reflexivity.
Defined.

(** Device 2 has no [isActive] field. *)
Lemma flagless_device_disagreement_witness :
  (exists status,
     WithoutAuth.getDevicePushStatus 2 Scenario.fleet = (Ok status, Scenario.fleet) /\
     WithoutAuth.DeviceStatus.isActive status = true) /\
  WithoutAuth.sendNotificationToDevice (Scenario.deviceMessage 2) Scenario.fleet
  = (Throw (ConvexError "Device is not active"), Scenario.fleet).
Proof.
  destruct (flagless_device_disagreement (C := Stub.Comp) 2 Scenario.fleet
              (Scenario.device 2 "tok-B" None) eq_refl eq_refl)
    as (Hstatus & _ & Hsend).
  split; [exact Hstatus|exact (Hsend (Scenario.deviceMessage 2) eq_refl)].
Defined.

(** Device 1 is removed and then written to. *)
Lemma removed_device_is_unreachable_witness :
  exists w1,
    WithoutAuth.removeDeviceToken 1 Scenario.fleet = (Ok tt, w1) /\
    WithoutAuth.sendNotificationToDevice (Scenario.deviceMessage 1) w1
    = (Throw (ConvexError "Device is not active"), w1).
Proof.
  destruct (WithoutAuth.removeDeviceToken 1 Scenario.fleet) as [r1 w1] eqn:Hremove.
  assert (Hr1 : r1 = Ok tt) by (vm_compute in Hremove; now injection Hremove as <- _).
  subst r1. exists w1. split; [reflexivity|].
  exact (proj1 (removed_device_is_unreachable (C := Stub.Comp) 1 Scenario.fleet w1 Hremove)
           (Scenario.deviceMessage 1) eq_refl).
Defined.

(** Device 3 is inactive and still reached through its token. *)
Lemma send_by_token_reaches_first_row_witness :
  exists r w',
    WithoutAuth.sendNotificationByToken (Scenario.byToken "tok-C") Scenario.fleet
      = (r, w') /\
    WithoutAuth.isActive (Scenario.device 3 "tok-C" (Some false)) = Some false /\
    map attemptTo (newAttempts (WithoutAuth.attempts Scenario.fleet)
                     (WithoutAuth.attempts w')) = [3].
Proof.
  run_as r w' Hrun.
  destruct (proj1 (proj2 (send_by_token_reaches_first_row (C := Stub.Comp)))
              (Scenario.byToken "tok-C") Scenario.fleet
              (Scenario.device 3 "tok-C" (Some false)) _ _ eq_refl Hrun)
    as (Hnew & _).
  eexists; eexists. split; [reflexivity|]. split; [reflexivity|].
  rewrite Hnew. reflexivity.
Defined.

Lemma device_test_send_witness :
  exists r w' request outcome,
    WithoutAuth.sendTestNotification 3 Scenario.fleet = (r, w') /\
    newAttempts (WithoutAuth.attempts Scenario.fleet) (WithoutAuth.attempts w')
      = [(request, outcome)] /\
    userId request = 3 /\
    WithoutAuth.devices w' = WithoutAuth.devices Scenario.fleet.
Proof.
  run_as r w' Hrun.
  destruct (proj2 (device_test_send (C := Stub.Comp)) 3 Scenario.fleet
              (Scenario.device 3 "tok-C" (Some false)) _ _ eq_refl Hrun)
    as (request & outcome & Hnew & _ & Hto & _ & _ & _ & Hdevs & _).
  eexists; eexists; exists request, outcome. split; [reflexivity|]. auto.
Defined.

End DeviceRuns.

Section BroadcastRuns.
Import Push.



Lemma broadcasts_write_nothing_witness :
  exists r w',
    WithoutAuth.sendBroadcastNotification (Scenario.deviceBroadcast None) Scenario.fleet
      = (r, w') /\
    WithoutAuth.devices w' = WithoutAuth.devices Scenario.fleet.
Proof.
  run_as r w' Hrun.
  eexists; eexists. split; [reflexivity|].
  exact (proj2 (proj2 (broadcasts_write_nothing (C := Stub.Comp))) _ _ _ _ Hrun).
Defined.

(** With a stray device the entries marked failed outnumber [failed]. *)
Lemma counters_against_details_witness :
  exists res w',
    WithoutAuth.sendBroadcastNotification (Scenario.deviceBroadcast None)
      Scenario.strayFleet = (Ok res, w') /\
    WithoutAuth.failed res = 1 /\
    List.length
      (filter (fun e => match WithoutAuth.Detail.status e with
                        | WithoutAuth.Detail.failed => true
                        | _ => false
                        end) (WithoutAuth.details res)) = 2.
Proof.
  run_as r w' Hrun.
  eexists; eexists. split; [reflexivity|]. split; [reflexivity|].
  destruct (proj2 (proj2 (counters_against_details (C := Stub.Comp))) _ _ _ _ Hrun)
    as [_ Hfailed].
  rewrite Hfailed. reflexivity.
Defined.

Lemma system_broadcast_breakdown_witness :
  exists res w',
    WithAuth.sendSystemBroadcast Scenario.announcement (Scenario.world None)
      = (Ok res, w') /\
    WithAuth.totalUsers res = 5 /\
    WithAuth.totalUsers res = WithAuth.usersWithTokens res + WithAuth.usersWithoutTokens res.
Proof.
  run_as r w' Hrun.
  destruct (system_broadcast_breakdown (C := Stub.Comp) _ _ _ _ Hrun)
    as (res & Hres & Htotal & Hsum & _).
  injection Hres as <-.
  eexists; eexists. split; [reflexivity|]. split; [exact Htotal|exact Hsum].
Defined.

(** Nobody is signed in and authentication is not waived. *)
Lemma broadcast_refused_only_without_caller_witness :
  exists r w',
    WithAuth.sendBroadcastNotification (Scenario.broadcast None None)
      (Scenario.world None) = (r, w') /\
    (exists e, r = Throw e) /\
    w' = Scenario.world None.
Proof.
  destruct (WithAuth.sendBroadcastNotification (Scenario.broadcast None None)
              (Scenario.world None)) as [r w'] eqn:Hrun.
  destruct (broadcast_refused_only_without_caller (C := Stub.Comp) _ _ _ _ Hrun)
    as [Hiff Hthrown].
  assert (Hrefused : exists e, r = Throw e).
  { apply Hiff. split; [cbn; discriminate|reflexivity]. }
  exists r, w'. split; [reflexivity|]. split; [exact Hrefused|].
  destruct Hrefused as [e He]. exact (proj2 (Hthrown e He)).
Defined.

(** The taps on the forged broadcast bring up the plain alert. *)
Lemma broadcast_taps_are_routed_witness :
  exists res w',
    WithAuth.sendBroadcastNotification Scenario.forged (Scenario.world (Some 1))
      = (Ok res, w') /\
    Forall
      (fun a =>
         Client.onNotificationResponse (Client.contentOf (notification (fst a)))
         = Client.Alert "Hello" (Client.Text "everyone") ["OK"; "View"])
      (newAttempts (WithAuth.attempts (Scenario.world (Some 1))) (WithAuth.attempts w')).
Proof.
  run_as r w' Hrun.
  eexists; eexists. split; [reflexivity|].
  exact (proj1 (broadcast_taps_are_routed (C := Stub.Comp)) _ _ _ _ Hrun).
Defined.

End BroadcastRuns.

Section CallerRuns.
Import Push.

(** User 3 records a token and reads it back. *)
Lemma record_then_read_token_witness :
  exists w1,
    WithAuth.recordPushToken "tok-C" (Scenario.world (Some 3)) = (Ok tt, w1) /\
    WithAuth.getCurrentUserWithToken w1
    = (Ok (Some (Scenario.user 3 (Some "tok-C"))), w1).
Proof.
  destruct (WithAuth.recordPushToken "tok-C" (Scenario.world (Some 3)))
    as [r1 w1] eqn:Hrun.
  assert (Hr1 : r1 = Ok tt) by (vm_compute in Hrun; now injection Hrun as <- _).
  subst r1. exists w1. split; [reflexivity|].
  destruct (record_then_read_token (C := Stub.Comp) _ _ _ Hrun)
    as (caller & Hcaller & Hread & _).
  injection Hcaller as <-. exact Hread.
Defined.

(** User 1 records the empty token and is left out of the next broadcast. *)
Lemma recorded_token_decides_delivery_witness :
  exists w1 res w2,
    WithAuth.recordPushToken "" (Scenario.world (Some 1)) = (Ok tt, w1) /\
    WithAuth.sendSystemBroadcast Scenario.announcement w1 = (Ok res, w2) /\
    ~ In 1 (map attemptTo (newAttempts (WithAuth.attempts w1) (WithAuth.attempts w2))).
Proof.
  destruct (WithAuth.recordPushToken "" (Scenario.world (Some 1)))
    as [r1 w1] eqn:Hrun.
  assert (Hr1 : r1 = Ok tt) by (vm_compute in Hrun; now injection Hrun as <- _).
  subst r1.
  destruct (system_broadcast_run (C := Stub.Comp) Scenario.announcement w1)
    as (res & _ & w2 & Hsend & _).
  exists w1, res, w2. split; [reflexivity|]. split; [exact Hsend|].
  intros Hin.
  apply (recorded_token_decides_delivery (C := Stub.Comp) "" (Scenario.world (Some 1))
           w1 Scenario.announcement res w2 (Scenario.user 1 (Some "tok-A"))
           Hrun eq_refl Hsend) in Hin.
  now apply Hin.
Defined.

Lemma removed_token_stops_delivery_witness :
  exists w1,
    WithAuth.removePushToken (Scenario.world (Some 1)) = (Ok tt, w1) /\
    Client.isRegistered (WithAuth.currentUserOf w1) (Some "tok-A") = false.
Proof.
  destruct (WithAuth.removePushToken (Scenario.world (Some 1))) as [r1 w1] eqn:Hrun.
  assert (Hr1 : r1 = Ok tt) by (vm_compute in Hrun; now injection Hrun as <- _).
  subst r1. exists w1. split; [reflexivity|].
  destruct (removed_token_stops_delivery (C := Stub.Comp) _ _ Hrun)
    as (caller & _ & _ & Hregistered & _).
  apply Hregistered.
Defined.

(** User 1 writes to user 2 and signs as user 4. *)
Lemma send_to_user_delivers_witness :
  exists r w',
    WithAuth.sendNotificationToUser (Scenario.note 2 4) (Scenario.world (Some 1))
      = (r, w') /\
    map attemptTo (newAttempts (WithAuth.attempts (Scenario.world (Some 1)))
                     (WithAuth.attempts w')) = [2] /\
    WithAuth.users w' = WithAuth.users (Scenario.world (Some 1)).
Proof.
  run_as r w' Hrun.
  destruct (send_to_user_delivers (C := Stub.Comp) (Scenario.note 2 4)
              (Scenario.world (Some 1)) (Scenario.user 1 (Some "tok-A"))
              (Scenario.user 2 (Some "tok-B")) _ _ eq_refl eq_refl Hrun)
    as (Hnew & Husers & _).
  eexists; eexists. split; [reflexivity|]. split; [|exact Husers].
  rewrite Hnew. reflexivity.
Defined.

(** User 3, who has no token, asks for a test notification. *)
Lemma auth_test_send_witness :
  exists r w' request outcome,
    WithAuth.sendTestNotification (Scenario.world (Some 3)) = (r, w') /\
    newAttempts (WithAuth.attempts (Scenario.world (Some 3))) (WithAuth.attempts w')
      = [(request, outcome)] /\
    userId request = 3.
Proof.
  run_as r w' Hrun.
  destruct (proj2 (auth_test_send (C := Stub.Comp)) (Scenario.world (Some 3))
              (Scenario.user 3 None) _ _ eq_refl Hrun)
    as (request & outcome & Hnew & _ & Hto & _).
  eexists; eexists; exists request, outcome. split; [reflexivity|]. auto.
Defined.

(** The tap on that message names user 4 as its sender. *)
Lemma single_send_taps_are_routed_witness :
  exists r w',
    WithAuth.sendNotificationToUser (Scenario.note 2 4) (Scenario.world (Some 1))
      = (r, w') /\
    Forall
      (fun a =>
         Client.onNotificationResponse (Client.contentOf (notification (fst a)))
         = Client.Alert "Message Notification" (Client.FromUser (Some (JId 4)))
             ["OK"; "View"])
      (newAttempts (WithAuth.attempts (Scenario.world (Some 1))) (WithAuth.attempts w')).
Proof.
  run_as r w' Hrun.
  eexists; eexists. split; [reflexivity|].
  exact (proj2 (proj2 (single_send_taps_are_routed (C := Stub.Comp)))
           (Scenario.note 2 4) (Scenario.world (Some 1))
           (Scenario.user 1 (Some "tok-A")) (Scenario.user 2 (Some "tok-B")) _ _
           eq_refl eq_refl eq_refl Hrun).
Defined.

End CallerRuns.
